(** * ewel-server: slot admission control and the test assignment workflow

    A shallow embedding of the booking controller, the test controller and
    the Mongoose models they rely on (Booking, Test, HealthcareCenter,
    TestAssignmentRequest), followed by the properties of the admission
    check, the price snapshot and the assignment review.

    Conventions of the embedding:
    - an ObjectId is its 24-digit hexadecimal string, so that the source's
      [a.toString() === b] comparisons are string equalities;
    - a JS [Date] is its time value, an integer number of milliseconds
      since the epoch; the server's time zone is a [Zone], and a number
      [tz] stands for the zone that keeps the offset [tz] (in
      milliseconds) from UTC;
    - an identifier a request carries is in that canonical form, and
      casting it never fails;
    - slot counts and prices are integers, as the data model of the
      specification has them (the schemas type them as numbers with a
      lower and an upper bound);
    - a collection is the list of its documents in insertion order;
    - a request handler is a function from the store to the new store and
      what the handler did with the response: [res.status(c).json(o)] or
      [next(error)]. *)

From Stdlib Require Import ZArith List String Bool Lia DecimalString.
Import ListNotations.
Local Open Scope list_scope.
Local Open Scope Z_scope.

(** JS strict equality on strings. *)
Notation "a === b" := (String.eqb a b) (at level 70, no associativity).

(** ** Documents *)

Definition ObjectId := string.

Inductive BookingStatus := pending | confirmed | completed | canceled.

Inductive AssignmentStatus := asg_pending | asg_approved | asg_rejected.

Inductive Role := Superadmin | HCSAdmin | Doctor | Customer.

Definition BookingStatus_eqb (a b : BookingStatus) : bool :=
  match a, b with
  | pending, pending | confirmed, confirmed
  | completed, completed | canceled, canceled => true
  | _, _ => false
  end.

Definition AssignmentStatus_eqb (a b : AssignmentStatus) : bool :=
  match a, b with
  | asg_pending, asg_pending | asg_approved, asg_approved
  | asg_rejected, asg_rejected => true
  | _, _ => false
  end.

(** The [enum] validators of the schemas: a string outside the enum is a
    validation error. *)
Definition BookingStatus_of_string (s : string) : option BookingStatus :=
  if s === "pending" then Some pending
  else if s === "confirmed" then Some confirmed
  else if s === "completed" then Some completed
  else if s === "canceled" then Some canceled
  else None.

Definition AssignmentStatus_of_string (s : string) : option AssignmentStatus :=
  if s === "pending" then Some asg_pending
  else if s === "approved" then Some asg_approved
  else if s === "rejected" then Some asg_rejected
  else None.

(** One element of [Test.hcsPricing]. *)
Record Pricing := mkPricing {
  p_hcs : ObjectId;
  p_price : Z;
  p_status : AssignmentStatus
}.

Record Test := mkTest {
  t_id : ObjectId;
  price : Z;
  hcsPricing : list Pricing
}.

(** One element of [HealthcareCenter.testSlots]. *)
Record TestSlot := mkTestSlot {
  ts_test : ObjectId;
  slotsPerDay : Z
}.

Record HealthcareCenter := mkHealthcareCenter {
  h_id : ObjectId;
  admin : ObjectId;
  availableSlotsPerDay : Z;
  testSlots : list TestSlot
}.

Record Booking := mkBooking {
  b_id : ObjectId;
  b_user : ObjectId;
  b_test : ObjectId;
  b_hcs : ObjectId;
  b_status : BookingStatus;
  scheduledAt : Z;
  priceAtBooking : option Z
}.

Record TestAssignmentRequest := mkTestAssignmentRequest {
  r_id : ObjectId;
  r_test : ObjectId;
  r_hcs : ObjectId;
  requestedPrice : Z;
  r_status : AssignmentStatus;
  requestedBy : ObjectId;
  reviewedBy : option ObjectId;
  notes : option string
}.

Record User := mkUser {
  u_id : ObjectId;
  phone : option string
}.

(** The store: one list per collection. *)
Record Db := mkDb {
  tests : list Test;
  centers : list HealthcareCenter;
  bookings : list Booking;
  requests : list TestAssignmentRequest;
  users : list User
}.

(** [req.user], as the authentication middleware leaves it. *)
Record ReqUser := mkReqUser {
  id : ObjectId;
  role : Role;
  hcs : option ObjectId
}.

(** ** Responses *)

Inductive Json :=
| JBool (b : bool)
| JNum (n : Z)
| JStr (s : string)
| JBooking (b : option Booking)
| JRequest (r : option TestAssignmentRequest)
| JTest (t : option Test)
| JAssigned (t : option Test) (h : HealthcareCenter).

Record Response := mkResponse {
  code : nat;
  json : list (string * Json)
}.

Inductive Outcome :=
| Respond (r : Response)
| Next (error : string).

(** [res.status(c).json({ success: false, message: m })] *)
Definition failure (c : nat) (m : string) : Outcome :=
  Respond (mkResponse c [("success"%string, JBool false); ("message"%string, JStr m)]).

(** [res.status(c).json({ success: true, data: d })] *)
Definition success (c : nat) (d : Json) : Outcome :=
  Respond (mkResponse c [("success"%string, JBool true); ("data"%string, d)]).

Fixpoint field (k : string) (o : list (string * Json)) : option Json :=
  match o with
  | [] => None
  | (k', v) :: o' => if k' === k then Some v else field k o'
  end.

(** A template literal's [${n}] for an integer [n]. *)
Definition showZ (n : Z) : string := NilZero.string_of_int (Z.to_int n).

(** ** Collection primitives *)

Definition findTest (i : ObjectId) (db : Db) : option Test :=
  find (fun t => t_id t === i) (tests db).

Definition findCenter (i : ObjectId) (db : Db) : option HealthcareCenter :=
  find (fun h => h_id h === i) (centers db).

Definition findBooking (i : ObjectId) (db : Db) : option Booking :=
  find (fun b => b_id b === i) (bookings db).

Definition findRequest (i : ObjectId) (db : Db) : option TestAssignmentRequest :=
  find (fun r => r_id r === i) (requests db).

(** [HealthcareCenter.findOne({ admin: userId })] *)
Definition findCenterByAdmin (u : ObjectId) (db : Db) : option HealthcareCenter :=
  find (fun h => admin h === u) (centers db).

(** Writing a document back: the first document the predicate selects is
    replaced, as [updateOne] does. *)
Fixpoint replaceFirst {A : Type} (p : A -> bool) (f : A -> A) (l : list A) : list A :=
  match l with
  | [] => []
  | x :: l' => if p x then f x :: l' else x :: replaceFirst p f l'
  end.

Definition setTests (db : Db) (l : list Test) : Db :=
  mkDb l (centers db) (bookings db) (requests db) (users db).

Definition setCenters (db : Db) (l : list HealthcareCenter) : Db :=
  mkDb (tests db) l (bookings db) (requests db) (users db).

Definition setBookings (db : Db) (l : list Booking) : Db :=
  mkDb (tests db) (centers db) l (requests db) (users db).

Definition setRequests (db : Db) (l : list TestAssignmentRequest) : Db :=
  mkDb (tests db) (centers db) (bookings db) l (users db).

Definition setUsers (db : Db) (l : list User) : Db :=
  mkDb (tests db) (centers db) (bookings db) (requests db) l.

Definition writeTest (t : Test) (db : Db) : Db :=
  setTests db (replaceFirst (fun x => t_id x === t_id t) (fun _ => t) (tests db)).

Definition writeCenter (h : HealthcareCenter) (db : Db) : Db :=
  setCenters db (replaceFirst (fun x => h_id x === h_id h) (fun _ => h) (centers db)).

Definition writeBooking (b : Booking) (db : Db) : Db :=
  setBookings db (replaceFirst (fun x => b_id x === b_id b) (fun _ => b) (bookings db)).

Definition writeRequest (r : TestAssignmentRequest) (db : Db) : Db :=
  setRequests db (replaceFirst (fun x => r_id x === r_id r) (fun _ => r) (requests db)).

(** ** models/HealthcareCenter.js *)

Module HealthcareCenterModel.

(** Schema defaults applied by [HealthcareCenter.create]:
    [availableSlotsPerDay] is 10 when the field is absent, [testSlots] is
    empty. *)
Definition defaultSlots : Z := 10.

Definition create (i a : ObjectId) (slots : option Z) : HealthcareCenter :=
  mkHealthcareCenter i a
    (match slots with Some n => n | None => defaultSlots end) [].

(** The [min]/[max] validators of the two slot fields. *)
Definition validSlots (n : Z) : bool := (0 <=? n) && (n <=? 100).

Definition getSlotsForTest (this : HealthcareCenter) (testId : ObjectId) : Z :=
  match find (fun slot => ts_test slot === testId) (testSlots this) with
  | Some testSlot => slotsPerDay testSlot
  | None => availableSlotsPerDay this
  end.

Definition setSlotsForTest (this : HealthcareCenter) (testId : ObjectId) (slots : Z)
  : HealthcareCenter :=
  let hit := fun slot => ts_test slot === testId in
  mkHealthcareCenter (h_id this) (admin this) (availableSlotsPerDay this)
    (if existsb hit (testSlots this)
     then replaceFirst hit (fun s => mkTestSlot (ts_test s) slots) (testSlots this)
     else testSlots this ++ [mkTestSlot testId slots]).

End HealthcareCenterModel.

(** ** The slot counter of controllers/bookingController.js *)

(** The language specification reads the time zone of the host through
    two operations: [LocalTime] gives the local time value of an instant,
    [UTC] the instant of a local time value. Where the offset of the zone
    changes, a local time value belongs to two instants or to none, and
    [UTC] picks one. *)
Record Zone := mkZone {
  LocalTime : Z -> Z;
  UTC : Z -> Z
}.

(** The zone that keeps one offset from UTC, in milliseconds. A number
    used as a zone stands for this one. *)
Definition fixedOffset (tz : Z) : Zone :=
  mkZone (fun t => t + tz) (fun t => t - tz).

Coercion fixedOffset : Z >-> Zone.

Definition msPerDay : Z := 86400000.

(** [Day], [MakeTime] and [MakeDate] of the language specification. *)
Definition Day (t : Z) : Z := t / msPerDay.

Definition MakeTime (hour min sec ms : Z) : Z :=
  hour * 3600000 + min * 60000 + sec * 1000 + ms.

Definition MakeDate (day time : Z) : Z := day * msPerDay + time.

(** [d.setHours(hour, min, sec, ms)]: the fields are set on the local
    time value of the date, which is then read back as an instant. *)
Definition setHours (zone : Zone) (hour min sec ms : Z) (date : Z) : Z :=
  UTC zone (MakeDate (Day (LocalTime zone date)) (MakeTime hour min sec ms)).

Section SlotCounter.

(** The time zone of the server. *)
Variable zone : Zone.

(** [d.setHours(0, 0, 0, 0)] *)
Definition startOfDay (date : Z) : Z := setHours zone 0 0 0 0 date.

(** [d.setHours(23, 59, 59, 999)] *)
Definition endOfDay (date : Z) : Z := setHours zone 23 59 59 999 date.

(** The filter of the [countDocuments] query. *)
Definition occupies (hcsId : ObjectId) (date : Z) (b : Booking) : bool :=
  (b_hcs b === hcsId)
  && (startOfDay date <=? scheduledAt b)
  && (scheduledAt b <=? endOfDay date)
  && negb (BookingStatus_eqb (b_status b) canceled).

Definition countBookingsForDate (db : Db) (hcsId : ObjectId) (date : Z) : Z :=
  Z.of_nat (List.length (filter (occupies hcsId date) (bookings db))).

End SlotCounter.

(** ** models/Booking.js *)

Module BookingModel.

(** [test.hcsPricing.find(pricing => pricing.hcs.toString() === hcsId
    && pricing.status === 'approved')] *)
Definition approvedPricing (t : Test) (hcsId : ObjectId) : option Pricing :=
  find (fun pricing =>
          (p_hcs pricing === hcsId)
          && AssignmentStatus_eqb (p_status pricing) asg_approved)
       (hcsPricing t).

Definition setPrice (this : Booking) (p : Z) : Booking :=
  mkBooking (b_id this) (b_user this) (b_test this) (b_hcs this)
            (b_status this) (scheduledAt this) (Some p).

Definition setStatus (this : Booking) (st : BookingStatus) : Booking :=
  mkBooking (b_id this) (b_user this) (b_test this) (b_hcs this)
            st (scheduledAt this) (priceAtBooking this).

(** [bookingSchema.pre('save')] *)
Definition pre_save (db : Db) (isNew : bool) (this : Booking) : Booking :=
  if isNew then
    match findTest (b_test this) db with
    | Some test =>
        match approvedPricing test (b_hcs this) with
        | Some hcsPricing => setPrice this (p_price hcsPricing)
        | None => setPrice this (price test)
        end
    | None => setPrice this 0
    end
  else this.

(** [Booking.create({ user, test, hcs, scheduledAt })]: the schema default
    gives status pending, the hook runs with [isNew], and the unique index
    on [_id] refuses an identifier already in the collection. *)
Definition create (db : Db) (newId user test hcs : ObjectId) (at_ : Z)
  : option (Db * Booking) :=
  match findBooking newId db with
  | Some _ => None
  | None =>
      let doc := pre_save db true (mkBooking newId user test hcs pending at_ None) in
      Some (setBookings db (bookings db ++ [doc]), doc)
  end.

(** [booking.save()] on a document read from the store. *)
Definition save (db : Db) (this : Booking) : Db :=
  writeBooking (pre_save db false this) db.

End BookingModel.

(** ** controllers/bookingController.js *)

(** What [new Date(scheduledAt)] makes of the request field: the field is
    absent or empty, or the Date is invalid (its time value is NaN), or it
    has a time value. *)
Inductive DateInput := NoDate | InvalidDate | ValidDate (ms : Z).

Record CreateBookingBody := mkCreateBookingBody {
  cb_test : option string;
  cb_hcs : option string;
  cb_scheduledAt : DateInput;
  cb_phone : option string
}.

(** The fields of the Booking schema a request body may carry into
    [findByIdAndUpdate]. *)
Record UpdateBookingBody := mkUpdateBookingBody {
  ub_status : option string;
  ub_scheduledAt : option Z;
  ub_test : option ObjectId;
  ub_hcs : option ObjectId;
  ub_priceAtBooking : option Z
}.

(** JS falsiness of an optional string field. *)
Definition falsy (o : option string) : bool :=
  match o with
  | None => true
  | Some s => s === ""
  end.

Definition orEmpty (o : option string) : string :=
  match o with
  | Some s => s
  | None => ""%string
  end.

Definition orElse {A : Type} (o : option A) (d : A) : A :=
  match o with
  | Some a => a
  | None => d
  end.

Definition noSlotsMessage (availableSlots : Z) : string :=
  ("No available slots for the selected date. Maximum "
   ++ showZ availableSlots
   ++ " bookings allowed per day for this test.")%string.

Definition Role_eqb (a b : Role) : bool :=
  match a, b with
  | Superadmin, Superadmin | HCSAdmin, HCSAdmin
  | Doctor, Doctor | Customer, Customer => true
  | _, _ => false
  end.

Module bookingController.
Section Handlers.

(** The time zone of the server. *)
Variable zone : Zone.

(** The ownership check both [updateBooking] and [cancelBooking] apply
    to an HCS Admin. *)
Definition hcsAdminOwns (user : ReqUser) (booking : Booking) (db : Db) : bool :=
  match findCenterByAdmin (id user) db with
  | Some hcs => h_id hcs === b_hcs booking
  | None => false
  end.

(** [User.findByIdAndUpdate(req.user.id, { phone })] *)
Definition setPhone (user : ReqUser) (phone : option string) (db : Db) : Db :=
  setUsers db (replaceFirst (fun u => u_id u === id user)
                            (fun u => mkUser (u_id u) phone)
                            (users db)).

Definition createBooking (now : Z) (newId : ObjectId) (user : ReqUser)
           (body : CreateBookingBody) (db : Db) : Db * Outcome :=
  let '(testId, hcsId) := (orEmpty (cb_test body), orEmpty (cb_hcs body)) in
  if falsy (cb_test body) || falsy (cb_hcs body)
     || match cb_scheduledAt body with NoDate => true | _ => false end
  then (db, failure 400 "Test, healthcare center, and scheduled date are required")
  else
  match findTest testId db with
  | None => (db, failure 404 "Test not found")
  | Some testDoc =>
  let hcsToUse := hcsId in
  match findCenter hcsToUse db with
  | None => (db, failure 404 "Healthcare center not found")
  | Some hcsDoc =>
  match BookingModel.approvedPricing testDoc hcsToUse with
  | None => (db, failure 400 "Test is not available at the selected healthcare center")
  | Some hcsPricing =>
  match cb_scheduledAt body with
  | NoDate | InvalidDate => (db, failure 400 "Invalid date format provided")
  | ValidDate scheduledDate =>
  if scheduledDate <=? now
  then (db, failure 400 "Scheduled time must be in the future")
  else
  let bookingCount := countBookingsForDate zone db hcsToUse scheduledDate in
  let availableSlots := HealthcareCenterModel.getSlotsForTest hcsDoc testId in
  if bookingCount >=? availableSlots
  then (db, failure 400 (noSlotsMessage availableSlots))
  else
  let db1 := if falsy (cb_phone body) then db else setPhone user (cb_phone body) db in
  match BookingModel.create db1 newId (id user) testId hcsToUse scheduledDate with
  | None => (db1, Next "E11000 duplicate key error")
  | Some (db2, booking) =>
      (db2, success 201 (JBooking (findBooking (b_id booking) db2)))
  end
  end end end end.

(** [findByIdAndUpdate(id, req.body, { runValidators: true })]: the
    fields present in the body are set; a status outside the enum is a
    validation error and nothing is written. *)
Definition applyUpdate (body : UpdateBookingBody) (b : Booking) : option Booking :=
  match ub_status body with
  | Some s =>
      match BookingStatus_of_string s with
      | Some st =>
          Some (mkBooking (b_id b) (b_user b)
                  (orElse (ub_test body) (b_test b))
                  (orElse (ub_hcs body) (b_hcs b))
                  st
                  (orElse (ub_scheduledAt body) (scheduledAt b))
                  (match ub_priceAtBooking body with
                   | Some p => Some p
                   | None => priceAtBooking b
                   end))
      | None => None
      end
  | None =>
      Some (mkBooking (b_id b) (b_user b)
              (orElse (ub_test body) (b_test b))
              (orElse (ub_hcs body) (b_hcs b))
              (b_status b)
              (orElse (ub_scheduledAt body) (scheduledAt b))
              (match ub_priceAtBooking body with
               | Some p => Some p
               | None => priceAtBooking b
               end))
  end.

(** [newStatus === 'confirmed' && previousStatus !== 'confirmed'] *)
Definition changingToConfirmed (newStatus : option string)
           (previousStatus : BookingStatus) : bool :=
  match newStatus with
  | Some s => (s === "confirmed") && negb (BookingStatus_eqb previousStatus confirmed)
  | None => false
  end.

Definition updateBooking (user : ReqUser) (bookingId : ObjectId)
           (body : UpdateBookingBody) (db : Db) : Db * Outcome :=
  match findBooking bookingId db with
  | None => (db, failure 404 "Booking not found")
  | Some booking =>
  if Role_eqb (role user) HCSAdmin && negb (hcsAdminOwns user booking db)
  then (db, failure 403 "Not authorized to update this booking")
  else
  let previousStatus := b_status booking in
  let newStatus := ub_status body in
  let write :=
    match applyUpdate body booking with
    | None => (db, Next "ValidationError")
    | Some booking' =>
        let db' := writeBooking booking' db in
        (db', success 200 (JBooking (findBooking bookingId db')))
    end in
  if changingToConfirmed newStatus previousStatus then
    let scheduledDate := scheduledAt booking in
    let bookingCount := countBookingsForDate zone db (b_hcs booking) scheduledDate in
    match findCenter (b_hcs booking) db with
    | None => (db, Next "TypeError")
    | Some hcsDoc =>
        let availableSlots :=
          HealthcareCenterModel.getSlotsForTest hcsDoc (b_test booking) in
        if bookingCount >=? availableSlots
        then (db, failure 400 (noSlotsMessage availableSlots))
        else write
    end
  else write
  end.

Definition cancelBooking (user : ReqUser) (bookingId : ObjectId) (db : Db)
  : Db * Outcome :=
  match findBooking bookingId db with
  | None => (db, failure 404 "Booking not found")
  | Some booking =>
  if Role_eqb (role user) Customer && negb (b_user booking === id user)
  then (db, failure 403 "Not authorized to cancel this booking")
  else
  if Role_eqb (role user) HCSAdmin && negb (hcsAdminOwns user booking db)
  then (db, failure 403 "Not authorized to cancel this booking")
  else
  let db' := BookingModel.save db (BookingModel.setStatus booking canceled) in
  (db', success 200 (JBooking (findBooking (b_id booking) db')))
  end.

End Handlers.
End bookingController.

(** ** controllers/testController.js *)

Record AssignBody := mkAssignBody {
  as_hcs : ObjectId;
  as_price : Z;
  as_slots : option Z
}.

Record ReviewBody := mkReviewBody {
  rv_status : string;
  rv_notes : option string
}.

Record RequestBody := mkRequestBody {
  rq_price : Z;
  rq_notes : option string
}.

Record UpdateTestBody := mkUpdateTestBody {
  ut_price : option Z;
  ut_hcsPricing : option (list Pricing)
}.

Module testController.

Definition setHcsPricing (t : Test) (l : list Pricing) : Test :=
  mkTest (t_id t) (price t) l.

(** The search-then-replace both [assignTestToHCS] and
    [reviewAssignmentRequest] perform on [test.hcsPricing]: the first
    entry of the center is overwritten, or a new entry is pushed. *)
Definition upsertPricing (hcsId : ObjectId) (p : Z) (l : list Pricing)
  : list Pricing :=
  let hit := fun item => p_hcs item === hcsId in
  match find hit l with
  | Some existingAssignment =>
      replaceFirst hit (fun item => mkPricing (p_hcs item) p asg_approved) l
  | None => l ++ [mkPricing hcsId p asg_approved]
  end.

(** The [min: 0] validator of a price. *)
Definition validPrice (p : Z) : bool := 0 <=? p.

(** The [maxlength: 500] validator of the notes. *)
Definition validNotes (n : option string) : bool :=
  match n with
  | Some s => (String.length s <=? 500)%nat
  | None => true
  end.

Definition updateTest (testId : ObjectId) (body : UpdateTestBody) (db : Db)
  : Db * Outcome :=
  match findTest testId db with
  | None => (db, failure 404 "Test not found")
  | Some test =>
      let test' := mkTest (t_id test) (orElse (ut_price body) (price test))
                          (orElse (ut_hcsPricing body) (hcsPricing test)) in
      if validPrice (price test')
         && forallb (fun item => validPrice (p_price item)) (hcsPricing test')
      then let db' := writeTest test' db in
           (db', success 200 (JTest (findTest testId db')))
      else (db, Next "ValidationError")
  end.

Definition assignTestToHCS (testId : ObjectId) (body : AssignBody) (db : Db)
  : Db * Outcome :=
  match findCenter (as_hcs body) db with
  | None => (db, failure 404 "Healthcare center not found")
  | Some healthcareCenter =>
  match findTest testId db with
  | None => (db, failure 404 "Test not found")
  | Some test =>
  if negb (validPrice (as_price body)) then (db, Next "ValidationError")
  else
  let db1 :=
    writeTest (setHcsPricing test
                 (upsertPricing (as_hcs body) (as_price body) (hcsPricing test))) db in
  let respond := fun d h =>
    (d, Respond (mkResponse 200
          [("success"%string, JBool true);
           ("message"%string, JStr "Test assigned to HCS successfully");
           ("data"%string, JAssigned (findTest testId d) h)])) in
  match as_slots body with
  | Some slots =>
      if HealthcareCenterModel.validSlots slots
      then
        let healthcareCenter' :=
          HealthcareCenterModel.setSlotsForTest healthcareCenter testId slots in
        respond (writeCenter healthcareCenter' db1) healthcareCenter'
      else (db1, Next "ValidationError")
  | None => respond db1 healthcareCenter
  end
  end end.

Definition removeTestFromHCS (testId hcsId : ObjectId) (db : Db) : Db * Outcome :=
  match findTest testId db with
  | None => (db, failure 404 "Test not found")
  | Some test =>
      let db' :=
        writeTest (setHcsPricing test
                     (filter (fun item => negb (p_hcs item === hcsId))
                             (hcsPricing test))) db in
      (db', Respond (mkResponse 200
              [("success"%string, JBool true);
               ("message"%string, JStr "Test removed from HCS successfully");
               ("data"%string, JTest (findTest testId db'))]))
  end.

Definition requestTestAssignment (newId : ObjectId) (user : ReqUser)
           (testId : ObjectId) (body : RequestBody) (db : Db) : Db * Outcome :=
  let hcsId := orEmpty (hcs user) in
  match findCenter hcsId db with
  | None => (db, failure 404 "Healthcare center not found")
  | Some healthcareCenter =>
  match findTest testId db with
  | None => (db, failure 404 "Test not found")
  | Some test =>
  match BookingModel.approvedPricing test hcsId with
  | Some existingApprovedAssignment =>
      (db, failure 400 "Test is already assigned to this HCS")
  | None =>
  if existsb (fun r => (r_test r === testId) && (r_hcs r === hcsId)
                       && AssignmentStatus_eqb (r_status r) asg_pending)
             (requests db)
  then (db, failure 400 "There is already a pending request for this test from your HCS")
  else
  if negb (validPrice (rq_price body) && validNotes (rq_notes body))
  then (db, Next "ValidationError")
  else
  match findRequest newId db with
  | Some _ => (db, Next "E11000 duplicate key error")
  | None =>
      let doc := mkTestAssignmentRequest newId testId hcsId (rq_price body)
                   asg_pending (id user) None (rq_notes body) in
      let db' := setRequests db (requests db ++ [doc]) in
      (db', Respond (mkResponse 201
              [("success"%string, JBool true);
               ("message"%string, JStr "Test assignment request submitted successfully");
               ("data"%string, JRequest (findRequest newId db'))]))
  end
  end end end.

Definition reviewAssignmentRequest (user : ReqUser) (requestId : ObjectId)
           (body : ReviewBody) (db : Db) : Db * Outcome :=
  let status := rv_status body in
  let reviewerId := id user in
  match findRequest requestId db with
  | None => (db, failure 404 "Assignment request not found")
  | Some request =>
  match AssignmentStatus_of_string status with
  | None => (db, Next "ValidationError")
  | Some st =>
  let request' :=
    mkTestAssignmentRequest (r_id request) (r_test request) (r_hcs request)
      (requestedPrice request) st (requestedBy request) (Some reviewerId)
      (if falsy (rv_notes body) then notes request else rv_notes body) in
  if negb (falsy (rv_notes body)) && negb (validNotes (rv_notes body))
  then (db, Next "ValidationError")
  else
  let db1 := writeRequest request' db in
  let respond := fun d =>
    (d, Respond (mkResponse 200
          [("success"%string, JBool true);
           ("message"%string,
            JStr ("Test assignment request " ++ status ++ " successfully")%string);
           ("data"%string, JRequest (findRequest requestId d))])) in
  if status === "approved" then
    match findTest (r_test request') db1 with
    | Some test =>
        if negb (validPrice (requestedPrice request'))
        then (db1, Next "ValidationError")
        else
          respond
            (writeTest (setHcsPricing test
                          (upsertPricing (r_hcs request') (requestedPrice request')
                                         (hcsPricing test))) db1)
    | None => respond db1
    end
  else respond db1
  end end.

End testController.

(** ** controllers/hcsController.js *)

(** The query of the availability routes: [date] as [new Date] reads it,
    and the optional [test]. *)
Record AvailabilityQuery := mkAvailabilityQuery {
  aq_date : DateInput;
  aq_test : option string
}.

(** The [data] object of an availability answer. *)
Record AvailabilityReport := mkAvailabilityReport {
  ar_date : string;
  ar_total : Z;
  ar_booked : Z;
  ar_available : Z
}.

(** [res.status(200).json({ success: true, data })], or any other
    outcome. *)
Inductive AvailabilityAnswer :=
| Availability (data : AvailabilityReport)
| NoAvailability (o : Outcome).

(** A body of [updateHealthcareCenter] that carries, of the fields modelled
    here, at most the default slot count. *)
Record UpdateCenterBody := mkUpdateCenterBody {
  uc_availableSlotsPerDay : option Z
}.

Inductive CenterAnswer :=
| CenterData (c : nat) (data : option HealthcareCenter)
| CenterRefused (o : Outcome).

(** [n || 10] for a number [n]. *)
Definition orTen (n : Z) : Z := if n =? 0 then 10 else n.

Module hcsController.

(** [deleteHealthcareCenter]: the center's pricing entries, assignment
    requests and bookings go with it. *)
Definition deleteHealthcareCenter (hcsId : ObjectId) (db : Db) : Db * Outcome :=
  match findCenter hcsId db with
  | None => (db, failure 404 "Healthcare center not found")
  | Some hcs =>
      let gone := h_id hcs in
      (mkDb (map (fun t => testController.setHcsPricing t
                             (filter (fun item => negb (p_hcs item === gone))
                                     (hcsPricing t)))
                 (tests db))
            (filter (fun h => negb (h_id h === gone)) (centers db))
            (filter (fun b => negb (b_hcs b === gone)) (bookings db))
            (filter (fun r => negb (r_hcs r === gone)) (requests db))
            (users db),
       Respond (mkResponse 200
         [("success"%string, JBool true);
          ("message"%string, JStr "Healthcare center deleted successfully")]))
  end.

Definition updateHealthcareCenter (user : ReqUser) (hcsId : ObjectId)
           (body : UpdateCenterBody) (db : Db) : Db * CenterAnswer :=
  match findCenter hcsId db with
  | None => (db, CenterRefused (failure 404 "Healthcare center not found"))
  | Some hcs =>
      if Role_eqb (role user) HCSAdmin && negb (admin hcs === id user)
      then (db, CenterRefused
                  (failure 403 "Not authorized to update this healthcare center"))
      else
        let hcs' :=
          mkHealthcareCenter (h_id hcs) (admin hcs)
            (orElse (uc_availableSlotsPerDay body) (availableSlotsPerDay hcs))
            (testSlots hcs) in
        if match uc_availableSlotsPerDay body with
           | Some n => HealthcareCenterModel.validSlots n
           | None => true
           end
        then let db' := writeCenter hcs' db in
             (db', CenterData 200 (findCenter hcsId db'))
        else (db, CenterRefused (Next "ValidationError"))
  end.

Section Availability.

(** The time zone of the server and [d.toISOString().split('T')[0]]. *)
Variable zone : Zone.
Variable isoDate : Z -> string.

Definition checkAvailability (now : Z) (hcsId : ObjectId)
           (query : AvailabilityQuery) (db : Db) : AvailabilityAnswer :=
  match aq_date query with
  | NoDate => NoAvailability (failure 400 "Date parameter is required")
  | InvalidDate => NoAvailability (failure 400 "Invalid date format")
  | ValidDate selectedDate =>
      let today := startOfDay zone now in
      if selectedDate <? today
      then NoAvailability (failure 400 "Cannot check availability for past dates")
      else
        match findCenter hcsId db with
        | None => NoAvailability (failure 404 "Healthcare center not found")
        | Some hcs =>
            let bookingCount := countBookingsForDate zone db hcsId selectedDate in
            let availableSlots :=
              if falsy (aq_test query)
              then orTen (availableSlotsPerDay hcs)
              else HealthcareCenterModel.getSlotsForTest hcs
                     (orEmpty (aq_test query)) in
            let available := Z.max 0 (availableSlots - bookingCount) in
            Availability
              (mkAvailabilityReport (isoDate selectedDate) availableSlots
                                    bookingCount available)
        end
  end.

(** The loop of [checkAllAvailability] over the centers, with its two
    running totals; [None] is the early 404 for an unknown test. *)
Fixpoint sumAvailability (test : option string) (selectedDate : Z) (db : Db)
         (hcsList : list HealthcareCenter) (totalSlots totalBooked : Z)
  : option (Z * Z) :=
  match hcsList with
  | [] => Some (totalSlots, totalBooked)
  | hcs :: rest =>
      let bookingCount := countBookingsForDate zone db (h_id hcs) selectedDate in
      if falsy test
      then sumAvailability test selectedDate db rest
             (totalSlots + orTen (availableSlotsPerDay hcs))
             (totalBooked + bookingCount)
      else
        match findTest (orEmpty test) db with
        | None => None
        | Some testDoc =>
            let hcsOffersTest :=
              existsb (fun pricing =>
                         (p_hcs pricing === h_id hcs)
                         && AssignmentStatus_eqb (p_status pricing) asg_approved)
                      (hcsPricing testDoc) in
            if negb hcsOffersTest
            then sumAvailability test selectedDate db rest totalSlots totalBooked
            else sumAvailability test selectedDate db rest
                   (totalSlots
                    + HealthcareCenterModel.getSlotsForTest hcs (orEmpty test))
                   (totalBooked + bookingCount)
        end
  end.

Definition checkAllAvailability (now : Z) (query : AvailabilityQuery) (db : Db)
  : AvailabilityAnswer :=
  match aq_date query with
  | NoDate => NoAvailability (failure 400 "Date parameter is required")
  | InvalidDate => NoAvailability (failure 400 "Invalid date format")
  | ValidDate selectedDate =>
      let today := startOfDay zone now in
      if selectedDate <? today
      then NoAvailability (failure 400 "Cannot check availability for past dates")
      else
        match sumAvailability (aq_test query) selectedDate db (centers db) 0 0 with
        | None => NoAvailability (failure 404 "Test not found")
        | Some (totalSlots, totalBooked) =>
            Availability
              (mkAvailabilityReport (isoDate selectedDate) totalSlots totalBooked
                                    (Z.max 0 (totalSlots - totalBooked)))
        end
  end.

End Availability.

End hcsController.

(** ** middleware/roleMiddleware.js *)

(** The role as the User schema spells it. *)
Definition roleName (r : Role) : string :=
  match r with
  | Superadmin => "Superadmin"
  | HCSAdmin => "HCS Admin"
  | Doctor => "Doctor"
  | Customer => "Customer"
  end.

Module roleMiddleware.

(** A guard either answers the request itself or calls [next()], which
    is [None] here. [req.user] is absent when no earlier middleware set
    it. *)
Definition authorize (roles : list Role) (user : option ReqUser) : option Outcome :=
  match user with
  | None => Some (failure 401 "Not authorized, user not found")
  | Some u =>
      if negb (existsb (Role_eqb (role u)) roles)
      then Some (failure 403
                   ("User role " ++ roleName (role u)
                    ++ " is not authorized to access this route")%string)
      else None
  end.

Definition superadminOnly (user : option ReqUser) : option Outcome :=
  match user with
  | Some u =>
      if negb (Role_eqb (role u) Superadmin)
      then Some (failure 403 "Access denied. Superadmin role required.")
      else None
  | None => Some (failure 403 "Access denied. Superadmin role required.")
  end.

Definition hcsAdminOrSuperadmin (user : option ReqUser) : option Outcome :=
  match user with
  | Some u =>
      if negb (existsb (Role_eqb (role u)) [HCSAdmin; Superadmin])
      then Some (failure 403 "Access denied. HCS Admin or Superadmin role required.")
      else None
  | None =>
      Some (failure 403 "Access denied. HCS Admin or Superadmin role required.")
  end.

End roleMiddleware.

(** ** api/bookings.js and the assignment routes of api/tests.js

    A route is its guards followed by its handler, as they run once the
    [protect] middleware in front of them has passed the request on with
    [req.user] as it left it. The activity logger between guard and
    handler passes every request on and leaves the answer as it is; its
    log is not part of the store. A handler that reads [req.user.id]
    with no user would throw, and the error go to [next]; no guard below
    lets such a request through. *)

Definition route (guard : option Outcome) (user : option ReqUser)
           (handler : ReqUser -> Db -> Db * Outcome) (db : Db) : Db * Outcome :=
  match guard, user with
  | Some answer, _ => (db, answer)
  | None, Some u => handler u db
  | None, None => (db, Next "TypeError")
  end.

Module bookingsApi.
Section Routes.

Variable zone : Zone.

(** [router.post('/', authorize('Customer'), ..., createBooking)] *)
Definition post (now : Z) (newId : ObjectId) (user : option ReqUser)
           (body : CreateBookingBody) (db : Db) : Db * Outcome :=
  route (roleMiddleware.authorize [Customer] user) user
        (fun u => bookingController.createBooking zone now newId u body) db.

(** [router.put('/:id/cancel', authorize('Customer', 'HCS Admin',
    'Superadmin'), ..., cancelBooking)] *)
Definition put_cancel (user : option ReqUser) (bookingId : ObjectId) (db : Db)
  : Db * Outcome :=
  route (roleMiddleware.authorize [Customer; HCSAdmin; Superadmin] user) user
        (fun u => bookingController.cancelBooking u bookingId) db.

(** [router.put('/:id', authorize('HCS Admin', 'Superadmin'), ...,
    updateBooking)] *)
Definition put (user : option ReqUser) (bookingId : ObjectId)
           (body : UpdateBookingBody) (db : Db) : Db * Outcome :=
  route (roleMiddleware.authorize [HCSAdmin; Superadmin] user) user
        (fun u => bookingController.updateBooking zone u bookingId body) db.

End Routes.
End bookingsApi.

Module testsApi.

(** [router.put('/assignment-requests/:id', protect, superadminOnly,
    reviewAssignmentRequest)] *)
Definition put_assignment_request (user : option ReqUser) (requestId : ObjectId)
           (body : ReviewBody) (db : Db) : Db * Outcome :=
  route (roleMiddleware.superadminOnly user) user
        (fun u => testController.reviewAssignmentRequest u requestId body) db.

(** [router.post('/:id/request-assignment', protect, hcsAdminOrSuperadmin,
    requestTestAssignment)] *)
Definition post_request_assignment (newId : ObjectId) (user : option ReqUser)
           (testId : ObjectId) (body : RequestBody) (db : Db) : Db * Outcome :=
  route (roleMiddleware.hcsAdminOrSuperadmin user) user
        (fun u => testController.requestTestAssignment newId u testId body) db.

(** [router.post('/:id/assign-hcs', protect, superadminOnly,
    assignTestToHCS)] *)
Definition post_assign_hcs (user : option ReqUser) (testId : ObjectId)
           (body : AssignBody) (db : Db) : Db * Outcome :=
  route (roleMiddleware.superadminOnly user) user
        (fun _ => testController.assignTestToHCS testId body) db.

(** [router.delete('/:id/remove-hcs/:hcsId', protect, superadminOnly,
    removeTestFromHCS)] *)
Definition delete_remove_hcs (user : option ReqUser) (testId hcsId : ObjectId)
           (db : Db) : Db * Outcome :=
  route (roleMiddleware.superadminOnly user) user
        (fun _ => testController.removeTestFromHCS testId hcsId) db.

End testsApi.

(** ** The test slots initialization script

    For each center read at the start, [testSlots] is set to one entry per
    test read at the start, with the center's default slot count (10 when
    that is 0); the update runs no validators. *)

Definition initializedSlots (tests_ : list Test) (hcs : HealthcareCenter)
  : list TestSlot :=
  map (fun test => mkTestSlot (t_id test) (orTen (availableSlotsPerDay hcs))) tests_.

Definition initializeTestSlots (db : Db) : Db :=
  fold_left
    (fun d hcs =>
       setCenters d
         (replaceFirst (fun x => h_id x === h_id hcs)
            (fun x => mkHealthcareCenter (h_id x) (admin x) (availableSlotsPerDay x)
                        (initializedSlots (tests db) hcs))
            (centers d)))
    (centers db) db.

(** ** Sequential executions

    A sequential execution is a list of requests handled one after the
    other, each on the store the previous one left. *)

Inductive Request :=
| CreateBooking (now : Z) (newId : ObjectId) (user : ReqUser) (body : CreateBookingBody)
| UpdateBooking (user : ReqUser) (bookingId : ObjectId) (body : UpdateBookingBody)
| CancelBooking (user : ReqUser) (bookingId : ObjectId)
| UpdateTest (testId : ObjectId) (body : UpdateTestBody)
| AssignTestToHCS (testId : ObjectId) (body : AssignBody)
| RemoveTestFromHCS (testId hcsId : ObjectId)
| RequestTestAssignment (newId : ObjectId) (user : ReqUser) (testId : ObjectId)
                        (body : RequestBody)
| ReviewAssignmentRequest (user : ReqUser) (requestId : ObjectId) (body : ReviewBody)
| DeleteHealthcareCenter (hcsId : ObjectId).

Definition handle (zone : Zone) (rq : Request) (db : Db) : Db * Outcome :=
  match rq with
  | CreateBooking now newId user body =>
      bookingController.createBooking zone now newId user body db
  | UpdateBooking user bookingId body =>
      bookingController.updateBooking zone user bookingId body db
  | CancelBooking user bookingId => bookingController.cancelBooking user bookingId db
  | UpdateTest testId body => testController.updateTest testId body db
  | AssignTestToHCS testId body => testController.assignTestToHCS testId body db
  | RemoveTestFromHCS testId hcsId => testController.removeTestFromHCS testId hcsId db
  | RequestTestAssignment newId user testId body =>
      testController.requestTestAssignment newId user testId body db
  | ReviewAssignmentRequest user requestId body =>
      testController.reviewAssignmentRequest user requestId body db
  | DeleteHealthcareCenter hcsId => hcsController.deleteHealthcareCenter hcsId db
  end.

Fixpoint serve (zone : Zone) (rqs : list Request) (db : Db) : Db :=
  match rqs with
  | [] => db
  | rq :: rqs' => serve zone rqs' (fst (handle zone rq db))
  end.


Definition statusOf (o : Outcome) : option nat :=
  match o with
  | Respond r => Some (code r)
  | Next _ => None
  end.

(** The requests that neither write [priceAtBooking] themselves (a body
    of [updateBooking] may carry the field) nor delete bookings (the
    cascade of a center's deletion). *)
Definition leavesSnapshot (rq : Request) : bool :=
  match rq with
  | UpdateBooking _ _ body =>
      match ub_priceAtBooking body with
      | Some _ => false
      | None => true
      end
  | DeleteHealthcareCenter _ => false
  | _ => true
  end.

(** ** Wording of the specification

    The definitions below follow the specification's sentences; the
    theorems compare them with the handlers above. *)

(** The calendar day, in server local time, a timestamp falls on. *)
Definition calendarDay (zone : Zone) (t : Z) : Z := LocalTime zone t / msPerDay.

(** The specification's slot counter: the bookings at the center scheduled
    on the calendar day of [date] and not canceled. *)
Definition countOccupied (zone : Zone) (db : Db) (centerId : ObjectId) (date : Z)
  : Z :=
  Z.of_nat (List.length
    (filter (fun b => (b_hcs b === centerId)
                      && (calendarDay zone (scheduledAt b) =? calendarDay zone date)
                      && negb (BookingStatus_eqb (b_status b) canceled))
            (bookings db))).

(** The instant at which the server's clock reads the given time on the
    calendar day of [date]. *)
Definition clockReads (zone : Zone) (date : Z) (hour min sec ms : Z) : Z :=
  UTC zone (calendarDay zone date * msPerDay
            + (((hour * 60 + min) * 60 + sec) * 1000 + ms)).

(** The specification's slot counter, by its interval: the bookings at
    the center that are not canceled and scheduled from 00:00:00.000 to
    23:59:59.999 on the server's clock, on the calendar day of [date]. *)
Definition countWithinDay (zone : Zone) (db : Db) (centerId : ObjectId) (date : Z)
  : Z :=
  Z.of_nat (List.length
    (filter (fun b => (b_hcs b === centerId)
                      && negb (BookingStatus_eqb (b_status b) canceled)
                      && (clockReads zone date 0 0 0 0 <=? scheduledAt b)
                      && (scheduledAt b <=? clockReads zone date 23 59 59 999))
            (bookings db))).

(** A pricing entry that is the center's and approved: the
    specification's approved pricing entry for (test, center). *)
Definition approvedFor (hcsId : ObjectId) (entry : Pricing) : Prop :=
  p_hcs entry = hcsId /\ p_status entry = asg_approved.

(** The first such entry of a pricing list. *)
Definition firstApproved (hcsId : ObjectId) (l : list Pricing) (entry : Pricing)
  : Prop :=
  exists before after,
    l = before ++ entry :: after
    /\ approvedFor hcsId entry
    /\ forall e, In e before -> ~ approvedFor hcsId e.

(** The pricing entries of a test that belong to one center. *)
Definition entriesFor (hcsId : ObjectId) (l : list Pricing) : list Pricing :=
  filter (fun item => p_hcs item === hcsId) l.

(** The specification's CapacityExceeded error: a response that carries the
    limit and the occupancy as fields of their own. *)
Definition carriesCapacityContext (o : Outcome) (limit occupied : Z) : Prop :=
  exists r, o = Respond r
            /\ field "limit" (json r) = Some (JNum limit)
            /\ field "occupied" (json r) = Some (JNum occupied).

(** ** Scenarios

    The stores and requests of the specification's scenarios, used to run
    the handlers on concrete inputs. The server is taken at UTC+6; the
    bookings are for 2025-06-01, 10:00 local time, asked for a week
    before. *)

Module Scenario.

Local Open Scope string_scope.

Definition tz : Z := 6 * 3600000.
Definition now : Z := 1748145600000.
Definition june1 : Z := 1748750400000.
Definition june1_evening : Z := 1748786400000.
Definition june2 : Z := june1 + msPerDay.

Definition X : ObjectId := "665a00000000000000000001".
Definition T : ObjectId := "665b00000000000000000001".
Definition T' : ObjectId := "665b00000000000000000002".
Definition owner : ObjectId := "665c00000000000000000001".
Definition alice : ObjectId := "665c00000000000000000002".
Definition root : ObjectId := "665c00000000000000000003".
Definition bk (n : string) : ObjectId := "665d0000000000000000000" ++ n.
Definition rq1 : ObjectId := "665e00000000000000000001".

Definition customer : ReqUser := mkReqUser alice Customer None.
Definition centerAdmin : ReqUser := mkReqUser owner HCSAdmin (Some X).
Definition superadmin : ReqUser := mkReqUser root Superadmin None.

Definition book (t : ObjectId) (at_ : Z) : CreateBookingBody :=
  mkCreateBookingBody (Some t) (Some X) (ValidDate at_) None.

Definition confirm : UpdateBookingBody :=
  mkUpdateBookingBody (Some "confirmed"%string) None None None None.

Definition people : list User := [mkUser owner None; mkUser alice None; mkUser root None].

(** Scenario A: default capacity 2, no override, T offered at X for 500. *)
Definition dbA : Db :=
  mkDb [mkTest T 400 [mkPricing X 500 asg_approved]]
       [mkHealthcareCenter X owner 2 []]
       [] [] people.

Definition dbA1 : Db :=
  fst (bookingController.createBooking tz now (bk "1") customer (book T june1) dbA).

Definition dbA2 : Db :=
  fst (bookingController.createBooking tz now (bk "2") customer
         (book T june1_evening) dbA1).

(** Scenario B: override of 1 slot for T, default capacity 5, T and T'
    both offered at X. *)
Definition dbB : Db :=
  mkDb [mkTest T 400 [mkPricing X 500 asg_approved];
        mkTest T' 300 [mkPricing X 350 asg_approved]]
       [mkHealthcareCenter X owner 5 [mkTestSlot T 1]]
       [] [] people.

(** Scenario E: T' exists but its entry for X is still pending. *)
Definition dbE : Db :=
  mkDb [mkTest T 400 [mkPricing X 500 asg_approved];
        mkTest T' 300 [mkPricing X 350 asg_pending]]
       [mkHealthcareCenter X owner 5 []]
       [] [] people.

(** Scenario D: T is not offered at X yet; the center asks for it at 500. *)
Definition dbD : Db :=
  mkDb [mkTest T 400 []]
       [mkHealthcareCenter X owner 10 []]
       [] [] people.

Definition dbD_requested : Db :=
  fst (testController.requestTestAssignment rq1 centerAdmin T
         (mkRequestBody 500 None) dbD).

Definition testT : Test := mkTest T 400 [mkPricing X 500 asg_approved].
Definition centerA : HealthcareCenter := mkHealthcareCenter X owner 2 [].
Definition centerB : HealthcareCenter :=
  mkHealthcareCenter X owner 5 [mkTestSlot T 1].

Definition approve : ReviewBody := mkReviewBody "approved" None.
Definition reject : ReviewBody := mkReviewBody "rejected" None.

Definition dbD_approved : Db :=
  fst (testController.reviewAssignmentRequest superadmin rq1 approve dbD_requested).

End Scenario.

(** ** Auxiliary definitions for the statements *)

(** The document [Booking.create] stores for an admitted request. *)
Definition admitted (db : Db) (newId : ObjectId) (user : ReqUser)
           (testId hcsId : ObjectId) (at_ : Z) : Booking :=
  BookingModel.pre_save db true
    (mkBooking newId (id user) testId hcsId pending at_ None).

(** The checks of [createBooking] that come before the admission check. *)
Definition bookable (db : Db) (now : Z) (body : CreateBookingBody)
           (testId hcsId : ObjectId) (at_ : Z)
           (testDoc : Test) (hcsDoc : HealthcareCenter) : Prop :=
  cb_test body = Some testId /\ testId <> ""%string
  /\ cb_hcs body = Some hcsId /\ hcsId <> ""%string
  /\ cb_scheduledAt body = ValidDate at_
  /\ findTest testId db = Some testDoc
  /\ findCenter hcsId db = Some hcsDoc
  /\ BookingModel.approvedPricing testDoc hcsId <> None
  /\ now < at_.

(** [updateBooking] lets the request through for a Superadmin and for the
    HCS Admin of the booking's center. *)
Definition mayUpdate (user : ReqUser) (booking : Booking) (db : Db) : bool :=
  negb (Role_eqb (role user) HCSAdmin
        && negb (bookingController.hcsAdminOwns user booking db)).

(** [cancelBooking] lets the request through for the owning customer,
    the HCS Admin of the booking's center and the other roles. *)
Definition mayCancel (user : ReqUser) (booking : Booking) (db : Db) : bool :=
  negb (Role_eqb (role user) Customer && negb (b_user booking === id user))
  && negb (Role_eqb (role user) HCSAdmin
           && negb (bookingController.hcsAdminOwns user booking db)).

(** The stored price of the booking with a given identifier. *)
Definition priceOf (i : ObjectId) (db : Db) : option (option Z) :=
  option_map priceAtBooking (findBooking i db).

(** The notes of the review pass the validator, or there are none. *)
Definition notesOk (body : ReviewBody) : bool :=
  falsy (rv_notes body) || testController.validNotes (rv_notes body).

(** The request as a review leaves it. *)
Definition reviewed (user : ReqUser) (body : ReviewBody)
           (st : AssignmentStatus) (request : TestAssignmentRequest)
  : TestAssignmentRequest :=
  mkTestAssignmentRequest (r_id request) (r_test request) (r_hcs request)
    (requestedPrice request) st (requestedBy request) (Some (id user))
    (if falsy (rv_notes body) then notes request else rv_notes body).

(** The test, center and status a pending request is searched by. *)
Definition pendingFor (testId hcsId : ObjectId) (r : TestAssignmentRequest) : bool :=
  (r_test r === testId) && (r_hcs r === hcsId)
  && AssignmentStatus_eqb (r_status r) asg_pending.

(** Whether the loop of [checkAllAvailability] counts a center, and the
    slot count it adds for it. *)
Definition countsCenter (test : option string) (db : Db) (hcs : HealthcareCenter)
  : bool :=
  if falsy test then true
  else match findTest (orEmpty test) db with
       | Some testDoc =>
           existsb (fun pricing =>
                      (p_hcs pricing === h_id hcs)
                      && AssignmentStatus_eqb (p_status pricing) asg_approved)
                   (hcsPricing testDoc)
       | None => false
       end.

Definition slotsReported (test : option string) (hcs : HealthcareCenter) : Z :=
  if falsy test then orTen (availableSlotsPerDay hcs)
  else HealthcareCenterModel.getSlotsForTest hcs (orEmpty test).

(** What the script makes of one center. *)
Definition initialized (tests_ : list Test) (hcs : HealthcareCenter)
  : HealthcareCenter :=
  mkHealthcareCenter (h_id hcs) (admin hcs) (availableSlotsPerDay hcs)
                     (initializedSlots tests_ hcs).

(** Further stores for the scenarios: a canceled booking, a day filled
    again, a center whose default slot count is 0. *)
Module MoreScenarios.

Import Scenario.

Definition stranger : ReqUser := mkReqUser root HCSAdmin None.

Definition dbA_canceled : Db :=
  fst (bookingController.cancelBooking customer (bk "1") dbA2).

Definition dbA_refilled : Db :=
  fst (bookingController.createBooking tz now (bk "3") customer (book T june1)
         dbA_canceled).

Definition reinstate : UpdateBookingBody :=
  mkUpdateBookingBody (Some "pending"%string) None None None None.

Definition centerZero : HealthcareCenter := mkHealthcareCenter X owner 0 [].

Definition dbZero : Db :=
  mkDb [testT] [centerZero] [] [] people.

Definition isoDate (d : Z) : string := "2025-06-01".



(** Scenario D with two entries for X in the pricing list of T, as an
    update of the test can store them. *)
Definition twoEntries : UpdateTestBody :=
  mkUpdateTestBody None
    (Some [mkPricing X 100 asg_rejected; mkPricing X 200 asg_rejected]).

Definition dbD_twice : Db :=
  fst (testController.updateTest T twoEntries dbD_requested).

(** T offered at two centers, the entry of the other center first in
    its pricing list. *)
Definition Y : ObjectId := "665a00000000000000000002"%string.

Definition testT_shared : Test :=
  mkTest T 400 [mkPricing Y 300 asg_approved; mkPricing X 500 asg_approved].

Definition dbShared : Db :=
  mkDb [testT_shared]
       [mkHealthcareCenter X owner 10 []; mkHealthcareCenter Y owner 10 []]
       [] [] people.

(** A zone whose clocks go back one hour on 2025-10-26 at 01:00 UTC: two
    hours ahead of UTC before that instant, one hour ahead from it on; a
    local time that occurs twice is read as the earlier instant. *)
Definition clocksGoBack : Z := 1761440400000.

Definition autumn : Zone :=
  mkZone (fun t => if t <? clocksGoBack then t + 7200000 else t + 3600000)
         (fun l => if l <? clocksGoBack + 7200000 then l - 7200000
                   else l - 3600000).

(** Two bookings on that day, at 00:30 and at 23:30 on the server's
    clock. *)
Definition october26 : Z := 1761472800000.

Definition dbAutumn : Db :=
  mkDb [testT] [centerA]
       [mkBooking (bk "1") alice T X pending 1761431400000 (Some 500);
        mkBooking (bk "2") alice T X pending 1761517800000 (Some 500)]
       [] people.

End MoreScenarios.

(** ** Properties of lists and of the store primitives *)

Section ListFacts.

Context {A : Type}.

Lemma find_replaceFirst_same (p : A -> bool) (f : A -> A) (l : list A) :
  (forall x, p x = true -> p (f x) = true) ->
  find p (replaceFirst p f l) = option_map f (find p l).
Proof.
  intros Hp. induction l as [|x l IH]; simpl; [reflexivity|].
  destruct (p x) eqn:E; simpl.
  - now rewrite (Hp x E).
  - now rewrite E.
Qed.

(** Replacing the first hit changes the number of elements a test [q]
    selects by what the replacement does to that one element. *)
Lemma filter_replaceFirst_length (p q : A -> bool) (f : A -> A) (l : list A) (y : A) :
  find p l = Some y ->
  Z.of_nat (List.length (filter q (replaceFirst p f l)))
  = Z.of_nat (List.length (filter q l))
    - Z.b2z (q y) + Z.b2z (q (f y)).
Proof.
  induction l as [|x l IH]; simpl; [discriminate|].
  destruct (p x) eqn:E.
  - intros [= ->]. simpl.
    destruct (q y), (q (f y)); simpl List.length; simpl Z.b2z; lia.
  - intros H. simpl. specialize (IH H).
    destruct (q x); simpl List.length; lia.
Qed.

Lemma find_app_none (p : A -> bool) (l : list A) (x : A) :
  find p l = None -> find p (l ++ [x]) = if p x then Some x else None.
Proof.
  induction l as [|a l IH]; simpl; [reflexivity|].
  destruct (p a); [discriminate|]. exact IH.
Qed.

Lemma find_app_some (p : A -> bool) (l l' : list A) (y : A) :
  find p l = Some y -> find p (l ++ l') = Some y.
Proof.
  induction l as [|a l IH]; simpl; [discriminate|].
  destruct (p a); [auto|]. exact IH.
Qed.

End ListFacts.

(** ** Capacity store *)

Section CapacityStore.

Import HealthcareCenterModel.

Lemma getSlotsForTest_found (c : HealthcareCenter) (t : ObjectId) (s : TestSlot) :
  find (fun slot => ts_test slot === t) (testSlots c) = Some s ->
  getSlotsForTest c t = slotsPerDay s.
Proof. unfold getSlotsForTest. now intros ->. Qed.

Lemma getSlotsForTest_default (c : HealthcareCenter) (t : ObjectId) :
  find (fun slot => ts_test slot === t) (testSlots c) = None ->
  getSlotsForTest c t = availableSlotsPerDay c.
Proof. unfold getSlotsForTest. now intros ->. Qed.

Lemma find_override_unique (l : list TestSlot) (t : ObjectId) (s : TestSlot) :
  NoDup (map ts_test l) -> In s l -> ts_test s = t ->
  find (fun slot => ts_test slot === t) l = Some s.
Proof.
  induction l as [|a l IH]; simpl; [tauto|].
  intros Hnd [->|Hin] Ht.
  - subst t. now rewrite String.eqb_refl.
  - inversion Hnd as [|? ? Hnotin Hnd']; subst.
    destruct (ts_test a === ts_test s) eqn:E.
    + apply String.eqb_eq in E. exfalso. apply Hnotin.
      rewrite E. now apply in_map.
    + now apply IH.
Qed.

(** Reading back what [setSlotsForTest] wrote. *)
Lemma getSlotsForTest_set_same (c : HealthcareCenter) (t : ObjectId) (n : Z) :
  getSlotsForTest (setSlotsForTest c t n) t = n.
Proof.
  unfold getSlotsForTest, setSlotsForTest; simpl.
  destruct (existsb _ (testSlots c)) eqn:E.
  - rewrite find_replaceFirst_same.
    + destruct (find _ (testSlots c)) eqn:F; simpl; [reflexivity|].
      apply existsb_exists in E as (x & Hin & Hx).
      now rewrite (find_none _ _ F x Hin) in Hx.
    + intros x Hx. exact Hx.
  - assert (F : find (fun slot => ts_test slot === t) (testSlots c) = None).
    { destruct (find _ (testSlots c)) eqn:F; [|reflexivity].
      apply find_some in F as [Hin Hx].
      assert (existsb (fun slot => ts_test slot === t) (testSlots c) = true)
        by (apply existsb_exists; eauto).
      congruence. }
    rewrite (find_app_none _ _ _ F). simpl. now rewrite String.eqb_refl.
Qed.

(** Claim C4. The capacity for a center and a test is the slot count of
    the center's override for that test when the center has one (the only
    one, when overrides are unique per test), the center's default daily
    slot count when it has none, and that default is 10 for a center
    created without an explicit slot count. *)
Theorem getSlotsForTest_override_else_default (c : HealthcareCenter) (t : ObjectId) :
  ((exists s, In s (testSlots c) /\ ts_test s = t) ->
     exists s, In s (testSlots c) /\ ts_test s = t
               /\ getSlotsForTest c t = slotsPerDay s
               /\ (NoDup (map ts_test (testSlots c)) ->
                   forall s', In s' (testSlots c) -> ts_test s' = t ->
                              getSlotsForTest c t = slotsPerDay s'))
  /\ ((forall s, In s (testSlots c) -> ts_test s <> t) ->
        getSlotsForTest c t = availableSlotsPerDay c)
  /\ (forall i a, availableSlotsPerDay (create i a None) = 10
                  /\ getSlotsForTest (create i a None) t = 10)
  /\ (forall n, getSlotsForTest (setSlotsForTest c t n) t = n).
Proof.
  repeat split.
  - intros (s0 & Hin0 & Ht0).
    destruct (find (fun slot => ts_test slot === t) (testSlots c)) as [s|] eqn:F.
    + pose proof (find_some _ _ F) as [Hin Hs]. apply String.eqb_eq in Hs.
      exists s. repeat split; auto using getSlotsForTest_found.
      intros Hnd s' Hin' Ht'.
      rewrite (find_override_unique _ _ _ Hnd Hin' Ht') in F.
      injection F as <-. now apply getSlotsForTest_found, find_override_unique.
    + pose proof (find_none _ _ F s0 Hin0) as Hs. simpl in Hs.
      rewrite Ht0, String.eqb_refl in Hs. discriminate.
  - intros Hno. apply getSlotsForTest_default.
    destruct (find _ (testSlots c)) as [s|] eqn:F; [|reflexivity].
    apply find_some in F as [Hin Hs]. apply String.eqb_eq in Hs.
    now destruct (Hno s Hin).
  - apply getSlotsForTest_set_same.
Qed.

End CapacityStore.

(** ** Slot counter *)

Section SlotCounterAnyZone.

Variable zone : Zone.

(** The two ends of the query's interval are the instants at which the
    server's clock reads 00:00:00.000 and 23:59:59.999 on the calendar
    day of the date. *)
Lemma startOfDay_endOfDay_clock (d : Z) :
  startOfDay zone d = clockReads zone d 0 0 0 0
  /\ endOfDay zone d = clockReads zone d 23 59 59 999.
Proof. split; reflexivity. Qed.

(** Two dates on one calendar day give the same interval. *)
Lemma occupies_same_day (c : ObjectId) (d d' : Z) (b : Booking) :
  calendarDay zone d = calendarDay zone d' ->
  occupies zone c d b = occupies zone c d' b.
Proof.
  intros H. unfold occupies, startOfDay, endOfDay, setHours, Day.
  unfold calendarDay in H. now rewrite H.
Qed.

Lemma countBookingsForDate_same_day (db : Db) (c : ObjectId) (d d' : Z) :
  calendarDay zone d = calendarDay zone d' ->
  countBookingsForDate zone db c d = countBookingsForDate zone db c d'.
Proof.
  intros H. unfold countBookingsForDate. do 2 f_equal.
  apply filter_ext. intros b. now apply occupies_same_day.
Qed.

Lemma countBookingsForDate_countWithinDay (db : Db) (c : ObjectId) (d : Z) :
  countBookingsForDate zone db c d = countWithinDay zone db c d.
Proof.
  unfold countBookingsForDate, countWithinDay. do 2 f_equal.
  apply filter_ext. intros b. unfold occupies.
  destruct (startOfDay_endOfDay_clock d) as [-> ->].
  destruct (b_hcs b === c), (negb _), (_ <=? _), (_ <=? _); reflexivity.
Qed.

Lemma occupies_canceled (c : ObjectId) (d : Z) (b : Booking) :
  b_status b = canceled -> occupies zone c d b = false.
Proof. unfold occupies. intros ->. simpl. now rewrite andb_false_r. Qed.

(** What the filter asks of a booking. *)
Lemma occupies_iff (c : ObjectId) (d : Z) (b : Booking) :
  occupies zone c d b = true
  <-> b_hcs b = c /\ b_status b <> canceled
      /\ startOfDay zone d <= scheduledAt b <= endOfDay zone d.
Proof.
  unfold occupies. split.
  - intros Ho. repeat (apply andb_true_iff in Ho as [Ho ?]).
    apply String.eqb_eq in Ho. repeat split; try lia; auto.
    intros E. rewrite E in *. discriminate.
  - intros (Hc & Hs & H1 & H2).
    apply String.eqb_eq in Hc. apply Z.leb_le in H1, H2.
    rewrite Hc, H1, H2. destruct (b_status b); simpl; congruence.
Qed.

(** The test of a booking and its price play no part in the count. *)
Lemma occupies_any_test (c : ObjectId) (d : Z) (b : Booking) (t : ObjectId) :
  occupies zone c d
    (mkBooking (b_id b) (b_user b) t (b_hcs b) (b_status b) (scheduledAt b)
               (priceAtBooking b))
  = occupies zone c d b.
Proof. reflexivity. Qed.

(** The count after the first booking with a given identifier is
    rewritten. *)
Lemma countBookingsForDate_writeBooking (db : Db) (b b' : Booking) (c : ObjectId) (d : Z) :
  findBooking (b_id b') db = Some b ->
  countBookingsForDate zone (writeBooking b' db) c d
  = countBookingsForDate zone db c d
    - Z.b2z (occupies zone c d b) + Z.b2z (occupies zone c d b').
Proof.
  intros H. unfold countBookingsForDate, writeBooking. simpl.
  now rewrite (filter_replaceFirst_length _ _ _ _ _ H).
Qed.

(** The count after a booking is appended. *)
Lemma countBookingsForDate_append (db db1 : Db) (b : Booking) (c : ObjectId) (d : Z) :
  countBookingsForDate zone (setBookings db1 (bookings db ++ [b])) c d
  = countBookingsForDate zone db c d + Z.b2z (occupies zone c d b).
Proof.
  unfold countBookingsForDate. simpl. rewrite filter_app, length_app. simpl.
  destruct (occupies zone c d b); simpl; lia.
Qed.

End SlotCounterAnyZone.

(** A zone that keeps one offset. *)
Section SlotCounterFacts.

Variable tz : Z.

Lemma startOfDay_fixedOffset (d : Z) :
  startOfDay tz d = d - (d + tz) mod msPerDay.
Proof.
  unfold startOfDay, setHours, MakeDate, MakeTime, Day. simpl.
  rewrite (Z.mod_eq (d + tz) msPerDay) by (unfold msPerDay; lia). lia.
Qed.

Lemma endOfDay_startOfDay (d : Z) : endOfDay tz d = startOfDay tz d + msPerDay - 1.
Proof.
  unfold endOfDay, startOfDay, setHours, MakeDate, MakeTime, msPerDay. simpl. lia.
Qed.

(** [startOfDay] is the local midnight at or before the date. *)
Lemma startOfDay_midnight (d : Z) :
  (startOfDay tz d + tz) mod msPerDay = 0
  /\ startOfDay tz d <= d <= endOfDay tz d.
Proof.
  rewrite endOfDay_startOfDay, startOfDay_fixedOffset.
  assert (Hm : 0 < msPerDay) by (unfold msPerDay; lia).
  pose proof (Z.mod_pos_bound (d + tz) msPerDay Hm) as Hb.
  split; [|lia].
  replace (d - (d + tz) mod msPerDay + tz)
    with ((d + tz) - (d + tz) mod msPerDay) by lia.
  rewrite Zminus_mod_idemp_r. replace (d + tz - (d + tz)) with 0 by lia.
  reflexivity.
Qed.

(** The closed interval the query uses is the calendar day of the date. *)
Lemma within_day_calendarDay (d t : Z) :
  (startOfDay tz d <=? t) && (t <=? endOfDay tz d)
  = (calendarDay tz t =? calendarDay tz d).
Proof.
  rewrite endOfDay_startOfDay, startOfDay_fixedOffset.
  unfold calendarDay. simpl.
  assert (Hm : 0 < msPerDay) by (unfold msPerDay; lia).
  pose proof (Z.div_mod (d + tz) msPerDay ltac:(lia)) as Hd.
  pose proof (Z.mod_pos_bound (d + tz) msPerDay Hm) as Hdb.
  pose proof (Z.div_mod (t + tz) msPerDay ltac:(lia)) as Ht.
  pose proof (Z.mod_pos_bound (t + tz) msPerDay Hm) as Htb.
  destruct (Z.eqb_spec ((t + tz) / msPerDay) ((d + tz) / msPerDay)) as [E|E].
  - apply andb_true_iff. split; apply Z.leb_le; rewrite E in Ht; lia.
  - apply andb_false_iff.
    destruct (Z.lt_ge_cases ((t + tz) / msPerDay) ((d + tz) / msPerDay)).
    + left. apply Z.leb_gt. nia.
    + right. apply Z.leb_gt. nia.
Qed.

Lemma occupies_calendarDay (c : ObjectId) (d : Z) (b : Booking) :
  occupies tz c d b
  = (b_hcs b === c)
    && (calendarDay tz (scheduledAt b) =? calendarDay tz d)
    && negb (BookingStatus_eqb (b_status b) canceled).
Proof.
  unfold occupies. rewrite <- within_day_calendarDay.
  now rewrite <- !andb_assoc.
Qed.

Lemma countBookingsForDate_countOccupied (db : Db) (c : ObjectId) (d : Z) :
  countBookingsForDate tz db c d = countOccupied tz db c d.
Proof.
  unfold countBookingsForDate, countOccupied. do 2 f_equal.
  apply filter_ext. intros b. apply occupies_calendarDay.
Qed.

(** A booking that is not canceled occupies its own day at its own
    center. *)
Lemma occupies_self (b : Booking) :
  b_status b <> canceled -> occupies tz (b_hcs b) (scheduledAt b) b = true.
Proof.
  intros H. unfold occupies. rewrite String.eqb_refl.
  destruct (startOfDay_midnight (scheduledAt b)) as [_ [H1 H2]].
  apply Z.leb_le in H1, H2. rewrite H1, H2.
  destruct (b_status b); simpl; congruence.
Qed.

Lemma occupies_own (c : ObjectId) (d : Z) (b : Booking) :
  b_hcs b = c -> scheduledAt b = d -> b_status b <> canceled ->
  occupies tz c d b = true.
Proof. intros <- <-. apply occupies_self. Qed.

End SlotCounterFacts.

(** ** Booking controller *)

Section BookingControllerFacts.

Import bookingController.
Variable zone : Zone.

(** What is known when [createBooking] answers 201. *)
Lemma createBooking_created now newId user body db db' r :
  createBooking zone now newId user body db = (db', Respond r) ->
  code r = 201%nat ->
  exists testId hcsId at_ testDoc hcsDoc hcsPricing db1,
    cb_test body = Some testId /\ cb_hcs body = Some hcsId
    /\ cb_scheduledAt body = ValidDate at_
    /\ findTest testId db = Some testDoc
    /\ findCenter hcsId db = Some hcsDoc
    /\ BookingModel.approvedPricing testDoc hcsId = Some hcsPricing
    /\ now < at_
    /\ countBookingsForDate zone db hcsId at_
       < HealthcareCenterModel.getSlotsForTest hcsDoc testId
    /\ tests db1 = tests db /\ centers db1 = centers db
    /\ bookings db1 = bookings db /\ requests db1 = requests db
    /\ findBooking newId db = None
    /\ db' = setBookings db1
               (bookings db ++ [admitted db newId user testId hcsId at_]).
Proof.
  unfold createBooking.
  destruct (cb_test body) as [testId|]; simpl;
    [|intros [= <- <-]; discriminate].
  destruct (testId === "") eqn:E1; simpl; [intros [= <- <-]; discriminate|].
  destruct (cb_hcs body) as [hcsId|]; simpl;
    [|intros [= <- <-]; discriminate].
  destruct (hcsId === "") eqn:E2; simpl; [intros [= <- <-]; discriminate|].
  destruct (findTest testId db) as [testDoc|] eqn:E4;
    [|destruct (cb_scheduledAt body); intros [= <- <-]; discriminate].
  destruct (findCenter hcsId db) as [hcsDoc|] eqn:E5;
    [|destruct (cb_scheduledAt body); intros [= <- <-]; discriminate].
  destruct (BookingModel.approvedPricing testDoc hcsId) as [hcsPricing|] eqn:E6;
    [|destruct (cb_scheduledAt body); intros [= <- <-]; discriminate].
  destruct (cb_scheduledAt body) as [| |at_] eqn:E3; simpl;
    try (intros [= <- <-]; discriminate).
  destruct (at_ <=? now) eqn:E7; [intros [= <- <-]; discriminate|].
  destruct (_ >=? _) eqn:E8; [intros [= <- <-]; discriminate|].
  set (db1 := if falsy (cb_phone body) then db else setPhone user (cb_phone body) db).
  assert (Hdb1 : tests db1 = tests db /\ centers db1 = centers db
                 /\ bookings db1 = bookings db /\ requests db1 = requests db).
  { subst db1. destruct (falsy (cb_phone body)); simpl; auto. }
  destruct Hdb1 as (Ht & Hc & Hb & Hr).
  unfold BookingModel.create.
  assert (Hf : findBooking newId db1 = findBooking newId db)
    by (unfold findBooking; now rewrite Hb).
  rewrite Hf.
  destruct (findBooking newId db) eqn:E9; [intros [= <- <-]|].
  intros [= <- <-] _.
  exists testId, hcsId, at_, testDoc, hcsDoc, hcsPricing, db1.
  apply Z.leb_gt in E7. rewrite Z.geb_leb in E8. apply Z.leb_gt in E8.
  repeat split; auto.
  unfold admitted, BookingModel.pre_save, findTest. now rewrite Ht, Hb.
Qed.

Lemma pre_save_fields db isNew b :
  let b' := BookingModel.pre_save db isNew b in
  b_id b' = b_id b /\ b_user b' = b_user b /\ b_test b' = b_test b
  /\ b_hcs b' = b_hcs b /\ b_status b' = b_status b
  /\ scheduledAt b' = scheduledAt b.
Proof.
  unfold BookingModel.pre_save. destruct isNew; [|tauto].
  destruct (findTest _ _); [destruct (BookingModel.approvedPricing _ _)|];
    simpl; tauto.
Qed.

Ltac enter_createBooking H :=
  destruct H as (Ht & Hte & Hc & Hce & Hd & Hft & Hfc & Hp & Hnow);
  unfold createBooking; rewrite Ht, Hc, Hd; simpl;
  apply String.eqb_neq in Hte, Hce; rewrite Hte, Hce; simpl;
  rewrite Hft, Hfc;
  destruct (BookingModel.approvedPricing _ _) as [hcsPricing|];
    [clear Hp|now destruct Hp];
  apply Z.leb_gt in Hnow; rewrite Hnow.

(** The admission check rejects: the day is full. *)
Lemma createBooking_full now newId user body db testId hcsId at_ testDoc hcsDoc :
  bookable db now body testId hcsId at_ testDoc hcsDoc ->
  HealthcareCenterModel.getSlotsForTest hcsDoc testId
    <= countBookingsForDate zone db hcsId at_ ->
  createBooking zone now newId user body db
  = (db, failure 400
           (noSlotsMessage (HealthcareCenterModel.getSlotsForTest hcsDoc testId))).
Proof.
  intros H Hfull. enter_createBooking H.
  rewrite Z.geb_leb. apply Z.leb_le in Hfull. now rewrite Hfull.
Qed.

(** The admission check admits: there is room, and the booking is
    stored. *)
Lemma createBooking_admits now newId user body db testId hcsId at_ testDoc hcsDoc :
  bookable db now body testId hcsId at_ testDoc hcsDoc ->
  countBookingsForDate zone db hcsId at_
    < HealthcareCenterModel.getSlotsForTest hcsDoc testId ->
  findBooking newId db = None ->
  exists db1,
    tests db1 = tests db /\ centers db1 = centers db
    /\ bookings db1 = bookings db /\ requests db1 = requests db
    /\ createBooking zone now newId user body db
       = (setBookings db1 (bookings db ++ [admitted db newId user testId hcsId at_]),
          success 201 (JBooking (Some (admitted db newId user testId hcsId at_)))).
Proof.
  intros H Hroom Hfresh. enter_createBooking H.
  rewrite Z.geb_leb. apply Z.leb_gt in Hroom. rewrite Hroom.
  set (db1 := if falsy (cb_phone body) then db else setPhone user (cb_phone body) db).
  assert (Hdb1 : tests db1 = tests db /\ centers db1 = centers db
                 /\ bookings db1 = bookings db /\ requests db1 = requests db).
  { subst db1. destruct (falsy (cb_phone body)); simpl; auto. }
  destruct Hdb1 as (Ht' & Hc' & Hb' & Hr').
  exists db1. repeat split; auto.
  unfold BookingModel.create.
  assert (Hf : findBooking newId db1 = None)
    by (unfold findBooking in *; now rewrite Hb').
  rewrite Hf.
  assert (Hdoc : BookingModel.pre_save db1 true
                   (mkBooking newId (id user) testId hcsId pending at_ None)
                 = admitted db newId user testId hcsId at_).
  { unfold admitted, BookingModel.pre_save, findTest. now rewrite Ht'. }
  rewrite Hdoc, Hb'. do 3 f_equal.
  destruct (pre_save_fields db true
              (mkBooking newId (id user) testId hcsId pending at_ None))
    as (Hid & _). fold (admitted db newId user testId hcsId at_) in Hid.
  simpl in Hid. rewrite Hid. unfold findBooking in *. simpl.
  rewrite (find_app_none _ _ _ Hfresh).
  now rewrite Hid, String.eqb_refl.
Qed.


(** The admission re-check rejects the transition to confirmed. *)
Lemma updateBooking_full user bookingId body db booking hcsDoc :
  findBooking bookingId db = Some booking ->
  mayUpdate user booking db = true ->
  changingToConfirmed (ub_status body) (b_status booking) = true ->
  findCenter (b_hcs booking) db = Some hcsDoc ->
  HealthcareCenterModel.getSlotsForTest hcsDoc (b_test booking)
    <= countBookingsForDate zone db (b_hcs booking) (scheduledAt booking) ->
  updateBooking zone user bookingId body db
  = (db, failure 400
           (noSlotsMessage
              (HealthcareCenterModel.getSlotsForTest hcsDoc (b_test booking)))).
Proof.
  intros Hf Hm Hc Hh Hfull. unfold updateBooking. rewrite Hf.
  unfold mayUpdate in Hm. apply negb_true_iff in Hm. rewrite Hm, Hc, Hh.
  rewrite Z.geb_leb. apply Z.leb_le in Hfull. now rewrite Hfull.
Qed.

Lemma findBooking_id i db b : findBooking i db = Some b -> b_id b = i.
Proof.
  unfold findBooking. intros H. apply find_some in H as [_ H].
  now apply String.eqb_eq in H.
Qed.

Lemma findBooking_writeBooking i db b b' :
  findBooking i db = Some b -> b_id b' = i ->
  findBooking i (writeBooking b' db) = Some b'.
Proof.
  intros Hf Hid. unfold findBooking, writeBooking in *. simpl. subst i.
  rewrite find_replaceFirst_same; [now rewrite Hf|].
  intros _ _. apply String.eqb_refl.
Qed.

Lemma findBooking_writeBooking_none i db b' :
  findBooking i db = None -> findBooking i (writeBooking b' db) = None.
Proof.
  unfold findBooking, writeBooking. simpl.
  induction (bookings db) as [|x l IH]; simpl; [reflexivity|].
  destruct (b_id x === i) eqn:E; [discriminate|]. intros H.
  destruct (b_id x === b_id b') eqn:E'; simpl.
  - apply String.eqb_eq in E'. rewrite <- E', E. exact H.
  - rewrite E. auto.
Qed.

Lemma cancelBooking_canceled user bookingId db booking :
  findBooking bookingId db = Some booking ->
  mayCancel user booking db = true ->
  cancelBooking user bookingId db
  = (writeBooking (BookingModel.setStatus booking canceled) db,
     success 200 (JBooking (Some (BookingModel.setStatus booking canceled)))).
Proof.
  intros Hf Hm. unfold cancelBooking. rewrite Hf.
  unfold mayCancel in Hm. apply andb_true_iff in Hm as [H1 H2].
  apply negb_true_iff in H1, H2. rewrite H1, H2.
  unfold BookingModel.save. simpl. f_equal. do 2 f_equal.
  apply findBooking_writeBooking with (b := booking); [|reflexivity].
  simpl. now rewrite (findBooking_id _ _ _ Hf).
Qed.

(** Canceling a booking that was counted lowers the count of its day by
    one. *)
Lemma cancelBooking_frees user bookingId db booking d :
  findBooking bookingId db = Some booking ->
  mayCancel user booking db = true ->
  occupies zone (b_hcs booking) d booking = true ->
  countBookingsForDate zone (fst (cancelBooking user bookingId db)) (b_hcs booking) d
  = countBookingsForDate zone db (b_hcs booking) d - 1.
Proof.
  intros Hf Hm Ho. rewrite (cancelBooking_canceled _ _ _ _ Hf Hm). simpl.
  rewrite countBookingsForDate_writeBooking with (b := booking).
  - rewrite Ho, occupies_canceled by reflexivity. simpl. lia.
  - simpl. now rewrite (findBooking_id _ _ _ Hf).
Qed.

(** Claim C3. Whatever the time zone of the server, the slot counter
    counts exactly the bookings of the center that are not canceled and
    are scheduled from the instant the server's clock reads 00:00:00.000
    to the instant it reads 23:59:59.999 on the calendar day of the date,
    both included, whatever their test. A canceled booking is never
    counted, so a cancellation lowers the count of the booking's day by
    one and a request the full day refused is admitted afterwards. In a
    zone that keeps one offset from UTC the interval starts at a local
    midnight, is 86,399,999 milliseconds long and holds exactly the
    timestamps of the date's calendar day. The center is named by the
    identifier it is stored under. *)
Theorem countBookingsForDate_counts_day (db : Db) (c : HealthcareCenter) (d : Z) :
  In c (centers db) ->
  (startOfDay zone d = clockReads zone d 0 0 0 0
   /\ endOfDay zone d = clockReads zone d 23 59 59 999)
  /\ countBookingsForDate zone db (h_id c) d = countWithinDay zone db (h_id c) d
  /\ (forall b, occupies zone (h_id c) d b = true <->
                b_hcs b = h_id c /\ b_status b <> canceled
                /\ clockReads zone d 0 0 0 0 <= scheduledAt b
                   <= clockReads zone d 23 59 59 999)
  /\ (forall b t, occupies zone (h_id c) d
                    (mkBooking (b_id b) (b_user b) t (b_hcs b) (b_status b)
                               (scheduledAt b) (priceAtBooking b))
                  = occupies zone (h_id c) d b)
  /\ (forall user bookingId booking,
        findBooking bookingId db = Some booking ->
        mayCancel user booking db = true ->
        occupies zone (h_id c) d booking = true ->
        let db' := fst (cancelBooking user bookingId db) in
        option_map b_status (findBooking bookingId db') = Some canceled
        /\ countBookingsForDate zone db' (h_id c) d
           = countBookingsForDate zone db (h_id c) d - 1
        /\ forall now newId customer body testId at_ testDoc hcsDoc,
             bookable db now body testId (h_id c) at_ testDoc hcsDoc ->
             calendarDay zone at_ = calendarDay zone d ->
             countBookingsForDate zone db (h_id c) d
               <= HealthcareCenterModel.getSlotsForTest hcsDoc testId ->
             findBooking newId db = None ->
             exists db'' r,
               createBooking zone now newId customer body db' = (db'', Respond r)
               /\ code r = 201%nat)
  /\ (forall tz : Z,
        (startOfDay (fixedOffset tz) d + tz) mod msPerDay = 0
        /\ endOfDay (fixedOffset tz) d = startOfDay (fixedOffset tz) d + 86399999
        /\ startOfDay (fixedOffset tz) d <= d <= endOfDay (fixedOffset tz) d
        /\ (forall t, startOfDay (fixedOffset tz) d <= t <= endOfDay (fixedOffset tz) d
                      <-> calendarDay (fixedOffset tz) t
                          = calendarDay (fixedOffset tz) d)
        /\ countBookingsForDate (fixedOffset tz) db (h_id c) d
           = countOccupied (fixedOffset tz) db (h_id c) d).
Proof.
  intros _.
  split; [apply startOfDay_endOfDay_clock|].
  split; [apply countBookingsForDate_countWithinDay|].
  split.
  { intros b. rewrite occupies_iff.
    now destruct (startOfDay_endOfDay_clock zone d) as [-> ->]. }
  split; [intros b t; apply occupies_any_test|].
  split.
  { intros user bookingId booking Hf Hm Ho db'.
    assert (Hc : b_hcs booking = h_id c) by (now apply occupies_iff in Ho).
    assert (Hdb' : db' = writeBooking (BookingModel.setStatus booking canceled) db)
      by (subst db'; now rewrite (cancelBooking_canceled _ _ _ _ Hf Hm)).
    assert (Hfree : countBookingsForDate zone db' (h_id c) d
                    = countBookingsForDate zone db (h_id c) d - 1).
    { subst db'. rewrite <- Hc. apply cancelBooking_frees; auto.
      now rewrite Hc. }
    split.
    { rewrite Hdb'.
      rewrite (findBooking_writeBooking bookingId db booking); auto.
      simpl. now apply findBooking_id with (db := db). }
    split; [exact Hfree|].
    intros now newId customer body testId at_ testDoc hcsDoc Hb Hday Hcap Hfresh.
    destruct (createBooking_admits now newId customer body db' testId
                (h_id c) at_ testDoc hcsDoc) as (db1 & _ & _ & _ & _ & Hrun).
    - rewrite Hdb'. exact Hb.
    - rewrite (countBookingsForDate_same_day zone db' (h_id c) at_ d Hday). lia.
    - rewrite Hdb'. now apply findBooking_writeBooking_none.
    - eexists _, _. split; [exact Hrun|reflexivity]. }
  intros tz.
  destruct (startOfDay_midnight tz d) as (Hmid & Hin).
  split; [exact Hmid|].
  split; [rewrite endOfDay_startOfDay; unfold msPerDay; lia|].
  split; [exact Hin|].
  split; [|apply countBookingsForDate_countOccupied].
  intros t. pose proof (within_day_calendarDay tz d t) as Hw.
  split.
  - intros [H1 H2]. apply Z.leb_le in H1, H2. rewrite H1, H2 in Hw.
    symmetry in Hw. now apply Z.eqb_eq in Hw.
  - intros E. apply Z.eqb_eq in E. rewrite E in Hw.
    apply andb_true_iff in Hw as [H1 H2]. apply Z.leb_le in H1, H2. lia.
Qed.

End BookingControllerFacts.

(** ** Admission *)

Section AdmissionFacts.

Import bookingController.
Variable tz : Z.





Lemma approvedPricing_none testDoc hcsId :
  (forall item, In item (hcsPricing testDoc) -> p_hcs item = hcsId ->
                p_status item <> asg_approved) ->
  BookingModel.approvedPricing testDoc hcsId = None.
Proof.
  intros Hno. unfold BookingModel.approvedPricing.
  destruct (find _ (hcsPricing testDoc)) as [item|] eqn:F; [|reflexivity].
  apply find_some in F as [Hin Hitem].
  apply andb_true_iff in Hitem as [Hh Hst]. apply String.eqb_eq in Hh.
  destruct (Hno item Hin Hh). destruct (p_status item); try discriminate.
  reflexivity.
Qed.

(** Claim C7. When the test named in a [createBooking] request has no
    pricing entry with status approved for the center named in it, the
    request fails with a 4xx answer and the store is left as it was; when
    the required fields are present and the test and the center exist,
    the answer is 400 with the message that the test is not available at
    the selected center. Nothing is assumed about the date, the capacity
    of the center or the bookings already made. *)
Theorem createBooking_not_offered (db : Db) now newId user body :
  let testId := orEmpty (cb_test body) in
  let hcsId := orEmpty (cb_hcs body) in
  (forall testDoc,
      findTest testId db = Some testDoc ->
      forall item, In item (hcsPricing testDoc) -> p_hcs item = hcsId ->
                   p_status item <> asg_approved) ->
  (exists r,
      createBooking tz now newId user body db = (db, Respond r)
      /\ (code r = 400%nat \/ code r = 404%nat)
      /\ field "success" (json r) = Some (JBool false))
  /\ (forall testDoc hcsDoc,
        falsy (cb_test body) = false -> falsy (cb_hcs body) = false ->
        cb_scheduledAt body <> NoDate ->
        findTest testId db = Some testDoc ->
        findCenter hcsId db = Some hcsDoc ->
        createBooking tz now newId user body db
        = (db, failure 400
                 "Test is not available at the selected healthcare center")).
Proof.
  intros testId hcsId Hno. split.
  - unfold createBooking. fold testId hcsId. cbv zeta.
    destruct (_ || _).
    { eexists. split; [reflexivity|]. split; [now left|reflexivity]. }
    destruct (findTest testId db) as [testDoc|].
    2:{ eexists. split; [reflexivity|]. split; [now right|reflexivity]. }
    destruct (findCenter hcsId db) as [hcsDoc|].
    2:{ eexists. split; [reflexivity|]. split; [now right|reflexivity]. }
    rewrite (approvedPricing_none testDoc hcsId (Hno testDoc eq_refl)).
    eexists. split; [reflexivity|]. split; [now left|reflexivity].
  - intros testDoc hcsDoc Ht Hc Hd Hft Hfc.
    unfold createBooking. fold testId hcsId. cbv zeta.
    rewrite Ht, Hc, Hft, Hfc, (approvedPricing_none testDoc hcsId (Hno testDoc Hft)).
    destruct (cb_scheduledAt body); [now destruct Hd| |]; reflexivity.
Qed.







(** Claim C6, as the code has it. When the admission check fails, at
    creation or at the transition to confirmed, the caller gets status
    400 and a body with two fields only: [success], false, and
    [message], a sentence that spells out the limit. The body has no
    [limit] field and no [occupied] field; the occupancy is not
    reported. *)
Theorem capacity_rejection_reports_message (db : Db) :
  (forall now newId user body testId hcsId at_ testDoc hcsDoc,
      bookable db now body testId hcsId at_ testDoc hcsDoc ->
      HealthcareCenterModel.getSlotsForTest hcsDoc testId
        <= countOccupied tz db hcsId at_ ->
      exists r,
        createBooking tz now newId user body db = (db, Respond r)
        /\ code r = 400%nat
        /\ json r
           = [("success"%string, JBool false);
              ("message"%string,
               JStr ("No available slots for the selected date. Maximum "
                     ++ showZ (HealthcareCenterModel.getSlotsForTest hcsDoc testId)
                     ++ " bookings allowed per day for this test."))]
        /\ field "limit" (json r) = None /\ field "occupied" (json r) = None)
  /\ (forall user bookingId body booking hcsDoc,
        findBooking bookingId db = Some booking ->
        mayUpdate user booking db = true ->
        changingToConfirmed (ub_status body) (b_status booking) = true ->
        findCenter (b_hcs booking) db = Some hcsDoc ->
        HealthcareCenterModel.getSlotsForTest hcsDoc (b_test booking)
          <= countOccupied tz db (b_hcs booking) (scheduledAt booking) ->
        exists r,
          updateBooking tz user bookingId body db = (db, Respond r)
          /\ code r = 400%nat
          /\ json r
             = [("success"%string, JBool false);
                ("message"%string,
                 JStr ("No available slots for the selected date. Maximum "
                       ++ showZ (HealthcareCenterModel.getSlotsForTest hcsDoc
                                   (b_test booking))
                       ++ " bookings allowed per day for this test."))]
          /\ field "limit" (json r) = None /\ field "occupied" (json r) = None).
Proof.
  split.
  - intros now newId user body testId hcsId at_ testDoc hcsDoc Hb Hfull.
    rewrite <- countBookingsForDate_countOccupied in Hfull.
    eexists. split; [apply (createBooking_full _ _ _ _ _ _ _ _ _ _ _ Hb Hfull)|].
    repeat split.
  - intros user bookingId body booking hcsDoc Hf Hm Hc Hh Hfull.
    rewrite <- countBookingsForDate_countOccupied in Hfull.
    eexists. split; [apply (updateBooking_full _ _ _ _ _ _ _ Hf Hm Hc Hh Hfull)|].
    repeat split.
Qed.

End AdmissionFacts.

(** ** The booking claims on the scenarios *)

Section BookingScenarios.

Import Scenario MoreScenarios bookingController.

Lemma bookable_dbA2 :
  bookable dbA2 now (book T june1) T X june1 testT centerA.
Proof. unfold bookable. repeat split; try discriminate; reflexivity. Qed.


(** Scenario C: the day is full with two bookings; the customer cancels
    the first one and books again. *)
Lemma countBookingsForDate_counts_day_witness :
  countBookingsForDate tz dbA2 X june1 = 2
  /\ countBookingsForDate tz (fst (cancelBooking customer (bk "1") dbA2)) X june1 = 1
  /\ exists db'' r,
       createBooking tz now (bk "3") customer (book T june1)
         (fst (cancelBooking customer (bk "1") dbA2)) = (db'', Respond r)
       /\ code r = 201%nat.
Proof.
  destruct (countBookingsForDate_counts_day tz dbA2 centerA june1)
    as (_ & _ & _ & _ & Hcancel & _); [vm_compute; now left|].
  edestruct (Hcancel customer (bk "1")) as (_ & Hfree & Hagain);
    [vm_compute; reflexivity | reflexivity | reflexivity |].
  split; [reflexivity|]. split; [exact Hfree|].
  apply (Hagain now (bk "3") customer (book T june1) T june1 testT centerA).
  - exact bookable_dbA2.
  - reflexivity.
  - vm_compute. discriminate.
  - reflexivity.
Defined.

(** Scenario A: the third booking of the day is refused, and what the
    caller receives has no [limit] and no [occupied] field. *)
Lemma capacity_error_without_context :
  countOccupied tz dbA2 X june1 = 2
  /\ HealthcareCenterModel.getSlotsForTest centerA T = 2
  /\ snd (createBooking tz now (bk "3") customer (book T june1) dbA2)
     = failure 400
         "No available slots for the selected date. Maximum 2 bookings allowed per day for this test."
  /\ ~ carriesCapacityContext
         (snd (createBooking tz now (bk "3") customer (book T june1) dbA2)) 2 2.
Proof.
  split; [reflexivity|]. split; [reflexivity|]. split; [reflexivity|].
  intros (r & Hr & Hlimit & _).
  vm_compute in Hr. injection Hr as <-. discriminate Hlimit.
Qed.

Lemma capacity_rejection_reports_message_witness :
  exists r,
    createBooking tz now (bk "3") customer (book T june1) dbA2 = (dbA2, Respond r)
    /\ code r = 400%nat
    /\ field "message" (json r)
       = Some (JStr "No available slots for the selected date. Maximum 2 bookings allowed per day for this test.")
    /\ field "occupied" (json r) = None.
Proof.
  destruct (capacity_rejection_reports_message tz dbA2) as [Hcreate _].
  destruct (Hcreate now (bk "3") customer (book T june1) T X june1 testT centerA
              bookable_dbA2)
    as (r & Hrun & Hcode & Hjson & _ & Hocc).
  - vm_compute. discriminate.
  - exists r. repeat split; auto. rewrite Hjson. reflexivity.
Defined.


(** On the day the clocks go back the interval of the query is 25 hours
    long, and both bookings of that day are in it. *)
Lemma day_of_25_hours :
  startOfDay autumn october26 = 1761429600000
  /\ endOfDay autumn october26 = startOfDay autumn october26 + 25 * 3600000 - 1
  /\ countBookingsForDate autumn dbAutumn X october26 = 2.
Proof. repeat split. Qed.

(** Scenario E: T' is only pending at X, whose day is empty. *)
Lemma createBooking_not_offered_witness :
  countOccupied tz dbE X june1 = 0
  /\ createBooking tz now (bk "1") customer (book T' june1) dbE
     = (dbE, failure 400 "Test is not available at the selected healthcare center").
Proof.
  split; [reflexivity|].
  destruct (createBooking_not_offered tz dbE now (bk "1") customer (book T' june1))
    as [_ Hmsg].
  - intros testDoc Hf. vm_compute in Hf. injection Hf as <-.
    intros item [<-|[]] _. discriminate.
  - apply (Hmsg (mkTest T' 300 [mkPricing X 350 asg_pending])
             (mkHealthcareCenter X owner 5 []));
      try reflexivity; discriminate.
Defined.



End BookingScenarios.

Lemma getSlotsForTest_override_else_default_witness :
  HealthcareCenterModel.getSlotsForTest
    (mkHealthcareCenter Scenario.X Scenario.owner 5 [mkTestSlot Scenario.T 1])
    Scenario.T = 1
  /\ HealthcareCenterModel.getSlotsForTest
       (mkHealthcareCenter Scenario.X Scenario.owner 5 [mkTestSlot Scenario.T 1])
       Scenario.T' = 5.
Proof.
  split.
  - destruct (getSlotsForTest_override_else_default
                (mkHealthcareCenter Scenario.X Scenario.owner 5
                   [mkTestSlot Scenario.T 1]) Scenario.T) as (Hov & _).
    destruct Hov as (s & Hin & _ & Hs & _).
    + eexists. split; [left; reflexivity | reflexivity].
    + destruct Hin as [<-|[]]. exact Hs.
  - destruct (getSlotsForTest_override_else_default
                (mkHealthcareCenter Scenario.X Scenario.owner 5
                   [mkTestSlot Scenario.T 1]) Scenario.T') as (_ & Hdef & _).
    apply Hdef. intros s [<-|[]]. discriminate.
Defined.

(** ** Approved pricing entries *)

Section ApprovedEntries.

Lemma find_first {A : Type} (p : A -> bool) (l : list A) (x : A) :
  find p l = Some x
  <-> exists before after,
        l = before ++ x :: after /\ p x = true
        /\ forall y, In y before -> p y = false.
Proof.
  split.
  - induction l as [|a l IH]; simpl; [discriminate|].
    destruct (p a) eqn:E.
    + intros [= <-]. exists [], l. repeat split; auto. intros y [].
    + intros H. destruct (IH H) as (before & after & -> & Hx & Hb).
      exists (a :: before), after. repeat split; auto.
      intros y [<-|Hy]; auto.
  - intros (before & after & -> & Hx & Hb).
    induction before as [|a before IH]; simpl; [now rewrite Hx|].
    rewrite (Hb a) by now left. apply IH. intros y Hy. apply Hb. now right.
Qed.

Lemma approvedFor_test (hcsId : ObjectId) (entry : Pricing) :
  (p_hcs entry === hcsId) && AssignmentStatus_eqb (p_status entry) asg_approved
  = true
  <-> approvedFor hcsId entry.
Proof.
  unfold approvedFor. rewrite andb_true_iff, String.eqb_eq.
  destruct (p_status entry); simpl; intuition discriminate.
Qed.

(** The lookup of the hook and of [createBooking] gives the first entry
    of the list that is the center's and approved. *)
Lemma approvedPricing_firstApproved (t : Test) (hcsId : ObjectId) (entry : Pricing) :
  BookingModel.approvedPricing t hcsId = Some entry
  <-> firstApproved hcsId (hcsPricing t) entry.
Proof.
  unfold BookingModel.approvedPricing, firstApproved. rewrite find_first.
  split; intros (before & after & Hl & Hx & Hb); exists before, after;
    (split; [exact Hl|]); split.
  - now apply approvedFor_test.
  - intros e He Ha. apply approvedFor_test in Ha. rewrite (Hb e He) in Ha.
    discriminate.
  - now apply approvedFor_test.
  - intros y Hy. destruct (_ && _) eqn:E; [|reflexivity].
    apply approvedFor_test in E. now destruct (Hb y Hy).
Qed.

Lemma approvedPricing_none_iff (t : Test) (hcsId : ObjectId) :
  BookingModel.approvedPricing t hcsId = None
  <-> forall e, In e (hcsPricing t) -> ~ approvedFor hcsId e.
Proof.
  unfold BookingModel.approvedPricing. split.
  - intros H e He Ha. apply approvedFor_test in Ha.
    rewrite (find_none _ _ H e He) in Ha. discriminate.
  - intros H. destruct (find _ _) as [e|] eqn:F; [|reflexivity].
    apply find_some in F as [He Ha]. apply approvedFor_test in Ha.
    now destruct (H e He).
Qed.

End ApprovedEntries.

(** ** Price snapshot *)

Section PriceSnapshot.

Import bookingController testController.
Variable zone : Zone.

Lemma priceOf_replaceFirst i (p : Booking -> bool) (f : Booking -> Booking) l :
  (forall y, find p l = Some y ->
             b_id (f y) = b_id y /\ priceAtBooking (f y) = priceAtBooking y) ->
  option_map priceAtBooking (find (fun b => b_id b === i) (replaceFirst p f l))
  = option_map priceAtBooking (find (fun b => b_id b === i) l).
Proof.
  induction l as [|x l IH]; simpl; [reflexivity|]. intros H.
  destruct (p x) eqn:E.
  - destruct (H x eq_refl) as [Hid Hp]. simpl. rewrite Hid.
    destruct (b_id x === i); simpl; [now rewrite Hp|reflexivity].
  - simpl. destruct (b_id x === i); [reflexivity|]. now apply IH.
Qed.

Lemma priceOf_writeBooking i db b b' :
  findBooking (b_id b') db = Some b ->
  priceAtBooking b' = priceAtBooking b ->
  priceOf i (writeBooking b' db) = priceOf i db.
Proof.
  intros Hf Hp. unfold priceOf, findBooking, writeBooking. simpl.
  apply priceOf_replaceFirst. intros y Hy.
  unfold findBooking in Hf. rewrite Hf in Hy. injection Hy as <-.
  split; [|exact Hp]. apply find_some in Hf as [_ Hf].
  apply String.eqb_eq in Hf. now rewrite Hf.
Qed.

Lemma applyUpdate_keeps body b b' :
  ub_priceAtBooking body = None -> applyUpdate body b = Some b' ->
  b_id b' = b_id b /\ priceAtBooking b' = priceAtBooking b.
Proof.
  unfold applyUpdate. intros ->.
  destruct (ub_status body) as [s|];
    [destruct (BookingStatus_of_string s); [|discriminate]|];
    intros [= <-]; auto.
Qed.

(** What [createBooking] can do to the bookings: nothing, or append one
    document with the new identifier, which was not in use. *)
Lemma createBooking_bookings now newId user body db :
  bookings (fst (createBooking zone now newId user body db)) = bookings db
  \/ (findBooking newId db = None
      /\ exists doc,
           bookings (fst (createBooking zone now newId user body db))
           = bookings db ++ [doc]).
Proof.
  unfold createBooking.
  destruct (_ || _); [now left|].
  destruct (findTest _ _); [|now left].
  destruct (findCenter _ _); [|now left].
  destruct (BookingModel.approvedPricing _ _); [|now left].
  destruct (cb_scheduledAt body) as [| |at_]; try now left.
  destruct (_ <=? _); [now left|].
  destruct (_ >=? _); [now left|].
  set (db1 := if falsy (cb_phone body) then db else setPhone user (cb_phone body) db).
  assert (Hb : bookings db1 = bookings db)
    by (subst db1; destruct (falsy (cb_phone body)); reflexivity).
  unfold BookingModel.create.
  destruct (findBooking newId db1) eqn:F; simpl; [now left|].
  right. unfold findBooking in *. rewrite Hb in *. eauto.
Qed.

(** A request that passes [leavesSnapshot] leaves the stored price of
    every booking as it is. *)
Lemma handle_keeps_price rq i db v :
  leavesSnapshot rq = true ->
  priceOf i db = Some v ->
  priceOf i (fst (handle zone rq db)) = Some v.
Proof.
  intros Hrq Hv. destruct rq; simpl in *; try discriminate.
  - destruct (createBooking_bookings now newId user body db)
      as [E|(_ & doc & E)];
      unfold priceOf, findBooking in *; rewrite E; [exact Hv|].
    destruct (find _ (bookings db)) as [b|] eqn:F; [|discriminate].
    now rewrite (find_app_some _ _ _ _ F).
  - destruct (ub_priceAtBooking body) eqn:Hp; [discriminate|].
    unfold updateBooking.
    destruct (findBooking bookingId db) as [booking|] eqn:F; [|exact Hv].
    destruct (_ && _); [exact Hv|].
    assert (Hw : priceOf i (fst match applyUpdate body booking with
                                | Some booking' =>
                                    (writeBooking booking' db,
                                     success 200
                                       (JBooking
                                          (findBooking bookingId
                                             (writeBooking booking' db))))
                                | None => (db, Next "ValidationError")
                                end) = Some v).
    { destruct (applyUpdate body booking) as [booking'|] eqn:A; [|exact Hv].
      destruct (applyUpdate_keeps _ _ _ Hp A) as [Hid Hpr]. simpl.
      rewrite (priceOf_writeBooking i db booking booking'); auto.
      rewrite Hid. apply find_some in F as HF. destruct HF as [_ HF].
      apply String.eqb_eq in HF. now rewrite HF. }
    destruct (changingToConfirmed _ _); [|exact Hw].
    destruct (findCenter _ _); [|exact Hv].
    destruct (_ >=? _); [exact Hv|exact Hw].
  - unfold cancelBooking.
    destruct (findBooking bookingId db) as [booking|] eqn:F; [|exact Hv].
    destruct (_ && _); [exact Hv|]. destruct (_ && _); [exact Hv|].
    simpl. unfold BookingModel.save. simpl.
    rewrite (priceOf_writeBooking i db booking); auto. simpl.
    apply find_some in F as HF. destruct HF as [_ HF].
    apply String.eqb_eq in HF. now rewrite HF.
  - unfold updateTest. destruct (findTest _ _); [|exact Hv].
    destruct (_ && _); exact Hv.
  - unfold assignTestToHCS. destruct (findCenter _ _); [|exact Hv].
    destruct (findTest _ _); [|exact Hv]. destruct (negb _); [exact Hv|].
    destruct (as_slots body); [|exact Hv].
    destruct (HealthcareCenterModel.validSlots _); exact Hv.
  - unfold removeTestFromHCS. destruct (findTest _ _); exact Hv.
  - unfold requestTestAssignment. destruct (findCenter _ _); [|exact Hv].
    destruct (findTest _ _); [|exact Hv].
    destruct (BookingModel.approvedPricing _ _); [exact Hv|].
    destruct (existsb _ _); [exact Hv|]. destruct (negb _); [exact Hv|].
    destruct (findRequest _ _); exact Hv.
  - unfold reviewAssignmentRequest. destruct (findRequest _ _); [|exact Hv].
    destruct (AssignmentStatus_of_string _); [|exact Hv].
    destruct (_ && _); [exact Hv|]. destruct (_ === _); [|exact Hv].
    destruct (findTest _ _); [|exact Hv]. destruct (negb _); exact Hv.
Qed.

Lemma serve_keeps_price rqs : forall i db v,
  forallb leavesSnapshot rqs = true ->
  priceOf i db = Some v ->
  priceOf i (serve zone rqs db) = Some v.
Proof.
  induction rqs as [|rq rqs IH]; simpl; intros i db v Hall Hv; [exact Hv|].
  apply andb_true_iff in Hall as [Hrq Hall].
  apply IH; [exact Hall|]. now apply handle_keeps_price.
Qed.

Lemma admitted_fields db newId user testId hcsId at_ :
  b_id (admitted db newId user testId hcsId at_) = newId
  /\ b_test (admitted db newId user testId hcsId at_) = testId
  /\ b_hcs (admitted db newId user testId hcsId at_) = hcsId.
Proof.
  destruct (pre_save_fields db true
              (mkBooking newId (id user) testId hcsId pending at_ None))
    as (Hid & _ & Htest & Hhcs & _).
  repeat split; assumption.
Qed.

(** Claim C2. The price of a booking is computed by the save hook on
    the first save only. For a new booking of an existing test it is the
    price of the first entry in the test's pricing list that is the
    booking's center's and approved, and the base price of the test when
    no entry of the list is; a later save leaves the document as it is.
    So the booking [createBooking] stores for a test named by the
    identifier it is stored under carries the price of that entry, and
    after any later requests that change the test's base price or its
    pricing entries, review assignment requests, cancel or change the
    status of bookings or create other bookings, the booking is still
    stored with the same price. *)
Theorem priceAtBooking_snapshot (db : Db) :
  (forall b testDoc,
      findTest (b_test b) db = Some testDoc ->
      (forall entry,
          firstApproved (b_hcs b) (hcsPricing testDoc) entry ->
          priceAtBooking (BookingModel.pre_save db true b) = Some (p_price entry))
      /\ ((forall e, In e (hcsPricing testDoc) -> ~ approvedFor (b_hcs b) e) ->
          priceAtBooking (BookingModel.pre_save db true b) = Some (price testDoc)))
  /\ (forall b, BookingModel.pre_save db false b = b)
  /\ (forall now newId user body testId hcsId testDoc db1 r,
        cb_test body = Some testId -> cb_hcs body = Some hcsId ->
        findTest testId db = Some testDoc ->
        createBooking zone now newId user body db = (db1, Respond r) ->
        code r = 201%nat ->
        exists booking entry,
          findBooking newId db1 = Some booking
          /\ b_test booking = testId /\ b_hcs booking = hcsId
          /\ firstApproved hcsId (hcsPricing testDoc) entry
          /\ priceAtBooking booking = Some (p_price entry)
          /\ forall later,
               forallb leavesSnapshot later = true ->
               exists booking',
                 findBooking newId (serve zone later db1) = Some booking'
                 /\ priceAtBooking booking' = priceAtBooking booking).
Proof.
  assert (Hhook : forall b testDoc,
             findTest (b_test b) db = Some testDoc ->
             priceAtBooking (BookingModel.pre_save db true b)
             = Some match BookingModel.approvedPricing testDoc (b_hcs b) with
                    | Some entry => p_price entry
                    | None => price testDoc
                    end).
  { intros b testDoc Hf. unfold BookingModel.pre_save. rewrite Hf.
    now destruct (BookingModel.approvedPricing testDoc (b_hcs b)). }
  split.
  { intros b testDoc Hf. rewrite (Hhook b testDoc Hf). split.
    - intros entry He. apply approvedPricing_firstApproved in He.
      now rewrite He.
    - intros Hno. apply approvedPricing_none_iff in Hno. now rewrite Hno. }
  split; [reflexivity|].
  intros now newId user body testId0 hcsId0 testDoc0 db1 r Ht0 Hc0 Hft0 Hrun Hcode.
  destruct (createBooking_created _ _ _ _ _ _ _ _ Hrun Hcode)
    as (testId & hcsId & at_ & testDoc & hcsDoc & hcsPricing & db0
        & Ht & Hc & Hd & Hft & Hfc & Hp & Hnow & Hroom
        & Ht1 & Hc1 & Hb1 & Hr1 & Hfresh & ->).
  rewrite Ht0 in Ht. injection Ht as <-.
  rewrite Hc0 in Hc. injection Hc as <-.
  rewrite Hft0 in Hft. injection Hft as <-.
  set (doc := admitted db newId user testId0 hcsId0 at_).
  destruct (admitted_fields db newId user testId0 hcsId0 at_)
    as (Hid & Htest & Hhcs). fold doc in Hid, Htest, Hhcs.
  assert (Hfound : findBooking newId
                     (setBookings db0 (bookings db ++ [doc])) = Some doc).
  { unfold findBooking in *. simpl. rewrite (find_app_none _ _ _ Hfresh).
    now rewrite Hid, String.eqb_refl. }
  exists doc, hcsPricing.
  split; [exact Hfound|]. split; [exact Htest|]. split; [exact Hhcs|].
  split; [now apply approvedPricing_firstApproved|].
  split.
  - unfold doc, admitted.
    rewrite (Hhook (mkBooking newId (id user) testId0 hcsId0 pending at_ None)
               testDoc0 Hft0). simpl. now rewrite Hp.
  - intros later Hlater.
    pose proof (serve_keeps_price later newId
                  (setBookings db0 (bookings db ++ [doc]))
                  (priceAtBooking doc) Hlater) as Hkeep.
    unfold priceOf in Hkeep. rewrite Hfound in Hkeep.
    specialize (Hkeep eq_refl).
    destruct (findBooking newId (serve zone later _)) as [booking'|];
      [|discriminate].
    exists booking'. split; [reflexivity|]. now injection Hkeep.
Qed.

End PriceSnapshot.

(** T is offered at X for 500 and at another center for 300, whose entry
    comes first: the booking at X snapshots 500; then the test's prices
    change, the assignment is removed and the booking is canceled. *)
Lemma priceAtBooking_snapshot_witness :
  let db1 :=
    fst (bookingController.createBooking Scenario.tz Scenario.now (Scenario.bk "1")
           Scenario.customer (Scenario.book Scenario.T Scenario.june1)
           MoreScenarios.dbShared) in
  let later :=
    [UpdateTest Scenario.T (mkUpdateTestBody (Some 999) None);
     AssignTestToHCS Scenario.T (mkAssignBody Scenario.X 750 None);
     RemoveTestFromHCS Scenario.T Scenario.X;
     CancelBooking Scenario.customer (Scenario.bk "1")] in
  option_map priceAtBooking (findBooking (Scenario.bk "1") db1) = Some (Some 500)
  /\ option_map priceAtBooking
       (findBooking (Scenario.bk "1") (serve Scenario.tz later db1))
     = Some (Some 500)
  /\ option_map price (findTest Scenario.T (serve Scenario.tz later db1)) = Some 999
  /\ option_map hcsPricing (findTest Scenario.T (serve Scenario.tz later db1))
     = Some [mkPricing MoreScenarios.Y 300 asg_approved].
Proof.
  intros db1 later.
  destruct (priceAtBooking_snapshot Scenario.tz MoreScenarios.dbShared)
    as (_ & _ & Hcreate).
  edestruct (Hcreate Scenario.now (Scenario.bk "1") Scenario.customer
               (Scenario.book Scenario.T Scenario.june1) Scenario.T Scenario.X
               MoreScenarios.testT_shared db1)
    as (booking & entry & Hfound & _ & _ & Hentry & Hprice & Hlater);
    [reflexivity | reflexivity | reflexivity | vm_compute; reflexivity
    | reflexivity |].
  assert (Hfive : priceAtBooking booking = Some 500).
  { vm_compute in Hfound. injection Hfound as <-. reflexivity. }
  destruct (Hlater later eq_refl) as (booking' & Hfound' & Hsame).
  rewrite Hfound, Hfound'. simpl. rewrite Hsame, Hfive.
  repeat split; reflexivity.
Defined.

(** ** Assignment workflow *)

Section ListReplace.

Context {A : Type}.

Lemma filter_replaceFirst_head (p : A -> bool) (f : A -> A) (l : list A) :
  (forall x, p x = true -> p (f x) = true) ->
  filter p (replaceFirst p f l)
  = match filter p l with
    | [] => []
    | x :: rest => f x :: rest
    end.
Proof.
  intros Hp. induction l as [|x l IH]; simpl; [reflexivity|].
  destruct (p x) eqn:E; simpl.
  - now rewrite (Hp x E).
  - now rewrite E.
Qed.

Lemma filter_replaceFirst_other (p q : A -> bool) (f : A -> A) (l : list A) :
  (forall x, p x = true -> q x = false /\ q (f x) = false) ->
  filter q (replaceFirst p f l) = filter q l.
Proof.
  intros H. induction l as [|x l IH]; simpl; [reflexivity|].
  destruct (p x) eqn:E; simpl.
  - destruct (H x E) as [-> ->]. reflexivity.
  - now rewrite IH.
Qed.

Lemma map_replaceFirst {B : Type} (g : A -> B) (p : A -> bool) (f : A -> A)
      (l : list A) :
  (forall x, g (f x) = g x) -> map g (replaceFirst p f l) = map g l.
Proof.
  intros H. induction l as [|x l IH]; simpl; [reflexivity|].
  destruct (p x); simpl; now rewrite ?H, ?IH.
Qed.

Lemma find_filter_nil (p : A -> bool) (l : list A) :
  find p l = None <-> filter p l = [].
Proof.
  induction l as [|x l IH]; simpl; [tauto|].
  destruct (p x); [split; discriminate|exact IH].
Qed.

End ListReplace.

Section AssignmentWorkflow.

Import testController.

Lemma entriesFor_upsertPricing hcsId p l :
  entriesFor hcsId (upsertPricing hcsId p l)
  = mkPricing hcsId p asg_approved :: tl (entriesFor hcsId l).
Proof.
  unfold upsertPricing, entriesFor.
  destruct (find (fun item => p_hcs item === hcsId) l) as [e|] eqn:F.
  - rewrite filter_replaceFirst_head by (intros x Hx; exact Hx).
    destruct (filter (fun item => p_hcs item === hcsId) l) as [|x rest] eqn:E.
    + apply find_filter_nil in E. congruence.
    + assert (Hx : In x (filter (fun item => p_hcs item === hcsId) l))
        by (rewrite E; now left).
      apply filter_In in Hx as [_ Hx]. apply String.eqb_eq in Hx.
      now rewrite Hx.
  - rewrite filter_app. apply find_filter_nil in F. rewrite F. simpl.
    now rewrite String.eqb_refl.
Qed.

Lemma entriesFor_upsertPricing_other hcsId other p l :
  other <> hcsId ->
  entriesFor other (upsertPricing hcsId p l) = entriesFor other l.
Proof.
  intros Hne. unfold upsertPricing, entriesFor.
  destruct (find (fun item => p_hcs item === hcsId) l) as [e|] eqn:F.
  - apply filter_replaceFirst_other. intros x Hx. simpl.
    apply String.eqb_eq in Hx. rewrite Hx.
    assert (E : (hcsId === other) = false)
      by (apply String.eqb_neq; congruence).
    now rewrite E.
  - rewrite filter_app. simpl.
    assert (E : (hcsId === other) = false)
      by (apply String.eqb_neq; congruence).
    rewrite E. apply app_nil_r.
Qed.

Lemma upsertPricing_in_place hcsId p l :
  entriesFor hcsId l <> [] ->
  map p_hcs (upsertPricing hcsId p l) = map p_hcs l.
Proof.
  intros Hsome. unfold upsertPricing.
  destruct (find (fun item => p_hcs item === hcsId) l) eqn:F.
  - now apply map_replaceFirst.
  - apply find_filter_nil in F. now destruct Hsome.
Qed.

Lemma upsertPricing_appends hcsId p l :
  entriesFor hcsId l = [] ->
  upsertPricing hcsId p l = l ++ [mkPricing hcsId p asg_approved].
Proof.
  intros Hnone. unfold upsertPricing.
  apply find_filter_nil in Hnone. unfold entriesFor in *. now rewrite Hnone.
Qed.

(** Centers are unique in a pricing list: the convention of the data
    model. *)
Lemma unique_entriesFor hcsId l :
  NoDup (map p_hcs l) -> (List.length (entriesFor hcsId l) <= 1)%nat.
Proof.
  induction l as [|x l IH]; simpl; [lia|].
  intros Hnd. inversion Hnd as [|? ? Hnotin Hnd']; subst.
  destruct (p_hcs x === hcsId) eqn:E; [|auto].
  apply String.eqb_eq in E. simpl.
  destruct (entriesFor hcsId l) as [|y rest] eqn:F; [simpl; lia|].
  exfalso. apply Hnotin.
  assert (Hy : In y (entriesFor hcsId l)) by (rewrite F; now left).
  apply filter_In in Hy as [Hy Hy']. apply String.eqb_eq in Hy'.
  rewrite E, <- Hy'. now apply in_map.
Qed.

Lemma upsertPricing_unique hcsId p l :
  NoDup (map p_hcs l) -> NoDup (map p_hcs (upsertPricing hcsId p l)).
Proof.
  intros Hnd.
  destruct (entriesFor hcsId l) as [|y rest] eqn:F.
  - rewrite (upsertPricing_appends _ _ _ F), map_app. simpl.
    apply NoDup_app; [exact Hnd|repeat constructor; simpl; tauto|].
    intros a Ha [<-|[]]. apply in_map_iff in Ha as (x & Hx & Hin).
    assert (Hx' : In x (entriesFor hcsId l))
      by (apply filter_In; split; [exact Hin|now apply String.eqb_eq]).
    rewrite F in Hx'. destruct Hx'.
  - rewrite upsertPricing_in_place; [exact Hnd|]. rewrite F. discriminate.
Qed.

Lemma AssignmentStatus_of_string_approved s :
  AssignmentStatus_of_string s = Some asg_approved <-> s = "approved"%string.
Proof.
  unfold AssignmentStatus_of_string. split.
  - destruct (s === "pending"); [discriminate|].
    destruct (s === "approved") eqn:E; [now apply String.eqb_eq in E|].
    destruct (s === "rejected"); discriminate.
  - intros ->. reflexivity.
Qed.

Lemma findRequest_writeRequest i db r r' :
  findRequest i db = Some r -> r_id r' = i ->
  findRequest i (writeRequest r' db) = Some r'.
Proof.
  intros Hf Hid. unfold findRequest, writeRequest in *. simpl. subst i.
  rewrite find_replaceFirst_same; [now rewrite Hf|].
  intros _ _. apply String.eqb_refl.
Qed.

Lemma findTest_writeTest i db t t' :
  findTest i db = Some t -> t_id t' = i ->
  findTest i (writeTest t' db) = Some t'.
Proof.
  intros Hf Hid. unfold findTest, writeTest in *. simpl. subst i.
  rewrite find_replaceFirst_same; [now rewrite Hf|].
  intros _ _. apply String.eqb_refl.
Qed.

(** The store after a review whose status and notes pass validation:
    the request is rewritten whatever its status was, and an approval
    also rewrites the pricing list of the test, if the test exists and
    the requested price passes its validator. *)
Lemma reviewAssignmentRequest_store user requestId body db request st :
  findRequest requestId db = Some request ->
  AssignmentStatus_of_string (rv_status body) = Some st ->
  notesOk body = true ->
  fst (reviewAssignmentRequest user requestId body db)
  = let db1 := writeRequest (reviewed user body st request) db in
    if rv_status body === "approved" then
      match findTest (r_test request) db1 with
      | Some test =>
          if negb (validPrice (requestedPrice request)) then db1
          else writeTest
                 (setHcsPricing test
                    (upsertPricing (r_hcs request) (requestedPrice request)
                                   (hcsPricing test))) db1
      | None => db1
      end
    else db1.
Proof.
  intros Hf Hst Hn. unfold reviewAssignmentRequest. rewrite Hf, Hst.
  unfold notesOk in Hn.
  assert (E : negb (falsy (rv_notes body)) && negb (validNotes (rv_notes body))
              = false).
  { destruct (falsy (rv_notes body)), (validNotes (rv_notes body));
      simpl in *; congruence. }
  rewrite E. fold (reviewed user body st request). simpl.
  destruct (rv_status body === "approved"); [|reflexivity].
  destruct (findTest _ _); [|reflexivity].
  destruct (negb (validPrice _)); reflexivity.
Qed.

(** Claim C8, as the code has it. After [reviewAssignmentRequest]
    approves a request for test T, center C and requested price P (T
    exists, P passes the price validator), the first entry for C in T's
    pricing list is C at price P with status approved: the first entry
    for C is overwritten in place if there was one, so that the list keeps
    its length and its centers, a new entry is appended if there was
    none, and the entries of the other centers are untouched. The
    approval never adds an entry for a center that has one, but it does
    not remove one either: the further entries for C, if the list had
    any, stay behind the first. When the centers of the list were
    distinct before, the entry is the only one for C and the centers are
    still distinct. *)
Theorem review_approval_upserts (db : Db) user requestId body request test :
  findRequest requestId db = Some request ->
  rv_status body = "approved"%string ->
  notesOk body = true ->
  findTest (r_test request) db = Some test ->
  0 <= requestedPrice request ->
  let db' := fst (reviewAssignmentRequest user requestId body db) in
  let entry := mkPricing (r_hcs request) (requestedPrice request) asg_approved in
  exists test',
    findTest (r_test request) db' = Some test'
    /\ entriesFor (r_hcs request) (hcsPricing test')
       = entry :: tl (entriesFor (r_hcs request) (hcsPricing test))
    /\ (NoDup (map p_hcs (hcsPricing test)) ->
        entriesFor (r_hcs request) (hcsPricing test') = [entry]
        /\ NoDup (map p_hcs (hcsPricing test')))
    /\ (forall other, other <> r_hcs request ->
                      entriesFor other (hcsPricing test')
                      = entriesFor other (hcsPricing test))
    /\ (entriesFor (r_hcs request) (hcsPricing test) <> [] ->
        map p_hcs (hcsPricing test') = map p_hcs (hcsPricing test))
    /\ (entriesFor (r_hcs request) (hcsPricing test) = [] ->
        hcsPricing test' = hcsPricing test ++ [entry])
    /\ option_map r_status (findRequest requestId db') = Some asg_approved.
Proof.
  intros Hf Hs Hn Ht Hp db' entry.
  assert (Hst : AssignmentStatus_of_string (rv_status body) = Some asg_approved)
    by now apply AssignmentStatus_of_string_approved.
  assert (Hdb' : db' = writeTest
                         (setHcsPricing test
                            (upsertPricing (r_hcs request) (requestedPrice request)
                                           (hcsPricing test)))
                         (writeRequest (reviewed user body asg_approved request) db)).
  { subst db'. rewrite (reviewAssignmentRequest_store _ _ _ _ _ _ Hf Hst Hn).
    simpl. rewrite Hs. simpl.
    change (findTest (r_test request)
              (writeRequest (reviewed user body asg_approved request) db))
      with (findTest (r_test request) db).
    rewrite Ht. apply Z.leb_le in Hp. unfold validPrice. now rewrite Hp. }
  exists (setHcsPricing test
            (upsertPricing (r_hcs request) (requestedPrice request)
                           (hcsPricing test))).
  rewrite Hdb'. simpl hcsPricing.
  split.
  { apply findTest_writeTest with (t := test); [exact Ht|]. simpl.
    unfold findTest in Ht. apply find_some in Ht as [_ Ht].
    now apply String.eqb_eq in Ht. }
  split; [apply entriesFor_upsertPricing|].
  split.
  { intros Hnd. split; [|now apply upsertPricing_unique].
    rewrite entriesFor_upsertPricing.
    pose proof (unique_entriesFor (r_hcs request) _ Hnd) as Hlen.
    destruct (entriesFor (r_hcs request) (hcsPricing test)) as [|x [|y rest]];
      simpl in *; try reflexivity; lia. }
  split; [intros other Hne; now apply entriesFor_upsertPricing_other|].
  split; [apply upsertPricing_in_place|].
  split; [apply upsertPricing_appends|].
  change (findRequest requestId (writeTest _ ?d)) with (findRequest requestId d).
  rewrite (findRequest_writeRequest requestId db request); [reflexivity|exact Hf|].
  simpl. unfold findRequest in Hf. apply find_some in Hf as [_ Hf].
  now apply String.eqb_eq in Hf.
Qed.

(** Claim C9, as the code has it. [reviewAssignmentRequest] does not look
    at the status the request has: whenever the request exists and the
    status and notes sent pass validation, the request is stored with
    the status sent and the reviewer, whether it was pending, approved
    or rejected before; and whenever the status sent is approved, the
    test exists and the requested price is valid, the pricing list of
    the test is upserted again. *)
Theorem review_overwrites_status (db : Db) user requestId body request st :
  findRequest requestId db = Some request ->
  AssignmentStatus_of_string (rv_status body) = Some st ->
  notesOk body = true ->
  let db' := fst (reviewAssignmentRequest user requestId body db) in
  (exists request',
      findRequest requestId db' = Some request'
      /\ r_status request' = st
      /\ reviewedBy request' = Some (id user)
      /\ r_test request' = r_test request
      /\ r_hcs request' = r_hcs request
      /\ requestedPrice request' = requestedPrice request)
  /\ (st = asg_approved ->
      forall test,
        findTest (r_test request) db = Some test ->
        0 <= requestedPrice request ->
        option_map hcsPricing (findTest (r_test request) db')
        = Some (upsertPricing (r_hcs request) (requestedPrice request)
                              (hcsPricing test)))
  /\ (st <> asg_approved -> tests db' = tests db).
Proof.
  intros Hf Hst Hn db'. subst db'.
  rewrite (reviewAssignmentRequest_store _ _ _ _ _ _ Hf Hst Hn).
  assert (Hid : r_id request = requestId).
  { unfold findRequest in Hf. apply find_some in Hf as [_ Hf].
    now apply String.eqb_eq in Hf. }
  assert (Hreq : findRequest requestId
                   (writeRequest (reviewed user body st request) db)
                 = Some (reviewed user body st request))
    by (apply (findRequest_writeRequest requestId db request); auto).
  split; [|split].
  - exists (reviewed user body st request). split; [|repeat split].
    cbv zeta.
    destruct (rv_status body === "approved"); [|exact Hreq].
    destruct (findTest _ _); [|exact Hreq].
    destruct (negb _); exact Hreq.
  - intros -> test Ht Hp.
    apply AssignmentStatus_of_string_approved in Hst. rewrite Hst. cbv zeta.
    simpl (_ === _).
    change (findTest (r_test request)
              (writeRequest (reviewed user body asg_approved request) db))
      with (findTest (r_test request) db).
    rewrite Ht. apply Z.leb_le in Hp. unfold validPrice. rewrite Hp. simpl negb.
    cbv iota.
    rewrite (findTest_writeTest (r_test request) _ test); [reflexivity|exact Ht|].
    simpl. unfold findTest in Ht. apply find_some in Ht as [_ Ht].
    now apply String.eqb_eq in Ht.
  - intros Hne. cbv zeta.
    destruct (rv_status body === "approved") eqn:E; [|reflexivity].
    apply String.eqb_eq in E. apply AssignmentStatus_of_string_approved in E.
    congruence.
Qed.

End AssignmentWorkflow.

(** ** The assignment claims on scenario D *)

Section AssignmentScenarios.

Import Scenario MoreScenarios testController.

(** The center's request for T at 500 is approved by the superadmin. *)
Lemma review_approval_upserts_witness :
  option_map hcsPricing (findTest T dbD_approved)
  = Some [mkPricing X 500 asg_approved].
Proof.
  edestruct (review_approval_upserts dbD_requested superadmin rq1 approve)
    as (test' & Hfound & _ & Hunique & _ & _ & Happend & _);
    [vm_compute; reflexivity | reflexivity | reflexivity
    | vm_compute; reflexivity | vm_compute; discriminate |].
  change (findTest T dbD_approved = Some test') in Hfound.
  rewrite Hfound. simpl. rewrite Happend; reflexivity.
Defined.

(** The claim as the specification words it fails when the pricing list
    of the test holds two entries for the center, which an update of the
    test stores as they are sent: the approval overwrites the first of
    them and leaves the second, so the list holds two entries for the
    center afterwards. *)
Lemma review_approval_leaves_second_entry :
  statusOf (snd (updateTest T twoEntries dbD_requested)) = Some 200%nat
  /\ option_map hcsPricing (findTest T dbD_twice)
     = Some [mkPricing X 100 asg_rejected; mkPricing X 200 asg_rejected]
  /\ statusOf (snd (reviewAssignmentRequest superadmin rq1 approve dbD_twice))
     = Some 200%nat
  /\ option_map r_status
       (findRequest rq1
          (fst (reviewAssignmentRequest superadmin rq1 approve dbD_twice)))
     = Some asg_approved
  /\ option_map (fun test => entriesFor X (hcsPricing test))
       (findTest T (fst (reviewAssignmentRequest superadmin rq1 approve dbD_twice)))
     = Some [mkPricing X 500 asg_approved; mkPricing X 200 asg_rejected].
Proof. repeat split. Qed.

(** The approved request is reviewed again: the second review rejects it,
    and after the superadmin removed the assignment a third review
    approves it and brings the pricing entry back. *)
Lemma review_is_not_final :
  option_map r_status (findRequest rq1 dbD_requested) = Some asg_pending
  /\ option_map r_status (findRequest rq1 dbD_approved) = Some asg_approved
  /\ option_map r_status
       (findRequest rq1
          (fst (reviewAssignmentRequest superadmin rq1 reject dbD_approved)))
     = Some asg_rejected
  /\ let removed := fst (removeTestFromHCS T X dbD_approved) in
     option_map hcsPricing (findTest T removed) = Some []
     /\ option_map r_status (findRequest rq1 removed) = Some asg_approved
     /\ option_map hcsPricing
          (findTest T
             (fst (reviewAssignmentRequest superadmin rq1 approve removed)))
        = Some [mkPricing X 500 asg_approved].
Proof. repeat split. Qed.

Lemma review_overwrites_status_witness :
  option_map r_status
    (findRequest rq1
       (fst (reviewAssignmentRequest superadmin rq1 reject dbD_approved)))
  = Some asg_rejected.
Proof.
  edestruct (review_overwrites_status dbD_approved superadmin rq1 reject)
    as ((request' & Hfound & Hst & _) & _);
    [vm_compute; reflexivity | reflexivity | reflexivity |].
  change (findRequest rq1
            (fst (reviewAssignmentRequest superadmin rq1 reject dbD_approved))
          = Some request') in Hfound.
  rewrite Hfound. simpl. now rewrite Hst.
Defined.

End AssignmentScenarios.

(** * Further properties of the handlers *)

(** ** The slot override setter *)

Section SetSlots.

Import HealthcareCenterModel.

Lemma find_replaceFirst_other {A : Type} (p q : A -> bool) (f : A -> A) (l : list A) :
  (forall x, p x = true -> q x = false /\ q (f x) = false) ->
  find q (replaceFirst p f l) = find q l.
Proof.
  intros H. induction l as [|x l IH]; simpl; [reflexivity|].
  destruct (p x) eqn:E; simpl.
  - destruct (H x E) as [-> ->]. reflexivity.
  - now rewrite IH.
Qed.

Lemma find_app_other {A : Type} (q : A -> bool) (l : list A) (x : A) :
  q x = false -> find q (l ++ [x]) = find q l.
Proof.
  intros Hx. induction l as [|a l IH]; simpl; [now rewrite Hx|].
  destruct (q a); [reflexivity|exact IH].
Qed.

Lemma replaceFirst_same_length {A : Type} (p : A -> bool) (f : A -> A) (l : list A) :
  List.length (replaceFirst p f l) = List.length l.
Proof.
  induction l as [|x l IH]; simpl; [reflexivity|].
  destruct (p x); simpl; congruence.
Qed.

(** Property X1. [setSlotsForTest] is an upsert keyed by the test: it
    leaves the capacity of every other test and the default slot count as
    they were, keeps the tests of the overrides unique, and adds an entry
    only when the test had none. *)
Theorem setSlotsForTest_frame (c : HealthcareCenter) (t : ObjectId) (n : Z) :
  (forall t', t' <> t ->
              getSlotsForTest (setSlotsForTest c t n) t' = getSlotsForTest c t')
  /\ availableSlotsPerDay (setSlotsForTest c t n) = availableSlotsPerDay c
  /\ (NoDup (map ts_test (testSlots c)) ->
      NoDup (map ts_test (testSlots (setSlotsForTest c t n))))
  /\ List.length (testSlots (setSlotsForTest c t n))
     = if existsb (fun slot => ts_test slot === t) (testSlots c)
       then List.length (testSlots c)
       else S (List.length (testSlots c)).
Proof.
  unfold getSlotsForTest, setSlotsForTest. simpl.
  destruct (existsb (fun slot => ts_test slot === t) (testSlots c)) eqn:E.
  - repeat split.
    + intros t' Hne. rewrite find_replaceFirst_other; [reflexivity|].
      intros x Hx. simpl. apply String.eqb_eq in Hx. rewrite Hx.
      assert (Hf : (t === t') = false) by (apply String.eqb_neq; congruence).
      now rewrite Hf.
    + intros Hnd. now rewrite map_replaceFirst.
    + apply replaceFirst_same_length.
  - repeat split.
    + intros t' Hne. rewrite find_app_other; [reflexivity|]. simpl.
      apply String.eqb_neq. congruence.
    + intros Hnd. rewrite map_app. simpl.
      apply NoDup_app; [exact Hnd|repeat constructor; simpl; tauto|].
      intros a Ha [<-|[]]. apply in_map_iff in Ha as (x & Hx & Hin).
      assert (Hex : existsb (fun slot => ts_test slot === t) (testSlots c) = true).
      { apply existsb_exists. exists x. split; [exact Hin|].
        now apply String.eqb_eq. }
      congruence.
    + rewrite length_app. simpl. lia.
Qed.

End SetSlots.

(** ** What createBooking does and does not do *)

Section CreateBookingMore.

Import bookingController.
Variable zone : Zone.
Variable tz : Z.

(** Property X2. For a request that names a test and a center by the
    identifiers they are stored under, whatever the time zone of the
    server: [createBooking] answers 201 exactly when the two identifiers
    are not empty, the pricing list of the test has an entry that is the
    center's and approved, the date is valid and strictly after the
    current time, the bookings at the center that are not canceled and
    lie on the date's day from 00:00:00.000 to 23:59:59.999 number less
    than the capacity of the center for the test, and the new identifier
    is not in use. *)
Theorem createBooking_201_iff (db : Db) now newId user body testId hcsId
        testDoc hcsDoc :
  cb_test body = Some testId -> cb_hcs body = Some hcsId ->
  findTest testId db = Some testDoc ->
  findCenter hcsId db = Some hcsDoc ->
  statusOf (snd (createBooking zone now newId user body db)) = Some 201%nat
  <-> testId <> ""%string /\ hcsId <> ""%string
      /\ (exists entry, In entry (hcsPricing testDoc) /\ approvedFor hcsId entry)
      /\ (exists at_,
             cb_scheduledAt body = ValidDate at_ /\ now < at_
             /\ countWithinDay zone db hcsId at_
                < HealthcareCenterModel.getSlotsForTest hcsDoc testId)
      /\ findBooking newId db = None.
Proof.
  intros Ht0 Hc0 Hft0 Hfc0. split.
  - destruct (createBooking zone now newId user body db) as [db' o] eqn:Hrun.
    destruct o as [r|e]; simpl; [|discriminate]. intros [= Hcode].
    destruct (createBooking_created zone _ _ _ _ _ _ _ Hrun Hcode)
      as (testId' & hcsId' & at_ & testDoc' & hcsDoc' & hcsPricing & db1
          & Ht & Hc & Hd & Hft & Hfc & Hp & Hnow & Hroom & _ & _ & _ & _ & Hfresh & _).
    rewrite Ht0 in Ht. injection Ht as <-.
    rewrite Hc0 in Hc. injection Hc as <-.
    rewrite Hft0 in Hft. injection Hft as <-.
    rewrite Hfc0 in Hfc. injection Hfc as <-.
    split.
    { intros ->. unfold createBooking in Hrun. rewrite Ht0 in Hrun.
      simpl in Hrun. injection Hrun as _ <-. discriminate. }
    split.
    { intros ->. unfold createBooking in Hrun. rewrite Ht0, Hc0 in Hrun.
      simpl in Hrun. rewrite orb_true_r in Hrun. simpl in Hrun.
      injection Hrun as _ <-. discriminate. }
    split.
    { exists hcsPricing. apply approvedPricing_firstApproved in Hp.
      destruct Hp as (before & after & Hl & Ha & _). split; [|exact Ha].
      rewrite Hl. apply in_or_app. right. now left. }
    split; [|exact Hfresh].
    exists at_. repeat split; auto.
    now rewrite <- countBookingsForDate_countWithinDay.
  - intros (Hte & Hce & (entry & Hin & Ha) & (at_ & Hd & Hnow & Hroom) & Hfresh).
    destruct (createBooking_admits zone now newId user body db testId hcsId at_
                testDoc hcsDoc) as (db1 & _ & _ & _ & _ & Hrun).
    + unfold bookable. repeat split; auto.
      intros Hnone.
      exact (proj1 (approvedPricing_none_iff testDoc hcsId) Hnone entry Hin Ha).
    + now rewrite countBookingsForDate_countWithinDay.
    + exact Hfresh.
    + rewrite Hrun. reflexivity.
Qed.

(** Property X3. A request [createBooking] does not admit changes nothing:
    whenever the answer is a response other than 201 the store is the one
    it was, the phone number of the user included. In every case the
    tests, centers and assignment requests are untouched, and when the
    request ends in an error passed to [next] the bookings are
    untouched. *)
Theorem createBooking_refusal_changes_nothing (db : Db) now newId user body :
  let db' := fst (createBooking tz now newId user body db) in
  let o := snd (createBooking tz now newId user body db) in
  (forall r, o = Respond r -> code r <> 201%nat -> db' = db)
  /\ tests db' = tests db /\ centers db' = centers db
  /\ requests db' = requests db
  /\ (forall e, o = Next e -> bookings db' = bookings db).
Proof.
  unfold createBooking.
  destruct (_ || _); [simpl; repeat split; auto|].
  destruct (findTest _ _); [|simpl; repeat split; auto].
  destruct (findCenter _ _); [|simpl; repeat split; auto].
  destruct (BookingModel.approvedPricing _ _); [|simpl; repeat split; auto].
  destruct (cb_scheduledAt body) as [| |at_]; try (simpl; repeat split; auto; fail).
  destruct (_ <=? _); [simpl; repeat split; auto|].
  destruct (_ >=? _); [simpl; repeat split; auto|].
  set (db1 := if falsy (cb_phone body) then db else setPhone user (cb_phone body) db).
  assert (Hdb1 : tests db1 = tests db /\ centers db1 = centers db
                 /\ bookings db1 = bookings db /\ requests db1 = requests db).
  { subst db1. destruct (falsy (cb_phone body)); simpl; auto. }
  destruct Hdb1 as (Ht & Hc & Hb & Hr).
  unfold BookingModel.create. destruct (findBooking newId db1); simpl.
  - repeat split; auto. intros r [=].
  - repeat split; auto.
    + intros r [= <-]. simpl. congruence.
    + intros e [=].
Qed.

(** Property X4. An admitted booking takes a slot of its own center and
    calendar day only: the count of any other center, and of the same
    center on any other day, is what it was. *)
Theorem createBooking_takes_one_slot (db : Db) now newId user body db' r hcsId d :
  createBooking tz now newId user body db = (db', Respond r) ->
  code r = 201%nat ->
  (cb_hcs body <> Some hcsId
   \/ forall at_, cb_scheduledAt body = ValidDate at_ ->
                  calendarDay tz at_ <> calendarDay tz d) ->
  countBookingsForDate tz db' hcsId d = countBookingsForDate tz db hcsId d.
Proof.
  intros Hrun Hcode Hother.
  destruct (createBooking_created tz _ _ _ _ _ _ _ Hrun Hcode)
    as (testId & hcsId0 & at_ & testDoc & hcsDoc & hcsPricing & db1
        & Ht & Hc & Hd & _ & _ & _ & _ & _ & _ & _ & _ & _ & _ & ->).
  rewrite countBookingsForDate_append.
  assert (Hno : occupies tz hcsId d (admitted db newId user testId hcsId0 at_)
                = false).
  { rewrite occupies_calendarDay.
    destruct (pre_save_fields db true
                (mkBooking newId (id user) testId hcsId0 pending at_ None))
      as (_ & _ & _ & Hh & _ & Ha).
    fold (admitted db newId user testId hcsId0 at_) in Hh, Ha.
    simpl in Hh, Ha. rewrite Hh, Ha.
    destruct Hother as [Hne|Hday].
    - assert (E : (hcsId0 === hcsId) = false)
        by (apply String.eqb_neq; congruence).
      now rewrite E.
    - specialize (Hday at_ Hd). apply Z.eqb_neq in Hday.
      rewrite Hday. now rewrite andb_false_r. }
  rewrite Hno. simpl. lia.
Qed.

End CreateBookingMore.

(** ** Status changes and cancellation *)

Section BookingTransitions.

Import bookingController.
Variable tz : Z.

Lemma BookingStatus_of_string_confirmed s :
  BookingStatus_of_string s = Some confirmed <-> s = "confirmed"%string.
Proof.
  unfold BookingStatus_of_string. split.
  - destruct (s === "pending"); [discriminate|].
    destruct (s === "confirmed") eqn:E; [now apply String.eqb_eq in E|].
    destruct (s === "completed"); [discriminate|].
    destruct (s === "canceled"); discriminate.
  - intros ->. reflexivity.
Qed.

Lemma replaceFirst_found_same {A : Type} (p : A -> bool) (l : list A) (y : A) :
  find p l = Some y -> replaceFirst p (fun _ => y) l = l.
Proof.
  induction l as [|x l IH]; simpl; [reflexivity|].
  destruct (p x); [now intros [= ->]|]. intros H. now rewrite IH.
Qed.

(** Property X5. The capacity is consulted only on the way to
    confirmed. An update that sets a canceled booking to pending or to
    completed is answered 200 whatever the capacity and the bookings of
    the day, and the day's count at the center rises by one. *)
Theorem updateBooking_reinstates_without_check (db : Db) user bookingId body
        booking s st :
  findBooking bookingId db = Some booking ->
  mayUpdate user booking db = true ->
  b_status booking = canceled ->
  ub_status body = Some s ->
  BookingStatus_of_string s = Some st ->
  st = pending \/ st = completed ->
  ub_scheduledAt body = None -> ub_hcs body = None ->
  exists r,
    snd (updateBooking tz user bookingId body db) = Respond r
    /\ code r = 200%nat
    /\ option_map b_status
         (findBooking bookingId (fst (updateBooking tz user bookingId body db)))
       = Some st
    /\ countBookingsForDate tz (fst (updateBooking tz user bookingId body db))
         (b_hcs booking) (scheduledAt booking)
       = countBookingsForDate tz db (b_hcs booking) (scheduledAt booking) + 1.
Proof.
  intros Hf Hm Hcan Hs Hst Hor Hsa Hh.
  assert (Hnc : (s === "confirmed") = false).
  { apply String.eqb_neq. intros ->. cbv in Hst.
    destruct Hor; congruence. }
  pose proof (findBooking_id _ _ _ Hf) as Hid.
  unfold updateBooking. rewrite Hf.
  unfold mayUpdate in Hm. apply negb_true_iff in Hm. rewrite Hm.
  unfold changingToConfirmed. rewrite Hs, Hnc. simpl andb. cbv iota.
  unfold applyUpdate. rewrite Hs, Hst, Hsa, Hh. simpl orElse. simpl fst. simpl snd.
  eexists. split; [reflexivity|]. split; [reflexivity|]. split.
  - rewrite (findBooking_writeBooking bookingId db booking); [reflexivity|exact Hf|].
    exact Hid.
  - rewrite countBookingsForDate_writeBooking with (b := booking)
      by (simpl; now rewrite Hid).
    rewrite occupies_canceled by exact Hcan.
    rewrite occupies_own; [simpl; lia|reflexivity|reflexivity|].
    simpl. destruct Hor; subst st; discriminate.
Qed.


(** Property X7. The handlers refuse strangers and write nothing: an HCS
    Admin who is not the admin of the booking's center (the first center
    found for that admin) is answered 403 by [updateBooking] and by
    [cancelBooking], and so is a Customer who asks [cancelBooking] for a
    booking of another user. *)
Theorem booking_handlers_refuse_strangers (db : Db) user bookingId booking :
  findBooking bookingId db = Some booking ->
  (role user = HCSAdmin -> hcsAdminOwns user booking db = false ->
   (forall body,
       updateBooking tz user bookingId body db
       = (db, failure 403 "Not authorized to update this booking"))
   /\ cancelBooking user bookingId db
      = (db, failure 403 "Not authorized to cancel this booking"))
  /\ (role user = Customer -> b_user booking <> id user ->
      cancelBooking user bookingId db
      = (db, failure 403 "Not authorized to cancel this booking")).
Proof.
  intros Hf. split.
  - intros Hr Hown. split.
    + intros body. unfold updateBooking. now rewrite Hf, Hr, Hown.
    + unfold cancelBooking. now rewrite Hf, Hr, Hown.
  - intros Hr Hne. unfold cancelBooking. rewrite Hf, Hr.
    apply String.eqb_neq in Hne. now rewrite Hne.
Qed.

(** Property X8. [cancelBooking] does not look at the status: for a
    caller it lets through, a booking in any status, completed included,
    ends canceled, with its other fields and every other booking as they
    were; canceling it again changes nothing. *)
Theorem cancelBooking_any_status_idempotent (db : Db) user bookingId booking :
  findBooking bookingId db = Some booking ->
  mayCancel user booking db = true ->
  let db1 := fst (cancelBooking user bookingId db) in
  findBooking bookingId db1
  = Some (mkBooking (b_id booking) (b_user booking) (b_test booking)
                    (b_hcs booking) canceled (scheduledAt booking)
                    (priceAtBooking booking))
  /\ (forall i, i <> bookingId -> findBooking i db1 = findBooking i db)
  /\ statusOf (snd (cancelBooking user bookingId db)) = Some 200%nat
  /\ fst (cancelBooking user bookingId db1) = db1.
Proof.
  intros Hf Hm db1.
  pose proof (findBooking_id _ _ _ Hf) as Hid.
  assert (Hdb1 : db1 = writeBooking (BookingModel.setStatus booking canceled) db)
    by (subst db1; now rewrite (cancelBooking_canceled _ _ _ _ Hf Hm)).
  assert (Hf1 : findBooking bookingId db1
                = Some (BookingModel.setStatus booking canceled)).
  { rewrite Hdb1. now apply (findBooking_writeBooking bookingId db booking). }
  split; [exact Hf1|]. split; [|split].
  - intros i Hne. rewrite Hdb1. unfold findBooking, writeBooking. simpl.
    apply find_replaceFirst_other. intros x Hx. apply String.eqb_eq in Hx.
    simpl in Hx. simpl. rewrite Hx, Hid.
    assert (E : (bookingId === i) = false)
      by (apply String.eqb_neq; congruence).
    now rewrite E.
  - now rewrite (cancelBooking_canceled _ _ _ _ Hf Hm).
  - rewrite (cancelBooking_canceled user bookingId db1
               (BookingModel.setStatus booking canceled) Hf1).
    + simpl. rewrite Hdb1 at 2. unfold writeBooking at 1.
      unfold findBooking in Hf1. simpl b_id.
      rewrite Hid in *.
      change (BookingModel.setStatus (BookingModel.setStatus booking canceled)
                canceled) with (BookingModel.setStatus booking canceled).
      rewrite (replaceFirst_found_same _ _ _ Hf1).
      rewrite Hdb1. reflexivity.
    + rewrite Hdb1. exact Hm.
Qed.

End BookingTransitions.

(** ** Assigning, removing and requesting a test *)

Section AssignmentMore.

Import bookingController testController.
Variable tz : Z.

Lemma find_and_replaceFirst {A : Type} (p q : A -> bool) (f : A -> A) (l : list A)
      (y : A) :
  (forall x, p x = true -> p (f x) = true /\ q (f x) = true) ->
  find p l = Some y ->
  find (fun x => p x && q x) (replaceFirst p f l) = Some (f y).
Proof.
  intros H. induction l as [|x l IH]; simpl; [discriminate|].
  destruct (p x) eqn:E.
  - intros [= ->]. simpl. destruct (H y E) as [-> ->]. reflexivity.
  - intros Hf. simpl. rewrite E. simpl. now apply IH.
Qed.

Lemma find_and_none {A : Type} (p q : A -> bool) (l : list A) :
  find p l = None -> find (fun x => p x && q x) l = None.
Proof.
  induction l as [|x l IH]; simpl; [reflexivity|].
  destruct (p x); [discriminate|]. exact IH.
Qed.

(** After the upsert the approved entry a booking looks for is the one
    just written. *)
Lemma approvedPricing_upsertPricing i pr hcsId p l :
  BookingModel.approvedPricing (mkTest i pr (upsertPricing hcsId p l)) hcsId
  = Some (mkPricing hcsId p asg_approved).
Proof.
  unfold BookingModel.approvedPricing, upsertPricing. simpl.
  destruct (find (fun item => p_hcs item === hcsId) l) as [e|] eqn:F.
  - rewrite (find_and_replaceFirst _ _ _ _ e); [|intros x Hx; simpl; auto|exact F].
    apply find_some in F as [_ F]. apply String.eqb_eq in F. now rewrite F.
  - rewrite (find_app_none _ _ _ (find_and_none _ _ _ F)). simpl.
    now rewrite String.eqb_refl.
Qed.

Lemma findTest_id i db t : findTest i db = Some t -> t_id t = i.
Proof.
  unfold findTest. intros H. apply find_some in H as [_ H].
  now apply String.eqb_eq in H.
Qed.

Lemma findCenter_id i db h : findCenter i db = Some h -> h_id h = i.
Proof.
  unfold findCenter. intros H. apply find_some in H as [_ H].
  now apply String.eqb_eq in H.
Qed.

Lemma findCenter_writeCenter i db h h' :
  findCenter i db = Some h -> h_id h' = i ->
  findCenter i (writeCenter h' db) = Some h'.
Proof.
  intros Hf Hid. unfold findCenter, writeCenter in *. simpl. subst i.
  rewrite find_replaceFirst_same; [now rewrite Hf|].
  intros _ _. apply String.eqb_refl.
Qed.

(** The price the save hook gives a new booking of a test whose approved
    entry for the center is known. *)
Lemma pre_save_price db b test entry :
  findTest (b_test b) db = Some test ->
  BookingModel.approvedPricing test (b_hcs b) = Some entry ->
  priceAtBooking (BookingModel.pre_save db true b) = Some (p_price entry).
Proof.
  intros Ht He. unfold BookingModel.pre_save. now rewrite Ht, He.
Qed.

(** The booking a 201 answer of [createBooking] leaves in the store. *)
Lemma createBooking_stored now newId user body db db' r :
  createBooking tz now newId user body db = (db', Respond r) ->
  code r = 201%nat ->
  exists testId hcsId at_,
    cb_test body = Some testId /\ cb_hcs body = Some hcsId
    /\ cb_scheduledAt body = ValidDate at_
    /\ findBooking newId db' = Some (admitted db newId user testId hcsId at_).
Proof.
  intros Hrun Hcode.
  destruct (createBooking_created tz _ _ _ _ _ _ _ Hrun Hcode)
    as (testId & hcsId & at_ & testDoc & hcsDoc & hcsPricing & db1
        & Ht & Hc & Hd & _ & _ & _ & _ & _ & _ & _ & _ & _ & Hfresh & ->).
  exists testId, hcsId, at_. repeat split; auto.
  destruct (admitted_fields db newId user testId hcsId at_) as (Hid & _).
  unfold findBooking in *. simpl. rewrite (find_app_none _ _ _ Hfresh).
  now rewrite Hid, String.eqb_refl.
Qed.

(** [createBooking] on a well-formed request for a test with no approved
    entry at the center. *)
Lemma createBooking_no_entry now newId user body db testId hcsId testDoc hcsDoc :
  cb_test body = Some testId -> testId <> ""%string ->
  cb_hcs body = Some hcsId -> hcsId <> ""%string ->
  cb_scheduledAt body <> NoDate ->
  findTest testId db = Some testDoc ->
  findCenter hcsId db = Some hcsDoc ->
  BookingModel.approvedPricing testDoc hcsId = None ->
  createBooking tz now newId user body db
  = (db, failure 400 "Test is not available at the selected healthcare center").
Proof.
  intros Ht Hte Hc Hce Hd Hft Hfc Hp. unfold createBooking.
  rewrite Ht, Hc. simpl. apply String.eqb_neq in Hte, Hce.
  rewrite Hte, Hce. simpl. rewrite Hft, Hfc, Hp.
  destruct (cb_scheduledAt body); [now destruct Hd| |]; reflexivity.
Qed.

(** Property X9. A direct assignment makes the test bookable at the
    center at the assigned price: after [assignTestToHCS] with a valid
    price (and valid slots, if any) the answer is 200, the approved entry
    a booking looks for is the center at that price, whatever entry the
    center had before, a new booking of the test at the center gets that
    price, and the capacity of the center for the test is the slot count
    sent, if one was sent; the base price is untouched. *)
Theorem assignTestToHCS_makes_bookable (db : Db) testId body hcsDoc test :
  findCenter (as_hcs body) db = Some hcsDoc ->
  findTest testId db = Some test ->
  0 <= as_price body ->
  (forall n, as_slots body = Some n -> 0 <= n <= 100) ->
  let db' := fst (assignTestToHCS testId body db) in
  statusOf (snd (assignTestToHCS testId body db)) = Some 200%nat
  /\ exists test',
       findTest testId db' = Some test'
       /\ price test' = price test
       /\ BookingModel.approvedPricing test' (as_hcs body)
          = Some (mkPricing (as_hcs body) (as_price body) asg_approved)
       /\ (forall b, b_test b = testId -> b_hcs b = as_hcs body ->
                     priceAtBooking (BookingModel.pre_save db' true b)
                     = Some (as_price body))
       /\ (forall n, as_slots body = Some n ->
                     exists hcsDoc',
                       findCenter (as_hcs body) db' = Some hcsDoc'
                       /\ HealthcareCenterModel.getSlotsForTest hcsDoc' testId = n)
       /\ (as_slots body = None -> centers db' = centers db).
Proof.
  intros Hfc Hft Hp Hslots db'.
  pose proof (findTest_id _ _ _ Hft) as Hid.
  set (test' := setHcsPricing test
                  (upsertPricing (as_hcs body) (as_price body) (hcsPricing test))).
  assert (Hap : BookingModel.approvedPricing test' (as_hcs body)
                = Some (mkPricing (as_hcs body) (as_price body) asg_approved))
    by apply approvedPricing_upsertPricing.
  assert (Hft1 : findTest testId (writeTest test' db) = Some test')
    by (apply (findTest_writeTest testId db test); auto).
  apply Z.leb_le in Hp as Hp'.
  assert (Hprice : forall d b,
             findTest testId d = Some test' ->
             b_test b = testId -> b_hcs b = as_hcs body ->
             priceAtBooking (BookingModel.pre_save d true b)
             = Some (as_price body)).
  { intros d b Hd Hb Hh.
    apply (pre_save_price d b test'
             (mkPricing (as_hcs body) (as_price body) asg_approved));
      rewrite ?Hb, ?Hh; auto. }
  destruct (as_slots body) as [n|] eqn:Hs.
  - destruct (Hslots n eq_refl) as [H0 H100]. apply Z.leb_le in H0, H100.
    assert (Hrun : exists r,
               assignTestToHCS testId body db
               = (writeCenter
                    (HealthcareCenterModel.setSlotsForTest hcsDoc testId n)
                    (writeTest test' db), Respond r)
               /\ code r = 200%nat).
    { unfold assignTestToHCS. rewrite Hfc, Hft, Hs.
      unfold validPrice, HealthcareCenterModel.validSlots.
      rewrite Hp', H0, H100. eexists. split; reflexivity. }
    destruct Hrun as (r & Hrun & Hcode). subst db'. rewrite Hrun.
    cbn [fst snd statusOf]. split; [now rewrite Hcode|].
    exists test'. split; [exact Hft1|].
    split; [reflexivity|]. split; [exact Hap|]. split; [|split].
    + intros b. apply Hprice. exact Hft1.
    + intros n' [= <-]. eexists. split.
      * apply (findCenter_writeCenter (as_hcs body) _ hcsDoc); [exact Hfc|].
        simpl. now apply findCenter_id with (db := db).
      * apply getSlotsForTest_set_same.
    + discriminate.
  - assert (Hrun : exists r,
               assignTestToHCS testId body db = (writeTest test' db, Respond r)
               /\ code r = 200%nat).
    { unfold assignTestToHCS. rewrite Hfc, Hft, Hs.
      unfold validPrice. rewrite Hp'. eexists. split; reflexivity. }
    destruct Hrun as (r & Hrun & Hcode). subst db'. rewrite Hrun.
    cbn [fst snd statusOf]. split; [now rewrite Hcode|].
    exists test'. split; [exact Hft1|].
    split; [reflexivity|]. split; [exact Hap|]. split; [|split].
    + intros b. apply Hprice. exact Hft1.
    + discriminate.
    + reflexivity.
Qed.

(** Property X10. [assignTestToHCS] saves the test before it validates
    the slot count: with a valid price and a slot count outside 0..100
    the request ends in a validation error, the center is as it was, and
    the test is nevertheless stored as approved for the center at the
    price sent. *)
Theorem assignTestToHCS_bad_slots_keeps_pricing (db : Db) testId body hcsDoc test n :
  findCenter (as_hcs body) db = Some hcsDoc ->
  findTest testId db = Some test ->
  0 <= as_price body ->
  as_slots body = Some n ->
  n < 0 \/ 100 < n ->
  let db' := fst (assignTestToHCS testId body db) in
  snd (assignTestToHCS testId body db) = Next "ValidationError"
  /\ centers db' = centers db
  /\ exists test',
       findTest testId db' = Some test'
       /\ BookingModel.approvedPricing test' (as_hcs body)
          = Some (mkPricing (as_hcs body) (as_price body) asg_approved).
Proof.
  intros Hfc Hft Hp Hs Hbad db'.
  pose proof (findTest_id _ _ _ Hft) as Hid.
  unfold assignTestToHCS in db' |- *. subst db'. rewrite Hfc, Hft, Hs.
  apply Z.leb_le in Hp. unfold validPrice. rewrite Hp. simpl negb. cbv iota.
  assert (Hv : HealthcareCenterModel.validSlots n = false).
  { unfold HealthcareCenterModel.validSlots. apply andb_false_iff.
    destruct Hbad; [left|right]; now apply Z.leb_gt. }
  rewrite Hv. simpl. repeat split.
  eexists. split.
  - apply (findTest_writeTest testId db test); [exact Hft|exact Hid].
  - apply approvedPricing_upsertPricing.
Qed.

(** Property X11. [removeTestFromHCS] deletes every pricing entry of the
    center from the test and no other: afterwards the test has no entry
    for the center, the entries of the other centers are as before, and a
    well-formed booking request for the test at the center is answered
    that the test is not available there. *)
Theorem removeTestFromHCS_unassigns (db : Db) testId hcsId test :
  findTest testId db = Some test ->
  let db' := fst (removeTestFromHCS testId hcsId db) in
  statusOf (snd (removeTestFromHCS testId hcsId db)) = Some 200%nat
  /\ (exists test',
         findTest testId db' = Some test'
         /\ entriesFor hcsId (hcsPricing test') = []
         /\ (forall other, other <> hcsId ->
                           entriesFor other (hcsPricing test')
                           = entriesFor other (hcsPricing test)))
  /\ (forall now newId user body hcsDoc,
         cb_test body = Some testId -> testId <> ""%string ->
         cb_hcs body = Some hcsId -> hcsId <> ""%string ->
         cb_scheduledAt body <> NoDate ->
         findCenter hcsId db = Some hcsDoc ->
         createBooking tz now newId user body db'
         = (db', failure 400
                   "Test is not available at the selected healthcare center")).
Proof.
  intros Hft db'.
  pose proof (findTest_id _ _ _ Hft) as Hid.
  set (kept := filter (fun item => negb (p_hcs item === hcsId)) (hcsPricing test)).
  assert (Hdb' : db' = writeTest (setHcsPricing test kept) db)
    by (subst db'; unfold removeTestFromHCS; now rewrite Hft).
  assert (Hft' : findTest testId db' = Some (setHcsPricing test kept))
    by (rewrite Hdb'; now apply (findTest_writeTest testId db test)).
  assert (Hnone : entriesFor hcsId kept = []).
  { unfold entriesFor, kept. clear. induction (hcsPricing test) as [|x l IH];
      simpl; [reflexivity|].
    destruct (p_hcs x === hcsId) eqn:E; simpl; [exact IH|].
    now rewrite E. }
  split; [unfold removeTestFromHCS; now rewrite Hft|]. split.
  - exists (setHcsPricing test kept). split; [exact Hft'|]. split; [exact Hnone|].
    intros other Hne. unfold entriesFor, kept. simpl. clear - Hne.
    induction (hcsPricing test) as [|x l IH]; simpl; [reflexivity|].
    destruct (p_hcs x === hcsId) eqn:E; simpl.
    + apply String.eqb_eq in E.
      assert (E' : (p_hcs x === other) = false)
        by (apply String.eqb_neq; congruence).
      now rewrite E'.
    + destruct (p_hcs x === other); [now rewrite IH|exact IH].
  - intros now newId user body hcsDoc Ht Hte Hc Hce Hd Hfc.
    apply (createBooking_no_entry now newId user body db' testId hcsId
             (setHcsPricing test kept) hcsDoc); auto.
    + rewrite Hdb'. exact Hfc.
    + unfold BookingModel.approvedPricing. simpl. apply find_and_none.
      apply find_filter_nil. exact Hnone.
Qed.

(** Property X12. [requestTestAssignment] files a request once: when the
    center of the caller and the test exist, the test is not approved for
    the center, no request of the center for the test is pending and
    price and notes are valid, the answer is 201 and the request is
    stored as pending with the price, notes and requester sent, the tests
    untouched; any further request of that center for that test is then
    refused as already pending, and the store stays as it is. *)
Theorem requestTestAssignment_once (db : Db) newId user testId body hcsId
        healthcareCenter test :
  hcs user = Some hcsId ->
  findCenter hcsId db = Some healthcareCenter ->
  findTest testId db = Some test ->
  BookingModel.approvedPricing test hcsId = None ->
  existsb (pendingFor testId hcsId) (requests db) = false ->
  0 <= rq_price body -> validNotes (rq_notes body) = true ->
  findRequest newId db = None ->
  let db' := fst (requestTestAssignment newId user testId body db) in
  statusOf (snd (requestTestAssignment newId user testId body db)) = Some 201%nat
  /\ findRequest newId db'
     = Some (mkTestAssignmentRequest newId testId hcsId (rq_price body)
               asg_pending (id user) None (rq_notes body))
  /\ tests db' = tests db
  /\ forall newId' body',
       requestTestAssignment newId' user testId body' db'
       = (db', failure 400
                 "There is already a pending request for this test from your HCS").
Proof.
  intros Hu Hfc Hft Hap Hpend Hp Hn Hfresh db'.
  set (doc := mkTestAssignmentRequest newId testId hcsId (rq_price body)
                asg_pending (id user) None (rq_notes body)).
  assert (Hrun : exists r,
             requestTestAssignment newId user testId body db
             = (setRequests db (requests db ++ [doc]), Respond r)
             /\ code r = 201%nat).
  { unfold requestTestAssignment. rewrite Hu. simpl orEmpty.
    rewrite Hfc, Hft, Hap. fold (pendingFor testId hcsId). rewrite Hpend.
    apply Z.leb_le in Hp. unfold validPrice. rewrite Hp, Hn, Hfresh. simpl.
    eexists. split; reflexivity. }
  destruct Hrun as (r & Hrun & Hcode). subst db'. rewrite Hrun.
  cbn [fst snd statusOf]. split; [now rewrite Hcode|]. split; [|split].
  - unfold findRequest in *. simpl. rewrite (find_app_none _ _ _ Hfresh).
    simpl. now rewrite String.eqb_refl.
  - reflexivity.
  - intros newId' body'. unfold requestTestAssignment. rewrite Hu. simpl orEmpty.
    change (findCenter hcsId (setRequests db (requests db ++ [doc])))
      with (findCenter hcsId db).
    change (findTest testId (setRequests db (requests db ++ [doc])))
      with (findTest testId db).
    rewrite Hfc, Hft, Hap. fold (pendingFor testId hcsId).
    assert (E : existsb (pendingFor testId hcsId)
                  (requests (setRequests db (requests db ++ [doc]))) = true).
    { simpl. rewrite existsb_app. simpl. unfold pendingFor at 2. simpl.
      rewrite !String.eqb_refl. simpl. apply orb_true_r. }
    now rewrite E.
Qed.

(** The store an approving review leaves when the test exists and the
    requested price is valid. *)
Lemma reviewAssignmentRequest_approved_store db user requestId body request test :
  findRequest requestId db = Some request ->
  rv_status body = "approved"%string ->
  notesOk body = true ->
  findTest (r_test request) db = Some test ->
  0 <= requestedPrice request ->
  fst (reviewAssignmentRequest user requestId body db)
  = writeTest
      (setHcsPricing test
         (upsertPricing (r_hcs request) (requestedPrice request) (hcsPricing test)))
      (writeRequest (reviewed user body asg_approved request) db).
Proof.
  intros Hf Hs Hn Ht Hp.
  assert (Hst : AssignmentStatus_of_string (rv_status body) = Some asg_approved)
    by now apply AssignmentStatus_of_string_approved.
  rewrite (reviewAssignmentRequest_store _ _ _ _ _ _ Hf Hst Hn).
  simpl. rewrite Hs. simpl.
  change (findTest (r_test request)
            (writeRequest (reviewed user body asg_approved request) db))
    with (findTest (r_test request) db).
  rewrite Ht. apply Z.leb_le in Hp. unfold validPrice. now rewrite Hp.
Qed.

(** Property X13. What an approval gates afterwards. Once a review has
    approved a request for test T, center C and price P (T exists, P is
    valid): a booking of T at C that is admitted is stored with the price
    P, and a further assignment request of C for T is refused because T
    is already assigned to C. *)
Theorem approval_gates_booking_and_requests (db : Db) user requestId body
        request test :
  findRequest requestId db = Some request ->
  rv_status body = "approved"%string ->
  notesOk body = true ->
  findTest (r_test request) db = Some test ->
  0 <= requestedPrice request ->
  let db' := fst (reviewAssignmentRequest user requestId body db) in
  (forall now newId customer booking db2 r,
      cb_test booking = Some (r_test request) ->
      cb_hcs booking = Some (r_hcs request) ->
      createBooking tz now newId customer booking db' = (db2, Respond r) ->
      code r = 201%nat ->
      option_map priceAtBooking (findBooking newId db2)
      = Some (Some (requestedPrice request)))
  /\ (forall newId centerAdmin body' healthcareCenter,
         hcs centerAdmin = Some (r_hcs request) ->
         findCenter (r_hcs request) db = Some healthcareCenter ->
         requestTestAssignment newId centerAdmin (r_test request) body' db'
         = (db', failure 400 "Test is already assigned to this HCS")).
Proof.
  intros Hf Hs Hn Ht Hp db'.
  pose proof (findTest_id _ _ _ Ht) as Hid.
  set (test' := setHcsPricing test
                  (upsertPricing (r_hcs request) (requestedPrice request)
                                 (hcsPricing test))).
  assert (Hdb' : db' = writeTest test'
                         (writeRequest (reviewed user body asg_approved request) db))
    by (subst db'; now apply reviewAssignmentRequest_approved_store).
  assert (Hft' : findTest (r_test request) db' = Some test').
  { rewrite Hdb'.
    apply (findTest_writeTest (r_test request) _ test); [exact Ht|exact Hid]. }
  assert (Hap : BookingModel.approvedPricing test' (r_hcs request)
                = Some (mkPricing (r_hcs request) (requestedPrice request)
                                  asg_approved))
    by apply approvedPricing_upsertPricing.
  split.
  - intros now newId customer booking db2 r Hbt Hbh Hrun Hcode.
    destruct (createBooking_stored _ _ _ _ _ _ _ Hrun Hcode)
      as (testId & hcsId & at_ & Ht' & Hc' & _ & Hfound).
    rewrite Hbt in Ht'. rewrite Hbh in Hc'.
    injection Ht' as <-. injection Hc' as <-.
    rewrite Hfound. simpl. f_equal. unfold admitted.
    exact (pre_save_price db'
             (mkBooking newId (id customer) (r_test request) (r_hcs request)
                        pending at_ None)
             test' _ Hft' Hap).
  - intros newId centerAdmin body' healthcareCenter Hu Hfc.
    unfold requestTestAssignment. rewrite Hu. simpl orEmpty.
    assert (Hfc' : findCenter (r_hcs request) db' = Some healthcareCenter)
      by (rewrite Hdb'; exact Hfc).
    now rewrite Hfc', Hft', Hap.
Qed.

End AssignmentMore.

(** ** Centers: deletion, update and availability *)

Section CentersMore.

Import bookingController hcsController.
Variable tz : Z.

Lemma find_filter_out {A : Type} (p q : A -> bool) (l : list A) :
  (forall x, p x = true -> q x = false) -> find p (filter q l) = None.
Proof.
  intros H. induction l as [|x l IH]; simpl; [reflexivity|].
  destruct (q x) eqn:E; [|exact IH]. simpl.
  destruct (p x) eqn:E'; [|exact IH]. rewrite (H x E') in E. discriminate.
Qed.

Lemma filter_filter_implied {A : Type} (p q : A -> bool) (l : list A) :
  (forall x, p x = true -> q x = true) -> filter p (filter q l) = filter p l.
Proof.
  intros H. induction l as [|x l IH]; simpl; [reflexivity|].
  destruct (q x) eqn:E; simpl.
  - now rewrite IH.
  - destruct (p x) eqn:E'; [|exact IH]. rewrite (H x E') in E. discriminate.
Qed.

(** Property X14. Deleting a center takes everything that refers to it:
    afterwards the center is not found, the bookings and the assignment
    requests left are exactly those of the other centers, no test has a
    pricing entry for it, the day counts of the other centers are as they
    were, and a booking request that names it is answered 404. *)
Theorem deleteHealthcareCenter_cascade (db : Db) hcsId hcs :
  findCenter hcsId db = Some hcs ->
  let db' := fst (deleteHealthcareCenter hcsId db) in
  statusOf (snd (deleteHealthcareCenter hcsId db)) = Some 200%nat
  /\ findCenter hcsId db' = None
  /\ (forall b, In b (bookings db') <-> In b (bookings db) /\ b_hcs b <> hcsId)
  /\ (forall r, In r (requests db') <-> In r (requests db) /\ r_hcs r <> hcsId)
  /\ (forall t, In t (tests db') -> entriesFor hcsId (hcsPricing t) = [])
  /\ (forall other d, other <> hcsId ->
                      countBookingsForDate tz db' other d
                      = countBookingsForDate tz db other d)
  /\ (forall now newId user body testId,
         cb_test body = Some testId -> testId <> ""%string ->
         cb_hcs body = Some hcsId -> hcsId <> ""%string ->
         cb_scheduledAt body <> NoDate ->
         fst (createBooking tz now newId user body db') = db'
         /\ statusOf (snd (createBooking tz now newId user body db'))
            = Some 404%nat).
Proof.
  intros Hfc db'.
  assert (Hid : h_id hcs = hcsId).
  { unfold findCenter in Hfc. apply find_some in Hfc as [_ H].
    now apply String.eqb_eq in H. }
  subst db'. unfold deleteHealthcareCenter. rewrite Hfc, Hid.
  cbn [fst snd statusOf code].
  assert (Hgone : findCenter hcsId
                    (mkDb (map (fun t => testController.setHcsPricing t
                                  (filter (fun item => negb (p_hcs item === hcsId))
                                          (hcsPricing t))) (tests db))
                          (filter (fun h => negb (h_id h === hcsId)) (centers db))
                          (filter (fun b => negb (b_hcs b === hcsId)) (bookings db))
                          (filter (fun r => negb (r_hcs r === hcsId)) (requests db))
                          (users db)) = None).
  { unfold findCenter. simpl. apply find_filter_out.
    intros x Hx. now rewrite Hx. }
  split; [reflexivity|]. split; [exact Hgone|]. split; [|split; [|split; [|split]]].
  - intros b. simpl. rewrite filter_In, negb_true_iff, String.eqb_neq. tauto.
  - intros r. simpl. rewrite filter_In, negb_true_iff, String.eqb_neq. tauto.
  - intros t Ht. simpl in Ht. apply in_map_iff in Ht as (t0 & <- & _). simpl.
    unfold entriesFor. induction (hcsPricing t0) as [|x l IH]; simpl; [reflexivity|].
    destruct (p_hcs x === hcsId) eqn:E; simpl; [exact IH|]. now rewrite E.
  - intros other d Hne. unfold countBookingsForDate. simpl.
    rewrite filter_filter_implied; [reflexivity|].
    intros x Hx. unfold occupies in Hx.
    repeat (apply andb_true_iff in Hx as [Hx ?]).
    apply String.eqb_eq in Hx. apply negb_true_iff, String.eqb_neq. congruence.
  - intros now newId user body testId Ht Hte Hc Hce Hd.
    unfold createBooking. rewrite Ht, Hc. simpl orEmpty. simpl falsy.
    apply String.eqb_neq in Hte, Hce. rewrite Hte, Hce. simpl orb.
    destruct (cb_scheduledAt body) eqn:Ed; [now destruct Hd| |];
      cbv iota; rewrite Hgone; destruct (findTest testId _); split; reflexivity.
Qed.

End CentersMore.

Section AvailabilityMore.

Import bookingController hcsController.
Variable tz : Z.
Variable isoDate : Z -> string.

(** Property X15. The availability report for a test agrees with the
    admission check: for a booking request that passes the checks before
    admission, with an unused identifier, [checkAvailability] for its
    center, date and test reports the capacity for the test as total, the
    day's count as booked and their difference, not below 0, as
    available; and available is positive exactly when [createBooking]
    answers 201. *)
Theorem checkAvailability_agrees_with_admission (db : Db) now newId user body
        testId hcsId at_ testDoc hcsDoc :
  bookable db now body testId hcsId at_ testDoc hcsDoc ->
  findBooking newId db = None ->
  exists report,
    checkAvailability tz isoDate now hcsId
      (mkAvailabilityQuery (ValidDate at_) (Some testId)) db
    = Availability report
    /\ ar_total report = HealthcareCenterModel.getSlotsForTest hcsDoc testId
    /\ ar_booked report = countBookingsForDate tz db hcsId at_
    /\ ar_available report = Z.max 0 (ar_total report - ar_booked report)
    /\ (0 < ar_available report
        <-> statusOf (snd (createBooking tz now newId user body db))
            = Some 201%nat).
Proof.
  intros Hb Hfresh.
  pose proof Hb as (Ht & Hte & Hc & Hce & Hd & Hft & Hfc & Hp & Hnow).
  destruct (startOfDay_midnight tz now) as [_ [Hlow _]].
  assert (Hnotpast : (at_ <? startOfDay tz now) = false)
    by (apply Z.ltb_ge; lia).
  unfold checkAvailability. simpl aq_date. simpl aq_test. cbv iota beta.
  rewrite Hnotpast, Hfc. simpl falsy. apply String.eqb_neq in Hte as Hte'.
  rewrite Hte'. simpl orEmpty.
  eexists. split; [reflexivity|]. simpl.
  split; [reflexivity|]. split; [reflexivity|]. split; [reflexivity|].
  destruct (Z.lt_ge_cases (countBookingsForDate tz db hcsId at_)
              (HealthcareCenterModel.getSlotsForTest hcsDoc testId)) as [Hroom|Hfull].
  - destruct (createBooking_admits tz now newId user body db testId hcsId at_
                testDoc hcsDoc Hb Hroom Hfresh) as (db1 & _ & _ & _ & _ & Hrun).
    rewrite Hrun. simpl. split; [reflexivity|lia].
  - rewrite (createBooking_full tz now newId user body db testId hcsId at_
               testDoc hcsDoc Hb Hfull). simpl. split; [lia|discriminate].
Qed.

(** Property X16. Without a test, [checkAvailability] reads a default
    slot count of 0 as 10, which the admission check does not: for a
    center whose default is 0 the report has total 10, while a booking
    request for any test without an override that passes the earlier
    checks is refused with the limit 0, whatever the day's count. *)
Theorem checkAvailability_reads_zero_as_ten (db : Db) now hcsId hcsDoc d :
  findCenter hcsId db = Some hcsDoc ->
  availableSlotsPerDay hcsDoc = 0 ->
  startOfDay tz now <= d ->
  checkAvailability tz isoDate now hcsId (mkAvailabilityQuery (ValidDate d) None) db
  = Availability
      (mkAvailabilityReport (isoDate d) 10 (countBookingsForDate tz db hcsId d)
         (Z.max 0 (10 - countBookingsForDate tz db hcsId d)))
  /\ forall now' newId user body testId at_ testDoc,
       bookable db now' body testId hcsId at_ testDoc hcsDoc ->
       find (fun slot => ts_test slot === testId) (testSlots hcsDoc) = None ->
       createBooking tz now' newId user body db
       = (db, failure 400 (noSlotsMessage 0)).
Proof.
  intros Hfc Hzero Hd. split.
  - unfold checkAvailability. simpl aq_date. simpl aq_test. cbv iota beta.
    apply Z.ltb_ge in Hd. rewrite Hd, Hfc. simpl falsy. cbv iota.
    rewrite Hzero. reflexivity.
  - intros now' newId user body testId at_ testDoc Hb Hno.
    pose proof (getSlotsForTest_default hcsDoc testId Hno) as Hcap.
    rewrite Hzero in Hcap.
    rewrite (createBooking_full tz now' newId user body db testId hcsId at_
               testDoc hcsDoc Hb); [now rewrite Hcap|].
    rewrite Hcap. unfold countBookingsForDate. lia.
Qed.

Lemma sumAvailability_room test d db l : forall a b a' b',
  sumAvailability tz test d db l a b = Some (a', b') ->
  a - b < a' - b' ->
  exists hcs,
    In hcs l /\ countsCenter test db hcs = true
    /\ countBookingsForDate tz db (h_id hcs) d < slotsReported test hcs.
Proof.
  induction l as [|hcs l IH]; intros a b a' b'.
  - simpl. intros [= <- <-]. lia.
  - assert (Hrest : forall a0 b0,
               sumAvailability tz test d db l a0 b0 = Some (a', b') ->
               a0 - b0 < a' - b' ->
               exists h, In h (hcs :: l) /\ countsCenter test db h = true
                         /\ countBookingsForDate tz db (h_id h) d
                            < slotsReported test h).
    { intros a0 b0 Hs Hl. destruct (IH _ _ _ _ Hs Hl) as (h & Hin & Hc & Hr).
      exists h. split; [now right|auto]. }
    assert (Hhere : countsCenter test db hcs = true ->
                    countBookingsForDate tz db (h_id hcs) d
                      < slotsReported test hcs ->
                    exists h, In h (hcs :: l) /\ countsCenter test db h = true
                              /\ countBookingsForDate tz db (h_id h) d
                                 < slotsReported test h).
    { intros Hc Hr. exists hcs. split; [now left|auto]. }
    pose proof (eq_refl (countsCenter test db hcs)) as Hc.
    pose proof (eq_refl (slotsReported test hcs)) as Hs.
    unfold countsCenter at 2 in Hc. unfold slotsReported at 2 in Hs.
    revert Hc Hs. simpl. destruct (falsy test).
    + intros Hc Hs Hsum Hlt.
      destruct (Z.lt_ge_cases (countBookingsForDate tz db (h_id hcs) d)
                  (orTen (availableSlotsPerDay hcs))) as [Hroom|Hfull].
      * apply Hhere; [exact Hc|now rewrite Hs].
      * apply (Hrest _ _ Hsum). lia.
    + destruct (findTest (orEmpty test) db) as [testDoc|]; [|discriminate].
      destruct (existsb _ (hcsPricing testDoc)); simpl; intros Hc Hs Hsum Hlt.
      * destruct (Z.lt_ge_cases (countBookingsForDate tz db (h_id hcs) d)
                    (HealthcareCenterModel.getSlotsForTest hcs (orEmpty test)))
          as [Hroom|Hfull].
        -- apply Hhere; [exact Hc|now rewrite Hs].
        -- apply (Hrest _ _ Hsum). lia.
      * now apply (Hrest _ _ Hsum).
Qed.

(** Property X17. A positive availability over all centers points at a
    center with room: whenever [checkAllAvailability] reports available
    above 0, some center it counted (with a test: a center for which the
    test is approved) has a day's count below the slot count the report
    used for it (with a test: its capacity for that test, the one the
    admission check uses). The available figure is the difference of the
    two totals, or 0 when the bookings outnumber the slots. *)
Theorem checkAllAvailability_positive_means_room (db : Db) now query report :
  checkAllAvailability tz isoDate now query db = Availability report ->
  ar_available report = Z.max 0 (ar_total report - ar_booked report)
  /\ (0 < ar_available report ->
      exists hcs d,
        aq_date query = ValidDate d /\ In hcs (centers db)
        /\ countsCenter (aq_test query) db hcs = true
        /\ countBookingsForDate tz db (h_id hcs) d
           < slotsReported (aq_test query) hcs).
Proof.
  unfold checkAllAvailability.
  destruct (aq_date query) as [| |d]; try discriminate.
  destruct (d <? startOfDay tz now); [discriminate|].
  destruct (sumAvailability tz (aq_test query) d db (centers db) 0 0)
    as [[totalSlots totalBooked]|] eqn:Hsum; [|discriminate].
  intros [= <-]. simpl. split; [reflexivity|]. intros Hpos.
  destruct (sumAvailability_room _ _ _ _ _ _ _ _ Hsum) as (hcs & Hin & Hc & Hr);
    [lia|].
  exists hcs, d. auto.
Qed.

(** Property X18. [checkAllAvailability] looks the test up once per
    center: for a test that does not exist the answer is 404 when there
    is at least one center, and a report with all figures 0 when there is
    none. *)
Theorem checkAllAvailability_unknown_test (db : Db) now d testId :
  startOfDay tz now <= d ->
  testId <> ""%string ->
  findTest testId db = None ->
  checkAllAvailability tz isoDate now
    (mkAvailabilityQuery (ValidDate d) (Some testId)) db
  = match centers db with
    | [] => Availability (mkAvailabilityReport (isoDate d) 0 0 0)
    | _ :: _ => NoAvailability (failure 404 "Test not found")
    end.
Proof.
  intros Hd Hte Hft. unfold checkAllAvailability. simpl aq_date. simpl aq_test.
  cbv iota beta. apply Z.ltb_ge in Hd. rewrite Hd.
  destruct (centers db) as [|hcs rest]; simpl; [reflexivity|].
  apply String.eqb_neq in Hte. now rewrite Hte, Hft.
Qed.

(** Property X19. [updateHealthcareCenter] and the default slot count. An
    HCS Admin who is not the admin of the center is answered 403 and a
    default outside 0..100 is a validation error, the store untouched in
    both cases. A default within 0..100 sent by a caller let through is
    stored: it becomes the capacity of every test without an override,
    the overrides stay, and no booking is touched, also when the bookings
    of a day now outnumber the capacity. *)
Theorem updateHealthcareCenter_default (db : Db) user hcsId hcs n :
  findCenter hcsId db = Some hcs ->
  (role user = HCSAdmin -> admin hcs <> id user ->
   updateHealthcareCenter user hcsId (mkUpdateCenterBody (Some n)) db
   = (db, CenterRefused
            (failure 403 "Not authorized to update this healthcare center")))
  /\ (role user <> HCSAdmin \/ admin hcs = id user ->
      (n < 0 \/ 100 < n ->
       updateHealthcareCenter user hcsId (mkUpdateCenterBody (Some n)) db
       = (db, CenterRefused (Next "ValidationError")))
      /\ (0 <= n <= 100 ->
          let db' :=
            fst (updateHealthcareCenter user hcsId (mkUpdateCenterBody (Some n)) db) in
          exists hcs',
            findCenter hcsId db' = Some hcs'
            /\ availableSlotsPerDay hcs' = n
            /\ testSlots hcs' = testSlots hcs
            /\ (forall t,
                   find (fun slot => ts_test slot === t) (testSlots hcs) = None ->
                   HealthcareCenterModel.getSlotsForTest hcs' t = n)
            /\ (forall t s,
                   find (fun slot => ts_test slot === t) (testSlots hcs) = Some s ->
                   HealthcareCenterModel.getSlotsForTest hcs' t = slotsPerDay s)
            /\ bookings db' = bookings db
            /\ forall d, countBookingsForDate tz db' hcsId d
                         = countBookingsForDate tz db hcsId d)).
Proof.
  intros Hfc. split.
  - intros Hr Hne. unfold updateHealthcareCenter. rewrite Hfc, Hr.
    apply String.eqb_neq in Hne. now rewrite Hne.
  - intros Hallowed.
    assert (Hgate : Role_eqb (role user) HCSAdmin && negb (admin hcs === id user)
                    = false).
    { destruct Hallowed as [Hr|Ha].
      - destruct (role user); try reflexivity. now destruct Hr.
      - apply String.eqb_eq in Ha. rewrite Ha. apply andb_false_r. }
    split.
    + intros Hbad. unfold updateHealthcareCenter. rewrite Hfc, Hgate. simpl.
      assert (Hv : HealthcareCenterModel.validSlots n = false).
      { unfold HealthcareCenterModel.validSlots. apply andb_false_iff.
        destruct Hbad; [left|right]; now apply Z.leb_gt. }
      now rewrite Hv.
    + intros [H0 H100] db'. subst db'.
      unfold updateHealthcareCenter. rewrite Hfc, Hgate. simpl.
      unfold HealthcareCenterModel.validSlots.
      apply Z.leb_le in H0, H100. rewrite H0, H100. simpl.
      eexists. split.
      * apply (findCenter_writeCenter hcsId db hcs); [exact Hfc|]. simpl.
        unfold findCenter in Hfc. apply find_some in Hfc as [_ H].
        now apply String.eqb_eq in H.
      * simpl. repeat split.
        -- intros t Hno. unfold HealthcareCenterModel.getSlotsForTest. simpl.
           now rewrite Hno.
        -- intros t s Hs. unfold HealthcareCenterModel.getSlotsForTest. simpl.
           now rewrite Hs.
Qed.

End AvailabilityMore.

(** ** Who reaches the handlers *)

Section Routes.

Import roleMiddleware.
Variable tz : Z.

(** Property X20. The guards of the booking routes, for a request that
    [protect] has passed on. A request without a user is answered 401 by
    the guard of every route and a Doctor 403, an admin
    cannot create a booking and a Customer cannot update one, all with
    the store untouched; a Customer reaches [createBooking] and
    [cancelBooking], where a booking of another user is refused. *)
Theorem bookingsApi_guards (db : Db) now newId bookingId body update :
  (bookingsApi.post tz now newId None body db
   = (db, failure 401 "Not authorized, user not found")
   /\ bookingsApi.put tz None bookingId update db
      = (db, failure 401 "Not authorized, user not found")
   /\ bookingsApi.put_cancel None bookingId db
      = (db, failure 401 "Not authorized, user not found"))
  /\ (forall u, role u = Doctor ->
        bookingsApi.post tz now newId (Some u) body db
        = (db, failure 403 "User role Doctor is not authorized to access this route")
        /\ bookingsApi.put tz (Some u) bookingId update db
           = (db, failure 403
                    "User role Doctor is not authorized to access this route")
        /\ bookingsApi.put_cancel (Some u) bookingId db
           = (db, failure 403
                    "User role Doctor is not authorized to access this route"))
  /\ (forall u, role u = HCSAdmin \/ role u = Superadmin ->
        fst (bookingsApi.post tz now newId (Some u) body db) = db
        /\ statusOf (snd (bookingsApi.post tz now newId (Some u) body db))
           = Some 403%nat)
  /\ (forall u, role u = Customer ->
        bookingsApi.put tz (Some u) bookingId update db
        = (db, failure 403
                 "User role Customer is not authorized to access this route")
        /\ bookingsApi.post tz now newId (Some u) body db
           = bookingController.createBooking tz now newId u body db
        /\ bookingsApi.put_cancel (Some u) bookingId db
           = bookingController.cancelBooking u bookingId db
        /\ forall booking,
             findBooking bookingId db = Some booking ->
             b_user booking <> id u ->
             bookingsApi.put_cancel (Some u) bookingId db
             = (db, failure 403 "Not authorized to cancel this booking")).
Proof.
  unfold bookingsApi.post, bookingsApi.put, bookingsApi.put_cancel, route, authorize.
  split; [repeat split|]. split; [|split].
  - intros u ->. repeat split.
  - intros u [-> | ->]; split; reflexivity.
  - intros u Hr. rewrite Hr. simpl. repeat split.
    intros booking Hf Hne. unfold bookingController.cancelBooking.
    rewrite Hf, Hr. apply String.eqb_neq in Hne. now rewrite Hne.
Qed.

(** The guards of the assignment routes. Reviewing a
    request, assigning a test and removing an assignment reach their
    handlers for a Superadmin only, and filing a request for an HCS Admin
    or a Superadmin only; everyone else, a request without a user
    included, is answered 403 with the store untouched. *)
Theorem testsApi_guards (db : Db) user newId requestId testId hcsId review
        assignment request :
  ((forall u, user = Some u -> role u <> Superadmin) ->
   testsApi.put_assignment_request user requestId review db
   = (db, failure 403 "Access denied. Superadmin role required.")
   /\ testsApi.post_assign_hcs user testId assignment db
      = (db, failure 403 "Access denied. Superadmin role required.")
   /\ testsApi.delete_remove_hcs user testId hcsId db
      = (db, failure 403 "Access denied. Superadmin role required."))
  /\ ((forall u, user = Some u -> role u <> Superadmin /\ role u <> HCSAdmin) ->
      testsApi.post_request_assignment newId user testId request db
      = (db, failure 403 "Access denied. HCS Admin or Superadmin role required."))
  /\ (forall u, user = Some u -> role u = Superadmin ->
        testsApi.put_assignment_request user requestId review db
        = testController.reviewAssignmentRequest u requestId review db
        /\ testsApi.post_assign_hcs user testId assignment db
           = testController.assignTestToHCS testId assignment db
        /\ testsApi.delete_remove_hcs user testId hcsId db
           = testController.removeTestFromHCS testId hcsId db)
  /\ (forall u, user = Some u -> role u = HCSAdmin \/ role u = Superadmin ->
        testsApi.post_request_assignment newId user testId request db
        = testController.requestTestAssignment newId u testId request db).
Proof.
  unfold testsApi.put_assignment_request, testsApi.post_assign_hcs,
    testsApi.delete_remove_hcs, testsApi.post_request_assignment, route,
    superadminOnly, hcsAdminOrSuperadmin.
  split; [|split; [|split]].
  - intros Hno. destruct user as [u|]; [|repeat split].
    specialize (Hno u eq_refl). destruct (role u); try (repeat split; fail).
    now destruct Hno.
  - intros Hno. destruct user as [u|]; [|reflexivity].
    destruct (Hno u eq_refl) as [H1 H2].
    destruct (role u); try reflexivity; [now destruct H1|now destruct H2].
  - intros u -> Hr. rewrite Hr. repeat split.
  - intros u -> [Hr|Hr]; rewrite Hr; reflexivity.
Qed.

End Routes.

(** ** The slot initialization script *)

Section InitializeSlots.

Import HealthcareCenterModel.

Lemma replaceFirst_app_hit {A : Type} (p : A -> bool) (f : A -> A)
      (before : list A) (x : A) (rest : list A) :
  (forall y, In y before -> p y = false) -> p x = true ->
  replaceFirst p f (before ++ x :: rest) = before ++ f x :: rest.
Proof.
  intros Hb Hx. induction before as [|y l IH]; simpl; [now rewrite Hx|].
  rewrite (Hb y (or_introl eq_refl)). f_equal. apply IH.
  intros z Hz. apply Hb. now right.
Qed.

Lemma initialize_fold ts todo : forall before,
  (forall x y, In x before -> In y todo -> h_id x <> h_id y) ->
  NoDup (map h_id todo) ->
  fold_left
    (fun cs hcs =>
       replaceFirst (fun x => h_id x === h_id hcs)
         (fun x => mkHealthcareCenter (h_id x) (admin x) (availableSlotsPerDay x)
                     (initializedSlots ts hcs)) cs)
    todo (before ++ todo)
  = before ++ map (initialized ts) todo.
Proof.
  induction todo as [|h t IH]; intros before Hdis Hnd; simpl; [reflexivity|].
  inversion Hnd as [|? ? Hnotin Hnd']; subst.
  rewrite replaceFirst_app_hit.
  - change (before ++ mkHealthcareCenter (h_id h) (admin h)
                        (availableSlotsPerDay h) (initializedSlots ts h) :: t)
      with (before ++ [initialized ts h] ++ t).
    rewrite app_assoc, IH; [now rewrite <- app_assoc| |exact Hnd'].
    intros x y Hx Hy. apply in_app_or in Hx as [Hx|[<-|[]]].
    + apply Hdis; [exact Hx|now right].
    + simpl. intros E. apply Hnotin. rewrite E. now apply in_map.
  - intros y Hy. apply String.eqb_neq. apply Hdis; [exact Hy|now left].
  - apply String.eqb_refl.
Qed.

Lemma initializeTestSlots_store db :
  NoDup (map h_id (centers db)) ->
  initializeTestSlots db
  = setCenters db (map (initialized (tests db)) (centers db)).
Proof.
  intros Hnd. unfold initializeTestSlots.
  assert (Hgen : forall l d,
             fold_left
               (fun d0 hcs =>
                  setCenters d0
                    (replaceFirst (fun x => h_id x === h_id hcs)
                       (fun x => mkHealthcareCenter (h_id x) (admin x)
                                   (availableSlotsPerDay x)
                                   (initializedSlots (tests db) hcs))
                       (centers d0))) l d
             = setCenters d
                 (fold_left
                    (fun cs hcs =>
                       replaceFirst (fun x => h_id x === h_id hcs)
                         (fun x => mkHealthcareCenter (h_id x) (admin x)
                                     (availableSlotsPerDay x)
                                     (initializedSlots (tests db) hcs)) cs)
                    l (centers d))).
  { induction l as [|h t IH]; intros d; simpl.
    - now destruct d.
    - rewrite IH. reflexivity. }
  rewrite Hgen. f_equal.
  apply (initialize_fold (tests db) (centers db) []); [intros x y []|exact Hnd].
Qed.

Lemma find_map_key {A : Type} (p : A -> bool) (g : A -> A) (l : list A) :
  (forall x, p (g x) = p x) -> find p (map g l) = option_map g (find p l).
Proof.
  intros H. induction l as [|x l IH]; simpl; [reflexivity|].
  rewrite H. destruct (p x); [reflexivity|exact IH].
Qed.

(** Property X21. The initialization script resets every center to its
    default: with center identifiers unique, afterwards the capacity of
    each center for each test of the catalog is the center's default slot
    count, or 10 where that default is 0, whatever override the center
    had for the test; the default itself, the tests and the bookings are
    untouched, and a test outside the catalog still gets the default as
    it is. *)
Theorem initializeTestSlots_resets_capacity (db : Db) :
  NoDup (map h_id (centers db)) ->
  let db' := initializeTestSlots db in
  tests db' = tests db /\ bookings db' = bookings db
  /\ forall i hcs,
       findCenter i db = Some hcs ->
       exists hcs',
         findCenter i db' = Some hcs'
         /\ availableSlotsPerDay hcs' = availableSlotsPerDay hcs
         /\ (forall t, In t (tests db) ->
                       getSlotsForTest hcs' (t_id t)
                       = orTen (availableSlotsPerDay hcs))
         /\ (forall t, (forall x, In x (tests db) -> t_id x <> t) ->
                       getSlotsForTest hcs' t = availableSlotsPerDay hcs).
Proof.
  intros Hnd db'. subst db'. rewrite (initializeTestSlots_store db Hnd).
  split; [reflexivity|]. split; [reflexivity|].
  intros i hcs Hf. exists (initialized (tests db) hcs). split; [|split; [|split]].
  - unfold findCenter in *. simpl. rewrite find_map_key by reflexivity.
    now rewrite Hf.
  - reflexivity.
  - intros t Hin. unfold getSlotsForTest, initialized, initializedSlots. simpl.
    induction (tests db) as [|x l IH]; [destruct Hin|]. simpl.
    destruct (t_id x === t_id t) eqn:E; [reflexivity|].
    destruct Hin as [->|Hin]; [now rewrite String.eqb_refl in E|now apply IH].
  - intros t Hno. unfold getSlotsForTest, initialized, initializedSlots. simpl.
    induction (tests db) as [|x l IH]; [reflexivity|]. simpl.
    assert (E : (t_id x === t) = false)
      by (apply String.eqb_neq, Hno; now left).
    rewrite E. apply IH. intros y Hy. apply Hno. now right.
Qed.

End InitializeSlots.

(** ** The further properties on the scenarios *)

Section MoreWitnesses.

Import Scenario MoreScenarios bookingController testController hcsController.

(** The booking of June 1 leaves June 2 empty. *)
Lemma createBooking_takes_one_slot_witness :
  countBookingsForDate tz dbA1 X june2 = countBookingsForDate tz dbA X june2.
Proof.
  eapply (createBooking_takes_one_slot tz dbA now (bk "1") customer (book T june1));
    [vm_compute; reflexivity | reflexivity |].
  right. intros at_ [= <-]. vm_compute. discriminate.
Defined.

(** Scenario A: the first booking is admitted, the third of the day is
    not. *)
Lemma createBooking_201_iff_witness :
  statusOf (snd (createBooking tz now (bk "1") customer (book T june1) dbA))
  = Some 201%nat
  /\ ~ countWithinDay tz dbA2 X june1 < 2.
Proof.
  split.
  - apply (createBooking_201_iff tz dbA now (bk "1") customer (book T june1)
             T X testT centerA);
      try reflexivity.
    split; [discriminate|]. split; [discriminate|].
    split; [exists (mkPricing X 500 asg_approved); repeat split; now left|].
    split; [|reflexivity].
    exists june1. repeat split.
  - intros Hroom.
    assert (H : statusOf (snd (createBooking tz now (bk "3") customer
                                 (book T june1) dbA2)) = Some 201%nat).
    { apply (createBooking_201_iff tz dbA2 now (bk "3") customer (book T june1)
               T X testT centerA);
        try reflexivity.
      split; [discriminate|]. split; [discriminate|].
      split; [exists (mkPricing X 500 asg_approved); repeat split; now left|].
      split; [|reflexivity].
      exists june1. repeat split. exact Hroom. }
    vm_compute in H. discriminate.
Defined.

(** The day is full again after the cancellation; the canceled booking is
    set back to pending and the day holds three bookings for two slots. *)
Lemma updateBooking_reinstates_without_check_witness :
  countBookingsForDate tz dbA_refilled X june1 = 2
  /\ countBookingsForDate tz
       (fst (updateBooking tz centerAdmin (bk "1") reinstate dbA_refilled)) X june1
     = 3.
Proof.
  split; [reflexivity|].
  edestruct (updateBooking_reinstates_without_check tz dbA_refilled centerAdmin
               (bk "1") reinstate)
    as (r & _ & _ & _ & Hcount);
    [vm_compute; reflexivity | reflexivity | reflexivity | reflexivity
    | reflexivity | left; reflexivity | reflexivity | reflexivity |].
  exact Hcount.
Defined.


(** An HCS Admin without a center asks for the first booking. *)
Lemma booking_handlers_refuse_strangers_witness :
  updateBooking tz stranger (bk "1") confirm dbA2
  = (dbA2, failure 403 "Not authorized to update this booking").
Proof.
  edestruct (booking_handlers_refuse_strangers tz dbA2 stranger (bk "1"))
    as [Hadmin _]; [vm_compute; reflexivity |].
  destruct Hadmin as [Hupdate _]; [reflexivity | reflexivity |].
  apply Hupdate.
Defined.

Lemma cancelBooking_any_status_idempotent_witness :
  fst (cancelBooking customer (bk "1") dbA_canceled) = dbA_canceled.
Proof.
  edestruct (cancelBooking_any_status_idempotent dbA2 customer (bk "1"))
    as (_ & _ & _ & Hagain); [vm_compute; reflexivity | reflexivity |].
  exact Hagain.
Defined.

(** T is assigned to X at 750 with 3 slots. *)
Lemma assignTestToHCS_makes_bookable_witness :
  let db' := fst (assignTestToHCS T (mkAssignBody X 750 (Some 3)) dbD) in
  option_map hcsPricing (findTest T db') = Some [mkPricing X 750 asg_approved]
  /\ option_map (fun c => HealthcareCenterModel.getSlotsForTest c T)
       (findCenter X db') = Some 3.
Proof.
  intros db'.
  edestruct (assignTestToHCS_makes_bookable dbD T (mkAssignBody X 750 (Some 3)))
    as (_ & test' & Hfound & _ & _ & _ & Hslots & _);
    [vm_compute; reflexivity | vm_compute; reflexivity | vm_compute; discriminate
    | intros n [= <-]; lia |].
  split; [reflexivity|].
  destruct (Hslots 3 eq_refl) as (hcsDoc' & Hc & Hn).
  change (findCenter X db' = Some hcsDoc') in Hc. rewrite Hc. simpl.
  now rewrite Hn.
Defined.

Lemma assignTestToHCS_bad_slots_keeps_pricing_witness :
  let db' := fst (assignTestToHCS T (mkAssignBody X 750 (Some 101)) dbD) in
  snd (assignTestToHCS T (mkAssignBody X 750 (Some 101)) dbD)
  = Next "ValidationError"
  /\ option_map hcsPricing (findTest T db') = Some [mkPricing X 750 asg_approved].
Proof.
  intros db'.
  edestruct (assignTestToHCS_bad_slots_keeps_pricing dbD T
               (mkAssignBody X 750 (Some 101)))
    as (Hnext & _ & _);
    [vm_compute; reflexivity | vm_compute; reflexivity | vm_compute; discriminate
    | reflexivity | right; lia |].
  split; [exact Hnext|reflexivity].
Defined.

Lemma removeTestFromHCS_unassigns_witness :
  createBooking tz now (bk "1") customer (book T june1)
    (fst (removeTestFromHCS T X dbA))
  = (fst (removeTestFromHCS T X dbA),
     failure 400 "Test is not available at the selected healthcare center").
Proof.
  edestruct (removeTestFromHCS_unassigns tz dbA T X) as (_ & _ & Hbook);
    [vm_compute; reflexivity |].
  apply (Hbook now (bk "1") customer (book T june1) centerA);
    try reflexivity; discriminate.
Defined.

Lemma requestTestAssignment_once_witness :
  requestTestAssignment (bk "9") centerAdmin T (mkRequestBody 450 None) dbD_requested
  = (dbD_requested,
     failure 400 "There is already a pending request for this test from your HCS").
Proof.
  edestruct (requestTestAssignment_once dbD rq1 centerAdmin T (mkRequestBody 500 None))
    as (_ & _ & _ & Hagain);
    [reflexivity | vm_compute; reflexivity | vm_compute; reflexivity | reflexivity
    | reflexivity | vm_compute; discriminate | reflexivity | reflexivity |].
  apply Hagain.
Defined.

(** Scenario D: after the approval a booking pays 500 and the center
    cannot ask again. *)
Lemma approval_gates_booking_and_requests_witness :
  option_map priceAtBooking
    (findBooking (bk "1")
       (fst (createBooking tz now (bk "1") customer (book T june1) dbD_approved)))
  = Some (Some 500)
  /\ requestTestAssignment (bk "9") centerAdmin T (mkRequestBody 450 None)
       dbD_approved
     = (dbD_approved, failure 400 "Test is already assigned to this HCS").
Proof.
  edestruct (approval_gates_booking_and_requests tz dbD_requested superadmin rq1
               approve)
    as (Hbook & Hask);
    [vm_compute; reflexivity | reflexivity | reflexivity | vm_compute; reflexivity
    | vm_compute; discriminate |].
  split.
  - eapply (Hbook now (bk "1") customer (book T june1));
      [reflexivity | reflexivity | vm_compute; reflexivity | reflexivity].
  - eapply (Hask (bk "9") centerAdmin (mkRequestBody 450 None));
      [reflexivity | vm_compute; reflexivity].
Defined.

Lemma deleteHealthcareCenter_cascade_witness :
  bookings (fst (deleteHealthcareCenter X dbA2)) = []
  /\ statusOf (snd (createBooking tz now (bk "3") customer (book T june1)
                      (fst (deleteHealthcareCenter X dbA2)))) = Some 404%nat.
Proof.
  edestruct (deleteHealthcareCenter_cascade tz dbA2 X)
    as (_ & _ & _ & _ & _ & _ & Hbook); [vm_compute; reflexivity |].
  split; [reflexivity|].
  apply (Hbook now (bk "3") customer (book T june1) T);
    try reflexivity; discriminate.
Defined.

Lemma bookable_dbA1 :
  bookable dbA1 now (book T june1) T X june1 testT centerA.
Proof. unfold bookable. repeat split; try discriminate; reflexivity. Qed.

(** One of the two slots of June 1 is taken. *)
Lemma checkAvailability_agrees_with_admission_witness :
  checkAvailability tz isoDate now X (mkAvailabilityQuery (ValidDate june1) (Some T))
    dbA1
  = Availability (mkAvailabilityReport "2025-06-01" 2 1 1).
Proof.
  destruct (checkAvailability_agrees_with_admission tz isoDate dbA1 now (bk "2")
              customer (book T june1) T X june1 testT centerA bookable_dbA1 eq_refl)
    as (report & Hrun & _).
  rewrite Hrun. vm_compute in Hrun. now injection Hrun as <-.
Defined.

Lemma checkAvailability_reads_zero_as_ten_witness :
  checkAvailability tz isoDate now X (mkAvailabilityQuery (ValidDate june1) None)
    dbZero
  = Availability (mkAvailabilityReport "2025-06-01" 10 0 10)
  /\ createBooking tz now (bk "1") customer (book T june1) dbZero
     = (dbZero, failure 400 (noSlotsMessage 0)).
Proof.
  destruct (checkAvailability_reads_zero_as_ten tz isoDate dbZero now X centerZero
              june1)
    as (Hreport & Hbook);
    [reflexivity | reflexivity | vm_compute; discriminate |].
  split; [exact Hreport|].
  apply (Hbook now (bk "1") customer (book T june1) T june1 testT);
    [|reflexivity].
  unfold bookable. repeat split; try discriminate; reflexivity.
Defined.

Lemma checkAllAvailability_positive_means_room_witness :
  exists hcs,
    In hcs (centers dbA1)
    /\ countBookingsForDate tz dbA1 (h_id hcs) june1
       < HealthcareCenterModel.getSlotsForTest hcs T.
Proof.
  edestruct (checkAllAvailability_positive_means_room tz isoDate dbA1 now
               (mkAvailabilityQuery (ValidDate june1) (Some T)))
    as (_ & Hroom); [vm_compute; reflexivity |].
  destruct Hroom as (hcs & d & Hd & Hin & _ & Hlt); [vm_compute; reflexivity |].
  injection Hd as <-. exists hcs. split; [exact Hin|exact Hlt].
Defined.

Lemma checkAllAvailability_unknown_test_witness :
  checkAllAvailability tz isoDate now
    (mkAvailabilityQuery (ValidDate june1) (Some T')) dbA
  = NoAvailability (failure 404 "Test not found").
Proof.
  apply (checkAllAvailability_unknown_test tz isoDate dbA now june1 T');
    [vm_compute; discriminate | discriminate | reflexivity].
Defined.

(** The center's administrator lowers the default to 1 while June 1
    holds two bookings. *)
Lemma updateHealthcareCenter_default_witness :
  let db' :=
    fst (updateHealthcareCenter centerAdmin X (mkUpdateCenterBody (Some 1)) dbA2) in
  option_map availableSlotsPerDay (findCenter X db') = Some 1
  /\ countBookingsForDate tz db' X june1 = 2.
Proof.
  intros db'.
  destruct (updateHealthcareCenter_default tz dbA2 centerAdmin X centerA 1)
    as [_ Hok]; [reflexivity |].
  destruct Hok as [_ Hstore]; [right; reflexivity |].
  destruct Hstore as (hcs' & Hf & Hn & _ & _ & _ & _ & Hcount); [lia|].
  change (findCenter X db' = Some hcs') in Hf. rewrite Hf. simpl.
  rewrite Hn. split; [reflexivity|]. exact (Hcount june1).
Defined.

(** Scenario B: the override of 1 slot for T is gone after the script. *)
Lemma initializeTestSlots_resets_capacity_witness :
  option_map (fun c => HealthcareCenterModel.getSlotsForTest c T)
    (findCenter X dbB) = Some 1
  /\ option_map (fun c => HealthcareCenterModel.getSlotsForTest c T)
       (findCenter X (initializeTestSlots dbB)) = Some 5.
Proof.
  split; [reflexivity|].
  destruct (initializeTestSlots_resets_capacity dbB) as (_ & _ & Hall).
  - repeat constructor. simpl. tauto.
  - destruct (Hall X centerB eq_refl) as (hcs' & Hf & _ & Hcap & _).
    rewrite Hf. simpl. f_equal. apply (Hcap testT). now left.
Defined.

End MoreWitnesses.
